(** * SceneManager: texture registry, material registry and per-draw state

    A shallow embedding of [SceneManager.cpp]: the texture registry
    ([CreateGLTexture], [BindGLTextures], [DestroyGLTextures],
    [FindTextureID], [FindTextureSlot]), the material registry
    ([DefineObjectMaterials], [FindMaterial]) and the methods that push
    per-draw state to the shader ([SetTransformations], [SetShaderColor],
    [SetShaderTexture], [SetTextureUVScale], [SetShaderMaterial]).

    The C++ object is a record of its members; a method is a function from
    that record to an [Outcome].  An [Outcome] is either a normal return or
    one of the undefined behaviours the C++ text can run into (a store past
    the end of the texture array, a call through a NULL shader manager, a
    signed overflow).  Calls into OpenGL, stb_image and the console are
    appended to a log kept next to the members, and what those libraries
    hand back (the decoded image, the texture name written by
    [glGenTextures]) is an explicit argument of the method that asks. *)

From Stdlib Require Import ZArith QArith Lia.
From stdpp Require Import base option list strings gmap.

Local Open Scope Z_scope.

(** ** Machine integers *)

Definition INT_MAX : Z := 2147483647.
Definition UINT_MAX : Z := 4294967295.

(** Conversion of a [GLuint] (32-bit unsigned) to [int] (32-bit signed), as
    in [textureID = m_textureIDs[index].ID] with [int textureID]. *)
Definition int_of_GLuint (u : Z) : Z :=
  (u + 2147483648) mod 4294967296 - 2147483648.

(** ** Outcomes *)

Inductive Fault :=
  | OutOfBounds        (* access to m_textureIDs outside the array *)
  | NullDereference    (* member call through a NULL m_pShaderManager *)
  | SignedOverflow     (* ++ on an int that holds INT_MAX *)
  | OutOfFuel.         (* a loop of the model ran out of steps; the
                          methods below never produce it, see the
                          [..._never_out_of_fuel] lemmas *)

Inductive Outcome (A : Type) :=
  | Ok (a : A)
  | Undefined (f : Fault).
Arguments Ok {A} a.
Arguments Undefined {A} f.

#[global] Instance Outcome_ret : MRet Outcome := λ A a, Ok a.
#[global] Instance Outcome_bind : MBind Outcome := λ A B k m,
  match m with
  | Ok a => k a
  | Undefined f => Undefined f
  end.

(** [while fuel cond body s] runs [while (cond) body] from the local state
    [s], for at most [fuel] iterations. *)
Fixpoint while {L : Type} (fuel : nat) (cond : L → bool)
    (body : L → Outcome L) (s : L) : Outcome L :=
  if cond s then
    match fuel with
    | O => Undefined OutOfFuel
    | S fuel' => s' ← body s; while fuel' cond body s'
    end
  else Ok s.

(** A C array (or a vector indexed below its size) read at [i]. *)
Definition array_get {A : Type} (a : list A) (i : Z) : Outcome A :=
  if bool_decide (0 ≤ i) then
    match a !! Z.to_nat i with
    | Some x => Ok x
    | None => Undefined OutOfBounds
    end
  else Undefined OutOfBounds.

(** A member of the element at [i] assigned in place. *)
Definition array_update {A : Type} (a : list A) (i : Z) (f : A → A)
    : Outcome (list A) :=
  if bool_decide (0 ≤ i ∧ i < Z.of_nat (length a))
  then Ok (alter f (Z.to_nat i) a)
  else Undefined OutOfBounds.

(** ** glm

    glm is a library outside the repository.  Its scalar type, its 4x4
    matrix type and the functions [SetTransformations] calls are the fields
    of a class; nothing is assumed about them. *)

Record vec2 (A : Type) := mk_vec2 { x2 : A; y2 : A }.
Record vec3 (A : Type) := mk_vec3 { x3 : A; y3 : A; z3 : A }.
Record vec4 (A : Type) := mk_vec4 { r4 : A; g4 : A; b4 : A; a4 : A }.
Arguments mk_vec2 {A}.
Arguments mk_vec3 {A}.
Arguments mk_vec4 {A}.
Arguments x2 {A}.
Arguments y2 {A}.
Arguments x3 {A}.
Arguments y3 {A}.
Arguments z3 {A}.
Arguments r4 {A}.
Arguments g4 {A}.
Arguments b4 {A}.
Arguments a4 {A}.

Class Glm := {
  float : Type;
  mat4 : Type;
  (* a decimal literal of the source, as a float *)
  float_lit : Q → float;
  glm_radians : float → float;
  glm_scale : vec3 float → mat4;
  glm_rotate : float → vec3 float → mat4;
  glm_translate : vec3 float → mat4;
  (* operator* on mat4 *)
  mat4_mul : mat4 → mat4 → mat4
}.

Declare Scope mat4_scope.
Delimit Scope mat4_scope with mat4.
Infix "*" := mat4_mul : mat4_scope.

(** ** Structures of SceneManager.h (not among the sources; the fields are
    those the methods use) *)

Module TEXTURE_INFO.
Record t := mk { ID : Z (* GLuint *); tag : string }.
End TEXTURE_INFO.

Module OBJECT_MATERIAL.
Record t `{Glm} := mk {
  ambientColor : vec3 float;
  ambientStrength : float;
  diffuseColor : vec3 float;
  specularColor : vec3 float;
  shininess : float;
  tag : string
}.
Arguments mk {_}.
End OBJECT_MATERIAL.

(** ** The outside world: OpenGL, stb_image, the console *)

Inductive GLenum :=
  | GL_TEXTURE_2D | GL_TEXTURE_WRAP_S | GL_TEXTURE_WRAP_T
  | GL_TEXTURE_MIN_FILTER | GL_TEXTURE_MAG_FILTER
  | GL_REPEAT | GL_LINEAR
  | GL_RGB8 | GL_RGB | GL_RGBA8 | GL_RGBA | GL_UNSIGNED_BYTE.

(** What [stbi_load] yields when it succeeds; the pixel bytes play no part
    in the control flow and are left out. *)
Record Image := mk_Image { width : Z; height : Z; colorChannels : Z }.

Inductive ConsoleLine :=
  | SuccessfullyLoaded (filename : string) (w h channels : Z)
  | NotImplementedChannels (channels : Z)
  | CouldNotLoad (filename : string).

(** One constructor per external call.  [glDeleteTextures] is the OpenGL
    call that releases a texture object; it is part of the interface
    although no method below issues it. *)
Inductive Call :=
  | stbi_set_flip_vertically_on_load (flag : bool)
  | stbi_load (filename : string) (result : option Image)
  | stbi_image_free
  | cout (line : ConsoleLine)
  | glGenTextures (name : Z)
  | glDeleteTextures (name : Z)
  | glBindTexture (target : GLenum) (texture : Z)
  | glTexParameteri (target pname param : GLenum)
  | glTexImage2D (target : GLenum) (internalformat : GLenum)
      (w h : Z) (format type : GLenum)
  | glGenerateMipmap (target : GLenum)
  | glActiveTexture (unit : Z).

(** The texture objects that exist after a log of calls (most recent call
    first): [glGenTextures] creates one, [glDeleteTextures] releases one. *)
Fixpoint live_textures (log : list Call) : gset Z :=
  match log with
  | [] => ∅
  | glGenTextures name :: earlier => {[ name ]} ∪ live_textures earlier
  | glDeleteTextures name :: earlier => live_textures earlier ∖ {[ name ]}
  | _ :: earlier => live_textures earlier
  end.

(** The number of [glDeleteTextures] calls in a log. *)
Fixpoint releases (log : list Call) : nat :=
  match log with
  | [] => O
  | glDeleteTextures _ :: earlier => S (releases earlier)
  | _ :: earlier => releases earlier
  end.

(** The number of decoded image buffers that [stbi_load] handed out and
    [stbi_image_free] has not taken back. *)
Fixpoint unfreed_images (log : list Call) : Z :=
  match log with
  | [] => 0
  | stbi_load _ (Some _) :: earlier => unfreed_images earlier + 1
  | stbi_image_free :: earlier => unfreed_images earlier - 1
  | _ :: earlier => unfreed_images earlier
  end.

(** ** The shader interface

    Modelled from the spec: the ShaderManager class is not among the
    sources.  The spec describes it as accepting named scalar, vector,
    matrix and sampler values with no return value, so it is a store of the
    last value written under each name. *)

Inductive Uniform `{Glm} :=
  | UInt (i : Z)
  | UFloat (f : float)
  | UVec2 (v : vec2 float)
  | UVec3 (v : vec3 float)
  | UVec4 (v : vec4 float)
  | UMat4 (m : mat4)
  | USampler2D (slot : Z).
Arguments UInt {_}.
Arguments UFloat {_}.
Arguments UVec2 {_}.
Arguments UVec3 {_}.
Arguments UVec4 {_}.
Arguments UMat4 {_}.
Arguments USampler2D {_}.

(** ** The object *)

Record SceneManager `{Glm} := mk_SceneManager {
  m_pShaderManager : option (gmap string Uniform);   (* None is NULL *)
  m_textureIDs : list TEXTURE_INFO.t;                (* the whole array *)
  m_loadedTextures : Z;
  m_objectMaterials : list OBJECT_MATERIAL.t;
  calls : list Call                                  (* most recent first *)
}.
Arguments mk_SceneManager {_}.

Section Methods.
Context `{G : Glm}.

Definition set_shader (this : SceneManager) (sh : gmap string Uniform)
    : SceneManager :=
  let 'mk_SceneManager _ a n ms cs := this in
  mk_SceneManager (Some sh) a n ms cs.

Definition set_textures (this : SceneManager) (a : list TEXTURE_INFO.t)
    (n : Z) : SceneManager :=
  let 'mk_SceneManager p _ _ ms cs := this in
  mk_SceneManager p a n ms cs.

Definition set_materials (this : SceneManager)
    (ms : list OBJECT_MATERIAL.t) : SceneManager :=
  let 'mk_SceneManager p a n _ cs := this in
  mk_SceneManager p a n ms cs.

(** An external call: logged, most recent first. *)
Definition call (c : Call) (this : SceneManager) : SceneManager :=
  let 'mk_SceneManager p a n ms cs := this in
  mk_SceneManager p a n ms (c :: cs).

(** [m_pShaderManager->setXValue(name, v)]: undefined through NULL. *)
Definition setValue (name : string) (v : Uniform) (this : SceneManager)
    : Outcome SceneManager :=
  match m_pShaderManager this with
  | None => Undefined NullDereference
  | Some sh => Ok (set_shader this (<[name := v]> sh))
  end.

Definition setIntValue name (b : bool) :=
  setValue name (UInt (if b then 1 else 0)).
Definition setFloatValue name f := setValue name (UFloat f).
Definition setVec2Value name v := setValue name (UVec2 v).
Definition setVec3Value name v := setValue name (UVec3 v).
Definition setVec4Value name v := setValue name (UVec4 v).
Definition setMat4Value name m := setValue name (UMat4 m).
Definition setSampler2DValue name slot := setValue name (USampler2D slot).

Definition is_NULL {A} (p : option A) : bool :=
  match p with None => true | Some _ => false end.

Definition g_ModelName : string := "model".
Definition g_ColorValueName : string := "objectColor".
Definition g_TextureValueName : string := "objectTexture".
Definition g_UseTextureName : string := "bUseTexture".
Definition g_UseLightingName : string := "bUseLighting".

(** [a.compare(b) == 0] *)
Definition compare_is_0 (a b : string) : bool :=
  match String.compare a b with Eq => true | _ => false end.

(** *** CreateGLTexture

    [decoded] is what [stbi_load] returns for [filename] ([None] is the
    NULL pointer) and [name] is what [glGenTextures] writes to
    [textureID]. *)
Definition CreateGLTexture (this : SceneManager) (filename tag : string)
    (decoded : option Image) (name : Z) : Outcome (bool * SceneManager) :=
  let this := call (stbi_set_flip_vertically_on_load true) this in
  let this := call (stbi_load filename decoded) this in
  match decoded with
  | Some image =>
    let this := call (cout (SuccessfullyLoaded filename (width image)
                              (height image) (colorChannels image))) this in
    let textureID := name in
    let this := call (glGenTextures textureID) this in
    let this := call (glBindTexture GL_TEXTURE_2D textureID) this in
    let this :=
      call (glTexParameteri GL_TEXTURE_2D GL_TEXTURE_WRAP_S GL_REPEAT) this in
    let this :=
      call (glTexParameteri GL_TEXTURE_2D GL_TEXTURE_WRAP_T GL_REPEAT) this in
    let this :=
      call (glTexParameteri GL_TEXTURE_2D GL_TEXTURE_MIN_FILTER GL_LINEAR)
        this in
    let this :=
      call (glTexParameteri GL_TEXTURE_2D GL_TEXTURE_MAG_FILTER GL_LINEAR)
        this in
    let upload internalformat format :=
      call (glTexImage2D GL_TEXTURE_2D internalformat (width image)
              (height image) format GL_UNSIGNED_BYTE) this in
    let then_register this :=
      let this := call (glGenerateMipmap GL_TEXTURE_2D) this in
      let this := call stbi_image_free this in
      let this := call (glBindTexture GL_TEXTURE_2D 0) this in
      a ← array_update (m_textureIDs this) (m_loadedTextures this)
            (λ e, TEXTURE_INFO.mk textureID (TEXTURE_INFO.tag e));
      a ← array_update a (m_loadedTextures this)
            (λ e, TEXTURE_INFO.mk (TEXTURE_INFO.ID e) tag);
      if bool_decide (m_loadedTextures this = INT_MAX)
      then Undefined SignedOverflow
      else Ok (true, set_textures this a (m_loadedTextures this + 1)) in
    if bool_decide (colorChannels image = 3) then
      then_register (upload GL_RGB8 GL_RGB)
    else if bool_decide (colorChannels image = 4) then
      then_register (upload GL_RGBA8 GL_RGBA)
    else
      let this :=
        call (cout (NotImplementedChannels (colorChannels image))) this in
      Ok (false, this)
  | None =>
    let this := call (cout (CouldNotLoad filename)) this in
    Ok (false, this)
  end.

(** *** BindGLTextures *)
Definition BindGLTextures (this : SceneManager) : Outcome SceneManager :=
  '(_, this) ← while (Z.to_nat (m_loadedTextures this))
    (λ '(i, this), bool_decide (i < m_loadedTextures this))
    (λ '(i, this),
       let this := call (glActiveTexture i) this in
       e ← array_get (m_textureIDs this) i;
       let this :=
         call (glBindTexture GL_TEXTURE_2D (TEXTURE_INFO.ID e)) this in
       Ok (i + 1, this))
    (0, this);
  Ok this.

(** *** DestroyGLTextures

    [names i] is the name [glGenTextures] writes in iteration [i]. *)
Definition DestroyGLTextures (this : SceneManager) (names : Z → Z)
    : Outcome SceneManager :=
  '(_, this) ← while (Z.to_nat (m_loadedTextures this))
    (λ '(i, this), bool_decide (i < m_loadedTextures this))
    (λ '(i, this),
       a ← array_update (m_textureIDs this) i
             (λ e, TEXTURE_INFO.mk (names i) (TEXTURE_INFO.tag e));
       let this := call (glGenTextures (names i)) this in
       Ok (i + 1, set_textures this a (m_loadedTextures this)))
    (0, this);
  Ok this.

(** *** FindTextureID *)
Definition FindTextureID (this : SceneManager) (tag : string) : Outcome Z :=
  let textureID := -1 in
  let index := 0 in
  let bFound := false in
  '(textureID, _, _) ← while (Z.to_nat (m_loadedTextures this))
    (λ '(textureID, index, bFound),
       bool_decide (index < m_loadedTextures this) && negb bFound)
    (λ '(textureID, index, bFound),
       e ← array_get (m_textureIDs this) index;
       if compare_is_0 (TEXTURE_INFO.tag e) tag
       then Ok (int_of_GLuint (TEXTURE_INFO.ID e), index, true)
       else Ok (textureID, index + 1, bFound))
    (textureID, index, bFound);
  Ok textureID.

(** *** FindTextureSlot *)
Definition FindTextureSlot (this : SceneManager) (tag : string) : Outcome Z :=
  let textureSlot := -1 in
  let index := 0 in
  let bFound := false in
  '(textureSlot, _, _) ← while (Z.to_nat (m_loadedTextures this))
    (λ '(textureSlot, index, bFound),
       bool_decide (index < m_loadedTextures this) && negb bFound)
    (λ '(textureSlot, index, bFound),
       e ← array_get (m_textureIDs this) index;
       if compare_is_0 (TEXTURE_INFO.tag e) tag
       then Ok (index, index, true)
       else Ok (textureSlot, index + 1, bFound))
    (textureSlot, index, bFound);
  Ok textureSlot.

(** *** FindMaterial

    [material] is the caller's object behind the reference parameter; the
    second component of the result is that object on return. *)
Definition FindMaterial (this : SceneManager) (tag : string)
    (material : OBJECT_MATERIAL.t) : Outcome (bool * OBJECT_MATERIAL.t) :=
  let size := Z.of_nat (length (m_objectMaterials this)) in
  if bool_decide (size = 0) then Ok (false, material)
  else
    let index := 0 in
    let bFound := false in
    '(material, _, _) ← while (length (m_objectMaterials this))
      (λ '(material, index, bFound),
         bool_decide (index < size) && negb bFound)
      (λ '(material, index, bFound),
         e ← array_get (m_objectMaterials this) index;
         if compare_is_0 (OBJECT_MATERIAL.tag e) tag
         then
           Ok (OBJECT_MATERIAL.mk
                 (OBJECT_MATERIAL.ambientColor e)
                 (OBJECT_MATERIAL.ambientStrength e)
                 (OBJECT_MATERIAL.diffuseColor e)
                 (OBJECT_MATERIAL.specularColor e)
                 (OBJECT_MATERIAL.shininess e)
                 (OBJECT_MATERIAL.tag material),
               index, true)
         else Ok (material, index + 1, bFound))
      (material, index, bFound);
    Ok (true, material).

(** *** SetTransformations *)
Definition SetTransformations (this : SceneManager) (scaleXYZ : vec3 float)
    (XrotationDegrees YrotationDegrees ZrotationDegrees : float)
    (positionXYZ : vec3 float) : Outcome SceneManager :=
  let f0 := float_lit 0 in
  let f1 := float_lit 1 in
  let scale := glm_scale scaleXYZ in
  let rotationX :=
    glm_rotate (glm_radians XrotationDegrees) (mk_vec3 f1 f0 f0) in
  let rotationY :=
    glm_rotate (glm_radians YrotationDegrees) (mk_vec3 f0 f1 f0) in
  let rotationZ :=
    glm_rotate (glm_radians ZrotationDegrees) (mk_vec3 f0 f0 f1) in
  let translation := glm_translate positionXYZ in
  let modelView :=
    (translation * rotationX * rotationY * rotationZ * scale)%mat4 in
  if negb (is_NULL (m_pShaderManager this))
  then setMat4Value g_ModelName modelView this
  else Ok this.

(** *** SetShaderColor *)
Definition SetShaderColor (this : SceneManager)
    (redColorValue greenColorValue blueColorValue alphaValue : float)
    : Outcome SceneManager :=
  let currentColor :=
    mk_vec4 redColorValue greenColorValue blueColorValue alphaValue in
  if negb (is_NULL (m_pShaderManager this)) then
    this ← setIntValue g_UseTextureName false this;
    setVec4Value g_ColorValueName currentColor this
  else Ok this.

(** *** SetShaderTexture *)
Definition SetShaderTexture (this : SceneManager) (textureTag : string)
    : Outcome SceneManager :=
  if negb (is_NULL (m_pShaderManager this)) then
    this ← setIntValue g_UseTextureName true this;
    textureID ← FindTextureSlot this textureTag;
    setSampler2DValue g_TextureValueName textureID this
  else Ok this.

(** *** SetTextureUVScale *)
Definition SetTextureUVScale (this : SceneManager) (u v : float)
    : Outcome SceneManager :=
  if negb (is_NULL (m_pShaderManager this))
  then setVec2Value "UVscale" (mk_vec2 u v) this
  else Ok this.

(** *** SetShaderMaterial

    [material] is the content of the local [OBJECT_MATERIAL material;]
    before the call of [FindMaterial]: the declaration does not initialise
    it, so it is whatever the caller of the model supplies. *)
Definition SetShaderMaterial (this : SceneManager) (materialTag : string)
    (material : OBJECT_MATERIAL.t) : Outcome SceneManager :=
  if bool_decide (Z.of_nat (length (m_objectMaterials this)) > 0) then
    '(bReturn, material) ← FindMaterial this materialTag material;
    if (bReturn : bool) then
      this ← setVec3Value "material.ambientColor"
               (OBJECT_MATERIAL.ambientColor material) this;
      this ← setFloatValue "material.ambientStrength"
               (OBJECT_MATERIAL.ambientStrength material) this;
      this ← setVec3Value "material.diffuseColor"
               (OBJECT_MATERIAL.diffuseColor material) this;
      this ← setVec3Value "material.specularColor"
               (OBJECT_MATERIAL.specularColor material) this;
      setFloatValue "material.shininess"
        (OBJECT_MATERIAL.shininess material) this
    else Ok this
  else Ok this.

(** *** LoadSceneTextures

    The sixteen [CreateGLTexture] calls, in order, followed by
    [BindGLTextures].  [stb] answers [stbi_load] for each file and [gl k] is
    the name [glGenTextures] writes in the [k]-th call. *)
Definition scene_textures : list (string * string) :=
  [ ("C:/Users/coope/Downloads/d6z6f7n-d0432750-413e-43dd-9c71-94851bd5de38.jpg", "floor");
    ("C:/Users/coope/Downloads/dark_brown_leather_texture__tileable___2048x2048__by_fabooguy_d7aect6-pre.jpg", "kickstand");
    ("C:/Users/coope/Downloads/Beveled_top_edge_red_textured_cast_finish_dusty_grubby_rough_flecked_metal_sheet_surface_texture.jpg", "kickbag");
    ("C:/Users/coope/Downloads/dumbell_steel_texture.jpg", "dumbell_steel");
    ("C:/Users/coope/Downloads/orange_dumbell_texture.jpg", "dumbell_orange");
    ("C:/Users/coope/Downloads/pink_dumbell_texture.jpg", "dumbell_pink");
    ("C:/Users/coope/Downloads/grey_dumbell_texture.jpg", "dumbell_grey");
    ("C:/Users/coope/Downloads/texture2.jpg", "wall");
    ("C:/Users/coope/Downloads/glass_window_texture.jpg", "window");
    ("C:/Users/coope/Downloads/window_wall_texture.jpg", "window_wall");
    ("C:/Users/coope/Downloads/TV_Texture.jpg", "tv");
    ("C:/Users/coope/Downloads/dumbell_steel_white_texture.jpg", "dumbell_steel_white");
    ("C:/Users/coope/Downloads/door_texture.jpg", "door");
    ("C:/Users/coope/Downloads/double_door_texture.jpg", "double_doors");
    ("C:/Users/coope/Downloads/texture1.jpg", "weight_mats");
    ("C:/Users/coope/Downloads/wall_mat_texture.jpg", "wall_mat") ].

Fixpoint CreateGLTextures (this : SceneManager)
    (files : list (string * string)) (stb : string → option Image)
    (gl : nat → Z) (k : nat) : Outcome SceneManager :=
  match files with
  | [] => Ok this
  | (filename, tag) :: files =>
    '(bReturn, this) ←
      CreateGLTexture this filename tag (stb filename) (gl k);
    CreateGLTextures this files stb gl (S k)
  end.

Definition LoadSceneTextures (this : SceneManager)
    (stb : string → option Image) (gl : nat → Z) : Outcome SceneManager :=
  this ← CreateGLTextures this scene_textures stb gl 0;
  BindGLTextures this.

(** *** DefineObjectMaterials *)
Definition material (ar ag ab strength dr dg db sr sg sb shine : Q)
    (tag : string) : OBJECT_MATERIAL.t :=
  OBJECT_MATERIAL.mk
    (mk_vec3 (float_lit ar) (float_lit ag) (float_lit ab))
    (float_lit strength)
    (mk_vec3 (float_lit dr) (float_lit dg) (float_lit db))
    (mk_vec3 (float_lit sr) (float_lit sg) (float_lit sb))
    (float_lit shine) tag.

Definition DefineObjectMaterials (this : SceneManager) : SceneManager :=
  let push_back (m : OBJECT_MATERIAL.t) (this : SceneManager) :=
    set_materials this (m_objectMaterials this ++ [m]) in
  let redKickMaterial :=
    material 0.2 0.2 0.1 0.4 0.3 0.3 0.2 0.6 0.5 0.4 22.0 "redKick" in
  let this := push_back redKickMaterial this in
  let KickStandMaterial :=
    material 0.2 0.2 0.1 0.4 0.3 0.3 0.2 0.6 0.5 0.4 22.0 "KickStand" in
  let this := push_back KickStandMaterial this in
  let MetalDumbbellMaterial :=
    material 0.1 0.1 0.1 0.2 0.1 0.1 0.1 0.5 0.5 0.5 32.0
      "darkMetallicDumbbell" in
  let this := push_back MetalDumbbellMaterial this in
  let TVScreenMaterial :=
    material 0.0 0.0 0.0 0.0 0.0 0.0 0.0 0.0 0.0 0.0 0.0 "blackTVScreen" in
  let this := push_back TVScreenMaterial this in
  let MirrorMaterial :=
    material 0.0 0.0 0.0 0.0 0.0 0.0 0.0 1.0 1.0 1.0 100.0 "glassMirror" in
  let this := push_back MirrorMaterial this in
  let WhiteWallMaterial :=
    material 0.8 0.8 0.8 0.2 0.8 0.8 0.8 0.0 0.0 0.0 0.0 "whiteWall" in
  let this := push_back WhiteWallMaterial this in
  let WhiteHardwoodMaterial :=
    material 0.4 0.4 0.4 0.3 0.8 0.8 0.8 0.3 0.3 0.3 25.0
      "whiteHardwoodFloor" in
  let this := push_back WhiteHardwoodMaterial this in
  let RubberDumbbellMaterial :=
    material 0.1 0.1 0.1 0.2 0.2 0.2 0.2 0.0 0.0 0.0 0.0 "rubberDumbbell" in
  let this := push_back RubberDumbbellMaterial this in
  let FloorMatMaterial :=
    material 0.1 0.1 0.1 0.2 0.3 0.3 0.3 0.0 0.0 0.0 0.0 "floorMat" in
  let this := push_back FloorMatMaterial this in
  let WhiteDoorMaterial :=
    material 0.2 0.2 0.2 0.3 0.8 0.8 0.8 0.2 0.2 0.2 10.0 "whiteDoor" in
  let this := push_back WhiteDoorMaterial this in
  let WindowMaterial :=
    material 0.2 0.2 0.2 0.1 0.8 0.8 0.8 0.0 0.0 0.0 0.0 "Window" in
  push_back WindowMaterial this.

(** ** The registry as the spec speaks of it *)

(** The registered entries: the first [m_loadedTextures] elements of the
    array, in load order. *)
Definition registered (this : SceneManager) : list TEXTURE_INFO.t :=
  take (Z.to_nat (m_loadedTextures this)) (m_textureIDs this).

(** The count does not run past the array. *)
Definition registry_ok (this : SceneManager) : Prop :=
  m_loadedTextures this ≤ Z.of_nat (length (m_textureIDs this)).

(** The spec's [Compose]: the product, taken left to right, of
    translation, rotation about X, about Y, about Z, and scale. *)
Definition Translation (position : vec3 float) : mat4 :=
  glm_translate position.
Definition RotationX (degrees : float) : mat4 :=
  glm_rotate (glm_radians degrees)
    (mk_vec3 (float_lit 1) (float_lit 0) (float_lit 0)).
Definition RotationY (degrees : float) : mat4 :=
  glm_rotate (glm_radians degrees)
    (mk_vec3 (float_lit 0) (float_lit 1) (float_lit 0)).
Definition RotationZ (degrees : float) : mat4 :=
  glm_rotate (glm_radians degrees)
    (mk_vec3 (float_lit 0) (float_lit 0) (float_lit 1)).
Definition Scale (scale : vec3 float) : mat4 :=
  glm_scale scale.

Definition product_left_to_right (first : mat4) (rest : list mat4) : mat4 :=
  foldl mat4_mul first rest.

Definition Compose (scale : vec3 float) (rotX rotY rotZ : float)
    (position : vec3 float) : mat4 :=
  product_left_to_right (Translation position)
    [RotationX rotX; RotationY rotY; RotationZ rotZ; Scale scale].

End Methods.

(** ** An exact instance of glm

    Rational scalars and 4x4 matrices of rationals stored by columns as
    glm stores them, with glm's formulas for [scale], [translate], [rotate]
    (for a unit axis) and the matrix product.  Angles stay in degrees and
    the sine and cosine are exact at the multiples of 90 degrees; any other
    angle is read as 0.  It serves to run the methods on concrete scenes. *)

Module Exact.
Local Open Scope Q_scope.

Definition col := vec4 Q.
Definition M4 := vec4 col.

Definition add (a b : Q) : Q := Qred (a + b).
Definition sub (a b : Q) : Q := Qred (a - b).
Definition mul (a b : Q) : Q := Qred (a * b).

Definition col_scale (c : col) (k : Q) : col :=
  mk_vec4 (mul (r4 c) k) (mul (g4 c) k) (mul (b4 c) k) (mul (a4 c) k).

Definition col_add (c d : col) : col :=
  mk_vec4 (add (r4 c) (r4 d)) (add (g4 c) (g4 d)) (add (b4 c) (b4 d))
    (add (a4 c) (a4 d)).

(** [m * v] *)
Definition transform (m : M4) (v : col) : col :=
  col_add (col_add (col_add (col_scale (r4 m) (r4 v)) (col_scale (g4 m) (g4 v)))
             (col_scale (b4 m) (b4 v))) (col_scale (a4 m) (a4 v)).

(** [m1 * m2]: column [j] of the product is [m1] applied to column [j] of
    [m2]. *)
Definition mat_mul (m1 m2 : M4) : M4 :=
  mk_vec4 (transform m1 (r4 m2)) (transform m1 (g4 m2))
    (transform m1 (b4 m2)) (transform m1 (a4 m2)).

Definition scale (v : vec3 Q) : M4 :=
  mk_vec4 (mk_vec4 (Qred (x3 v)) 0 0 0) (mk_vec4 0 (Qred (y3 v)) 0 0)
    (mk_vec4 0 0 (Qred (z3 v)) 0) (mk_vec4 0 0 0 1).

Definition translate (v : vec3 Q) : M4 :=
  mk_vec4 (mk_vec4 1 0 0 0) (mk_vec4 0 1 0 0) (mk_vec4 0 0 1 0)
    (mk_vec4 (Qred (x3 v)) (Qred (y3 v)) (Qred (z3 v)) 1).

Definition quarter_turns (degrees : Q) : Z :=
  let q := Qred degrees in
  if bool_decide (Qden q = 1%positive ∧ (Qnum q mod 90 = 0)%Z)
  then ((Qnum q / 90) mod 4)%Z else 0%Z.

Definition cosd (degrees : Q) : Q :=
  match quarter_turns degrees with
  | 0%Z => 1 | 2%Z => -1 | _ => 0
  end.

Definition sind (degrees : Q) : Q :=
  match quarter_turns degrees with
  | 1%Z => 1 | 3%Z => -1 | _ => 0
  end.

Definition rotate (angle : Q) (axis : vec3 Q) : M4 :=
  let c := cosd angle in
  let s := sind angle in
  let tx := mul (sub 1 c) (x3 axis) in
  let ty := mul (sub 1 c) (y3 axis) in
  let tz := mul (sub 1 c) (z3 axis) in
  mk_vec4
    (mk_vec4 (add c (mul tx (x3 axis)))
             (add (mul tx (y3 axis)) (mul s (z3 axis)))
             (sub (mul tx (z3 axis)) (mul s (y3 axis))) 0)
    (mk_vec4 (sub (mul ty (x3 axis)) (mul s (z3 axis)))
             (add c (mul ty (y3 axis)))
             (add (mul ty (z3 axis)) (mul s (x3 axis))) 0)
    (mk_vec4 (add (mul tz (x3 axis)) (mul s (y3 axis)))
             (sub (mul tz (y3 axis)) (mul s (x3 axis)))
             (add c (mul tz (z3 axis))) 0)
    (mk_vec4 0 0 0 1).

End Exact.

#[global] Instance ExactGlm : Glm := {|
  float := Q;
  mat4 := Exact.M4;
  float_lit := Qred;
  glm_radians := λ degrees, degrees;
  glm_scale := Exact.scale;
  glm_rotate := Exact.rotate;
  glm_translate := Exact.translate;
  mat4_mul := Exact.mat_mul
|}.

(** ** The three tag scans, seen as one

    The loops of [FindTextureID], [FindTextureSlot] and [FindMaterial] are
    the same loop up to what they record at a match ([pick]), the container
    they read ([a]), its bound ([n]) and the member holding the tag
    ([tag_of]).  The methods above are instances by unfolding. *)

Section ScanLoop.
Context {E R : Type} (tag_of : E → string) (pick : Z → E → R → R).
Context (a : list E) (n : Z) (tag : string).

Definition scan_body : R * Z * bool → Outcome (R * Z * bool) :=
  λ '(r, index, bFound),
    e ← array_get a index;
    if compare_is_0 (tag_of e) tag
    then Ok (pick index e r, index, true)
    else Ok (r, index + 1, bFound).

Definition scan_cond : R * Z * bool → bool :=
  λ '(_, index, bFound), bool_decide (index < n) && negb bFound.

End ScanLoop.

(** What [FindMaterial] copies into the caller's object at a match: every
    member but the tag. *)
Definition copy_material `{Glm} (e material : OBJECT_MATERIAL.t)
    : OBJECT_MATERIAL.t :=
  OBJECT_MATERIAL.mk
    (OBJECT_MATERIAL.ambientColor e)
    (OBJECT_MATERIAL.ambientStrength e)
    (OBJECT_MATERIAL.diffuseColor e)
    (OBJECT_MATERIAL.specularColor e)
    (OBJECT_MATERIAL.shininess e)
    (OBJECT_MATERIAL.tag material).

(** An entry carries the tag. *)
Definition has_tag (tag : string) (e : TEXTURE_INFO.t) : Prop :=
  TEXTURE_INFO.tag e = tag.

Definition material_has_tag `{Glm} (tag : string) (e : OBJECT_MATERIAL.t)
    : Prop :=
  OBJECT_MATERIAL.tag e = tag.

#[global] Instance has_tag_dec tag e : Decision (has_tag tag e) :=
  decide (TEXTURE_INFO.tag e = tag).

#[global] Instance material_has_tag_dec `{Glm} tag e
    : Decision (material_has_tag tag e) :=
  decide (OBJECT_MATERIAL.tag e = tag).

(** The five material uniforms, holding the members of [m]. *)
Definition material_uniforms `{Glm} (m : OBJECT_MATERIAL.t)
    (sh : gmap string Uniform) : gmap string Uniform :=
  let ambientColor := UVec3 (OBJECT_MATERIAL.ambientColor m) in
  let ambientStrength := UFloat (OBJECT_MATERIAL.ambientStrength m) in
  let diffuseColor := UVec3 (OBJECT_MATERIAL.diffuseColor m) in
  let specularColor := UVec3 (OBJECT_MATERIAL.specularColor m) in
  let shininess := UFloat (OBJECT_MATERIAL.shininess m) in
  <["material.shininess" := shininess]>
    (<["material.specularColor" := specularColor]>
       (<["material.diffuseColor" := diffuseColor]>
          (<["material.ambientStrength" := ambientStrength]>
             (<["material.ambientColor" := ambientColor]> sh)))).

(** The calls [CreateGLTexture] has logged when it reaches the test of the
    channel count, most recent first, and the upload that follows. *)
Definition upload_of (image : Image) (internalformat format : GLenum) : Call :=
  glTexImage2D GL_TEXTURE_2D internalformat (width image) (height image)
    format GL_UNSIGNED_BYTE.

Definition prologue (filename : string) (image : Image) (name : Z)
    : list Call :=
  [ glTexParameteri GL_TEXTURE_2D GL_TEXTURE_MAG_FILTER GL_LINEAR;
    glTexParameteri GL_TEXTURE_2D GL_TEXTURE_MIN_FILTER GL_LINEAR;
    glTexParameteri GL_TEXTURE_2D GL_TEXTURE_WRAP_T GL_REPEAT;
    glTexParameteri GL_TEXTURE_2D GL_TEXTURE_WRAP_S GL_REPEAT;
    glBindTexture GL_TEXTURE_2D name;
    glGenTextures name;
    cout (SuccessfullyLoaded filename (width image) (height image)
            (colorChannels image));
    stbi_load filename (Some image);
    stbi_set_flip_vertically_on_load true ].

(** ** Concrete scenes *)

(** A scene manager with a live shader manager, an array of [slots]
    default-constructed texture entries, nothing registered and nothing
    logged. *)
Definition new_scene `{Glm} (slots : nat) : SceneManager :=
  mk_SceneManager (Some ∅) (replicate slots (TEXTURE_INFO.mk 0 "")) 0 [] [].

(** The same object built with a NULL shader manager. *)
Definition new_scene_without_shader `{Glm} (slots : nat) : SceneManager :=
  mk_SceneManager None (replicate slots (TEXTURE_INFO.mk 0 "")) 0 [] [].

(** Every file decodes to a 64x64 RGB image; the driver numbers its
    textures 1, 2, 3, ... *)
Definition decodes_RGB (filename : string) : option Image :=
  Some (mk_Image 64 64 3).
Definition counting_driver (k : nat) : Z := Z.of_nat k + 1.

(** The scene as [PrepareScene] leaves its textures when every file decodes
    and the array has sixteen slots. *)
Definition loaded_scene : SceneManager :=
  match LoadSceneTextures (new_scene 16) decodes_RGB counting_driver with
  | Ok this => this
  | Undefined _ => new_scene 16
  end.

(** The object after a first texture has been loaded under the tag
    "floor". *)
Definition floor_loaded : SceneManager :=
  match CreateGLTexture (new_scene 16) "floor.jpg" "floor"
          (Some (mk_Image 64 64 3)) 1 with
  | Ok (_, this) => this
  | Undefined _ => new_scene 16
  end.

(** The materials of [DefineObjectMaterials], with and without a shader
    manager. *)
Definition scene_with_materials : SceneManager :=
  DefineObjectMaterials (new_scene 16).
Definition scene_with_materials_without_shader : SceneManager :=
  DefineObjectMaterials (new_scene_without_shader 16).

(** The loaded scene after teardown, the driver handing out the names 17,
    18, ... to the [glGenTextures] calls made there. *)
Definition destroyed_scene : SceneManager :=
  match DestroyGLTextures loaded_scene (λ i, 17 + i) with
  | Ok this => this
  | Undefined _ => loaded_scene
  end.

(** A single-channel (greyscale) image. *)
Definition grey_image : Image := mk_Image 64 64 1.

(** ** Lights, preparation and rendering

    The three methods that drive the others: [SetupSceneLights],
    [PrepareScene] and [RenderScene]. *)

(** The shapes of the mesh library, one per [Load<Shape>Mesh] /
    [Draw<Shape>Mesh] pair. *)
Inductive Shape :=
  | Plane | Box | Cylinder | Cone | Sphere | Torus | TaperedCylinder.

#[global] Instance Shape_eq_dec : EqDecision Shape.
Proof. solve_decision. Defined.

(** The body of [RenderScene] is a straight line of 1096 statements of
    eleven shapes; each is one constructor, with the literals of the
    source. *)
Inductive Stmt :=
  | scaleXYZ_assign (x y z : Q)       (* scaleXYZ = glm::vec3(x, y, z); *)
  | XrotationDegrees_assign (d : Q)   (* XrotationDegrees = d; *)
  | YrotationDegrees_assign (d : Q)
  | ZrotationDegrees_assign (d : Q)
  | positionXYZ_assign (x y z : Q)    (* positionXYZ = glm::vec3(x, y, z); *)
  | SetTransformations_call           (* SetTransformations(scaleXYZ,
                                         XrotationDegrees, YrotationDegrees,
                                         ZrotationDegrees, positionXYZ); *)
  | SetShaderColor_call (r g b a : Q)
  | SetShaderTexture_call (tag : string)
  | SetShaderMaterial_call (tag : string)
  | SetTextureUVScale_call (u v : Q)
  | Draw_call (shape : Shape).        (* m_basicMeshes->Draw<shape>Mesh(); *)

(** The statements of [RenderScene] after its declarations, in order. *)
Definition RenderScene_body : list Stmt :=
  [ SetTextureUVScale_call 2.0 2.0;
    scaleXYZ_assign 14.0 1.0 10.0; XrotationDegrees_assign 0.0;
    YrotationDegrees_assign 0.0; ZrotationDegrees_assign 0.0;
    positionXYZ_assign 0.0 15.0 0.0; SetTransformations_call;
    SetShaderColor_call 0 1 1 1; SetShaderTexture_call "wall";
    SetShaderMaterial_call "whiteWall"; Draw_call Plane;
    scaleXYZ_assign 14.0 1.0 6.0; XrotationDegrees_assign (-60.0);
    YrotationDegrees_assign 0.0; ZrotationDegrees_assign 0.0;
    positionXYZ_assign 0.0 15.0 (-6.0); SetTransformations_call;
    SetShaderColor_call 0 1 0.5 1; SetShaderTexture_call "wall";
    SetShaderMaterial_call "whiteWall"; Draw_call Plane; Draw_call Plane;
    scaleXYZ_assign 14.0 1.0 10.0; XrotationDegrees_assign 0.0;
    YrotationDegrees_assign 0.0; ZrotationDegrees_assign 0.0;
    positionXYZ_assign 0.0 0.0 0.0; SetTransformations_call;
    SetShaderColor_call 1 1 1 1; SetShaderTexture_call "floor";
    SetShaderMaterial_call "whiteHardwoodFloor"; Draw_call Plane;
    scaleXYZ_assign 8.0 0.0 14.0; XrotationDegrees_assign 90.0;
    YrotationDegrees_assign 90.0; ZrotationDegrees_assign 0.0;
    positionXYZ_assign 0.0 7.5 (-10.0); SetTransformations_call;
    SetShaderColor_call 1 1 1 1; SetShaderTexture_call "wall";
    SetShaderMaterial_call "whiteWall"; Draw_call Plane;
    scaleXYZ_assign 8.0 0.0 8.0; XrotationDegrees_assign 90.0;
    YrotationDegrees_assign 0.0; ZrotationDegrees_assign 90.0;
    positionXYZ_assign (-13.0) 7.5 (-4.0); SetTransformations_call;
    SetShaderColor_call 1 1 1 1; SetShaderTexture_call "wall";
    SetShaderMaterial_call "whiteWall"; Draw_call Plane;
    scaleXYZ_assign 1.0 0.0 8.0; XrotationDegrees_assign 90.0;
    YrotationDegrees_assign 0.0; ZrotationDegrees_assign 0.0;
    positionXYZ_assign (-14.0) 7.5 4.0; SetTransformations_call;
    SetShaderColor_call 1 1 1 1; SetShaderTexture_call "wall";
    SetShaderMaterial_call "whiteWall"; Draw_call Plane;
    scaleXYZ_assign 8.0 0.0 8.0; XrotationDegrees_assign 90.0;
    YrotationDegrees_assign 0.0; ZrotationDegrees_assign 90.0;
    positionXYZ_assign 13.0 7.5 (-4.0); SetTransformations_call;
    SetShaderColor_call 1 1 1 1; SetShaderTexture_call "wall";
    SetShaderMaterial_call "whiteWall"; Draw_call Plane;
    scaleXYZ_assign 8.0 0.0 8.0; XrotationDegrees_assign 90.0;
    YrotationDegrees_assign 0.0; ZrotationDegrees_assign (-50.0);
    positionXYZ_assign 13.0 7.5 (-1.0); SetTransformations_call;
    SetShaderColor_call 1 1 1 1; SetShaderTexture_call "wall";
    SetShaderMaterial_call "whiteWall"; Draw_call Plane;
    scaleXYZ_assign 2.6 0.0 8.0; XrotationDegrees_assign 90.0;
    YrotationDegrees_assign 0.0; ZrotationDegrees_assign 90.0;
    positionXYZ_assign 7.86 7.5 7.4; SetTransformations_call;
    SetShaderColor_call 1 1 1 1; SetShaderTexture_call "wall";
    SetShaderMaterial_call "whiteWall"; Draw_call Plane;
    scaleXYZ_assign 4.0 0.0 4.0; XrotationDegrees_assign 90.0;
    YrotationDegrees_assign 0.0; ZrotationDegrees_assign 90.0;
    positionXYZ_assign (-12.99) 7.5 (-2.0); SetTransformations_call;
    SetShaderColor_call 1 0 1 1; SetShaderTexture_call "window";
    SetShaderMaterial_call "Window"; Draw_call Plane;
    scaleXYZ_assign 0.2 0.2 8.2; XrotationDegrees_assign 0.0;
    YrotationDegrees_assign 0.0; ZrotationDegrees_assign 0.0;
    positionXYZ_assign (-12.8) 3.5 (-2.0); SetTransformations_call;
    SetShaderColor_call 1 0 1 1; SetShaderTexture_call "window_wall";
    SetShaderMaterial_call "whiteWall"; Draw_call Box;
    scaleXYZ_assign 0.2 0.2 8.2; XrotationDegrees_assign 0.0;
    YrotationDegrees_assign 0.0; ZrotationDegrees_assign 0.0;
    positionXYZ_assign (-12.8) 11.5 (-2.0); SetTransformations_call;
    SetShaderColor_call 1 0 1 1; SetShaderTexture_call "window_wall";
    SetShaderMaterial_call "whiteWall"; Draw_call Box;
    scaleXYZ_assign 0.2 0.2 8.2; XrotationDegrees_assign 90.0;
    YrotationDegrees_assign 0.0; ZrotationDegrees_assign 0.0;
    positionXYZ_assign (-12.8) 7.5 (-2.0); SetTransformations_call;
    SetShaderColor_call 1 0 1 1; SetShaderTexture_call "window_wall";
    SetShaderMaterial_call "whiteWall"; Draw_call Box;
    scaleXYZ_assign 0.2 0.2 8.2; XrotationDegrees_assign 90.0;
    YrotationDegrees_assign 0.0; ZrotationDegrees_assign 0.0;
    positionXYZ_assign (-12.8) 7.5 2.0; SetTransformations_call;
    SetShaderColor_call 1 0 1 1; SetShaderTexture_call "window_wall";
    SetShaderMaterial_call "whiteWall"; Draw_call Box;
    scaleXYZ_assign 0.2 0.2 8.2; XrotationDegrees_assign 90.0;
    YrotationDegrees_assign 0.0; ZrotationDegrees_assign 0.0;
    positionXYZ_assign (-12.8) 7.5 (-6.0); SetTransformations_call;
    SetShaderColor_call 1 0 1 1; SetShaderTexture_call "window_wall";
    SetShaderMaterial_call "whiteWall"; Draw_call Box;
    scaleXYZ_assign 6.0 0.0 6.5; XrotationDegrees_assign 90.0;
    YrotationDegrees_assign 0.0; ZrotationDegrees_assign 90.0;
    positionXYZ_assign (-14.0) 6.5 4.0; SetTransformations_call;
    SetShaderColor_call 1 1 0 1; SetShaderTexture_call "double_doors";
    SetShaderMaterial_call "whiteDoor"; Draw_call Plane;
    scaleXYZ_assign 6.0 0.0 2.0; XrotationDegrees_assign 90.0;
    YrotationDegrees_assign 0.0; ZrotationDegrees_assign 90.0;
    positionXYZ_assign (-14.0) 14.8 4.0; SetTransformations_call;
    SetShaderColor_call 1 1 1 1; SetShaderTexture_call "wall";
    SetShaderTexture_call "whiteWall"; Draw_call Plane;
    scaleXYZ_assign 1.2 1.0 2.8; XrotationDegrees_assign 0.0;
    YrotationDegrees_assign 0.0; ZrotationDegrees_assign 0.0;
    positionXYZ_assign (-12.7) 0.1 7.0; SetTransformations_call;
    SetShaderColor_call 1 0.4 1 1; SetShaderTexture_call "weight_mats";
    SetShaderMaterial_call "floorMat"; Draw_call Plane;
    scaleXYZ_assign 2.2 1.0 4.4; XrotationDegrees_assign 0.0;
    YrotationDegrees_assign 0.0; ZrotationDegrees_assign 0.0;
    positionXYZ_assign (-11.0) 0.1 (-0.4); SetTransformations_call;
    SetShaderColor_call 1 0.4 1 1; SetShaderTexture_call "weight_mats";
    SetShaderMaterial_call "floorMat"; Draw_call Plane;
    scaleXYZ_assign 2.2 1.0 10.4; XrotationDegrees_assign 0.0;
    YrotationDegrees_assign 90.0; ZrotationDegrees_assign 0.0;
    positionXYZ_assign 2.0 0.1 (-7.6); SetTransformations_call;
    SetShaderColor_call 1 0.4 1 1; SetShaderTexture_call "weight_mats";
    SetShaderMaterial_call "floorMat"; Draw_call Plane;
    scaleXYZ_assign 2.0 2.0 1.5; XrotationDegrees_assign 0.0;
    YrotationDegrees_assign 0.0; ZrotationDegrees_assign 0.0;
    positionXYZ_assign (-11.0) 0.0 (-7.0); SetTransformations_call;
    SetShaderTexture_call "kickstand"; SetShaderMaterial_call "KickStand";
    Draw_call TaperedCylinder;
    scaleXYZ_assign 0.8 2.0 0.5; XrotationDegrees_assign 0.0;
    YrotationDegrees_assign 0.0; ZrotationDegrees_assign 0.0;
    positionXYZ_assign (-11.0) 1.6 (-7.0); SetTransformations_call;
    SetShaderColor_call 1 0 0 1; SetShaderTexture_call "kickstand";
    SetShaderMaterial_call "KickStand"; Draw_call Cone;
    scaleXYZ_assign 1.0 5.0 1.0; XrotationDegrees_assign 0.0;
    YrotationDegrees_assign 0.0; ZrotationDegrees_assign 0.0;
    positionXYZ_assign (-11.0) 2.6 (-7.0); SetTransformations_call;
    SetShaderTexture_call "kickbag"; SetShaderMaterial_call "redKick";
    Draw_call Cylinder;
    scaleXYZ_assign 7.0 1.0 4.4; XrotationDegrees_assign 90.0;
    YrotationDegrees_assign 0.0; ZrotationDegrees_assign 0.0;
    positionXYZ_assign (-1.0) 5.0 (-9.8); SetTransformations_call;
    SetShaderColor_call 0 1 1 1; SetShaderTexture_call "window";
    SetShaderMaterial_call "glassMirror"; Draw_call Plane;
    scaleXYZ_assign 3.2 1.0 4.4; XrotationDegrees_assign 90.0;
    YrotationDegrees_assign 0.0; ZrotationDegrees_assign 90.0;
    positionXYZ_assign 12.9 5.0 (-4.6); SetTransformations_call;
    SetShaderColor_call 0 1 1 1; SetShaderTexture_call "window";
    SetShaderMaterial_call "glassMirror"; Draw_call Plane;
    scaleXYZ_assign 5.0 3.3 0.2; XrotationDegrees_assign 0.0;
    YrotationDegrees_assign 10.0; ZrotationDegrees_assign 0.0;
    positionXYZ_assign (-10.6) 8.5 (-8.5); SetTransformations_call;
    SetShaderColor_call 0.2 0.2 0.2 1; SetShaderTexture_call "tv";
    SetShaderMaterial_call "blackTVScreen"; Draw_call Box;
    scaleXYZ_assign 2.5 10.0 0.2; XrotationDegrees_assign 0.0;
    YrotationDegrees_assign 90.0; ZrotationDegrees_assign 0.0;
    positionXYZ_assign 7.8 6.0 7.0; SetTransformations_call;
    SetShaderColor_call 0.2 0.2 0.2 1; SetShaderTexture_call "wall_mat";
    SetShaderMaterial_call "floorMat"; Draw_call Box;
    scaleXYZ_assign 1.0 1.0 1.0; XrotationDegrees_assign 90.0;
    YrotationDegrees_assign 0.0; ZrotationDegrees_assign 0.0;
    positionXYZ_assign 11.0 0.2 (-6.0); SetTransformations_call;
    SetShaderColor_call 0.7 0.7 0.7 1;
    SetShaderTexture_call "dumbell_steel_white";
    SetShaderMaterial_call "darkMetallicDumbbell"; Draw_call Torus;
    scaleXYZ_assign 0.8 0.8 1.0; XrotationDegrees_assign 90.0;
    YrotationDegrees_assign 0.0; ZrotationDegrees_assign 0.0;
    positionXYZ_assign 11.0 0.4 (-6.0); SetTransformations_call;
    SetShaderColor_call 0.5 0.5 0.5 1;
    SetShaderTexture_call "dumbell_steel_white";
    SetShaderMaterial_call "darkMetallicDumbbell"; Draw_call Torus;
    scaleXYZ_assign 0.6 0.6 1.0; XrotationDegrees_assign 90.0;
    YrotationDegrees_assign 0.0; ZrotationDegrees_assign 0.0;
    positionXYZ_assign 11.0 0.6 (-6.0); SetTransformations_call;
    SetShaderColor_call 0.3 0.3 0.3 1;
    SetShaderTexture_call "dumbell_steel_white";
    SetShaderMaterial_call "darkMetallicDumbbell"; Draw_call Torus;
    scaleXYZ_assign 0.5 0.3 1.0; XrotationDegrees_assign 90.0;
    YrotationDegrees_assign 0.0; ZrotationDegrees_assign 0.0;
    positionXYZ_assign 11.0 0.6 (-6.0); SetTransformations_call;
    SetShaderColor_call 0.3 0.3 0.3 1;
    SetShaderTexture_call "dumbell_steel_white";
    SetShaderMaterial_call "darkMetallicDumbbell"; Draw_call Torus;
    scaleXYZ_assign 0.5 0.4 0.5; XrotationDegrees_assign 0.0;
    YrotationDegrees_assign 0.0; ZrotationDegrees_assign 0.0;
    positionXYZ_assign (-11.0) 1.0 (-0.7); SetTransformations_call;
    SetShaderColor_call 0.2 0.2 0.2 1; SetShaderTexture_call "dumbell_steel";
    SetShaderMaterial_call "darkMetallicDumbbell"; Draw_call Torus;
    scaleXYZ_assign 0.5 0.5 0.5; XrotationDegrees_assign 0.0;
    YrotationDegrees_assign 0.0; ZrotationDegrees_assign 0.0;
    positionXYZ_assign (-11.0) 0.4 (-0.7); SetTransformations_call;
    SetShaderColor_call 0.2 0.2 0.2 1; SetShaderTexture_call "kettlebell_blue";
    Draw_call Sphere;
    scaleXYZ_assign 0.5 0.4 0.5; XrotationDegrees_assign 0.0;
    YrotationDegrees_assign 0.0; ZrotationDegrees_assign 0.0;
    positionXYZ_assign (-11.0) 1.0 (-2.0); SetTransformations_call;
    SetShaderColor_call 0.2 0.2 0.2 1; SetShaderTexture_call "dumbell_steel";
    SetShaderMaterial_call "darkMetallicDumbbell"; Draw_call Torus;
    scaleXYZ_assign 0.5 0.5 0.5; XrotationDegrees_assign 0.0;
    YrotationDegrees_assign 0.0; ZrotationDegrees_assign 0.0;
    positionXYZ_assign (-11.0) 0.4 (-2.0); SetTransformations_call;
    SetShaderColor_call 0.2 0.2 0.2 1; SetShaderTexture_call "kettlebell_blue";
    Draw_call Sphere;
    scaleXYZ_assign 0.5 0.4 0.5; XrotationDegrees_assign 0.0;
    YrotationDegrees_assign 0.0; ZrotationDegrees_assign 0.0;
    positionXYZ_assign (-11.0) 1.0 (-3.3); SetTransformations_call;
    SetShaderColor_call 0.2 0.2 0.2 1; SetShaderTexture_call "dumbell_steel";
    SetShaderMaterial_call "darkMetallicDumbbell"; Draw_call Torus;
    scaleXYZ_assign 0.5 0.5 0.5; XrotationDegrees_assign 0.0;
    YrotationDegrees_assign 0.0; ZrotationDegrees_assign 0.0;
    positionXYZ_assign (-11.0) 0.4 (-3.3); SetTransformations_call;
    SetShaderColor_call 0.2 0.2 0.2 1; SetShaderTexture_call "kettlebell_blue";
    Draw_call Sphere;
    scaleXYZ_assign 0.5 0.4 0.5; XrotationDegrees_assign 0.0;
    YrotationDegrees_assign 0.0; ZrotationDegrees_assign 0.0;
    positionXYZ_assign (-11.0) 1.0 (-4.5); SetTransformations_call;
    SetShaderColor_call 0.2 0.2 0.2 1; SetShaderTexture_call "dumbell_steel";
    SetShaderMaterial_call "darkMetallicDumbbell"; Draw_call Torus;
    scaleXYZ_assign 0.5 0.5 0.5; XrotationDegrees_assign 0.0;
    YrotationDegrees_assign 0.0; ZrotationDegrees_assign 0.0;
    positionXYZ_assign (-11.0) 0.4 (-4.5); SetTransformations_call;
    SetShaderColor_call 0.2 0.2 0.2 1; SetShaderTexture_call "kettlebell_blue";
    Draw_call Sphere;
    scaleXYZ_assign 0.08 0.8 0.06; XrotationDegrees_assign 90.0;
    YrotationDegrees_assign 0.0; ZrotationDegrees_assign 90.0;
    positionXYZ_assign (-12.3) 0.4 7.0; SetTransformations_call;
    SetShaderColor_call 0.2 0.2 0.2 1; SetShaderTexture_call "dumbell_steel";
    SetShaderMaterial_call "darkMetallicDumbbell"; Draw_call Cylinder;
    scaleXYZ_assign 0.3 0.4 0.4; XrotationDegrees_assign 0.0;
    YrotationDegrees_assign 0.0; ZrotationDegrees_assign 0.0;
    positionXYZ_assign (-12.3) 0.4 7.0; SetTransformations_call;
    SetShaderColor_call 0.2 0.2 0.2 1; SetShaderTexture_call "dumbell_steel";
    SetShaderMaterial_call "darkMetallicDumbbell"; Draw_call Box;
    scaleXYZ_assign 0.3 0.4 0.4; XrotationDegrees_assign 0.0;
    YrotationDegrees_assign 0.0; ZrotationDegrees_assign 0.0;
    positionXYZ_assign (-13.3) 0.4 7.0; SetTransformations_call;
    SetShaderColor_call 0.2 0.2 0.2 1; SetShaderTexture_call "dumbell_steel";
    SetShaderMaterial_call "darkMetallicDumbbell"; Draw_call Box;
    scaleXYZ_assign 0.3 0.4 0.4; XrotationDegrees_assign 0.0;
    YrotationDegrees_assign 0.0; ZrotationDegrees_assign 0.0;
    positionXYZ_assign (-12.3) 0.4 7.0; SetTransformations_call;
    SetShaderColor_call 0.2 0.2 0.2 1; SetShaderTexture_call "dumbell_steel";
    SetShaderMaterial_call "darkMetallicDumbbell"; Draw_call Box;
    scaleXYZ_assign 0.3 0.4 0.4; XrotationDegrees_assign 0.0;
    YrotationDegrees_assign 0.0; ZrotationDegrees_assign 0.0;
    positionXYZ_assign (-13.3) 0.4 7.0; SetTransformations_call;
    SetShaderColor_call 0.2 0.2 0.2 1; SetShaderTexture_call "dumbell_steel";
    SetShaderMaterial_call "darkMetallicDumbbell"; Draw_call Box;
    scaleXYZ_assign 0.08 0.8 0.06; XrotationDegrees_assign 90.0;
    YrotationDegrees_assign 0.0; ZrotationDegrees_assign 90.0;
    positionXYZ_assign (-12.3) 0.4 9.0; SetTransformations_call;
    SetShaderColor_call 0.2 0.2 0.2 1; SetShaderTexture_call "dumbell_steel";
    SetShaderMaterial_call "darkMetallicDumbbell"; Draw_call Cylinder;
    scaleXYZ_assign 0.3 0.4 0.4; XrotationDegrees_assign 0.0;
    YrotationDegrees_assign 0.0; ZrotationDegrees_assign 0.0;
    positionXYZ_assign (-12.3) 0.4 9.0; SetTransformations_call;
    SetShaderColor_call 0.2 0.2 0.2 1; SetShaderTexture_call "dumbell_steel";
    SetShaderMaterial_call "darkMetallicDumbbell"; Draw_call Box;
    scaleXYZ_assign 0.3 0.4 0.4; XrotationDegrees_assign 0.0;
    YrotationDegrees_assign 0.0; ZrotationDegrees_assign 0.0;
    positionXYZ_assign (-13.3) 0.4 9.0; SetTransformations_call;
    SetShaderColor_call 0.2 0.2 0.2 1; SetShaderTexture_call "dumbell_steel";
    SetShaderMaterial_call "darkMetallicDumbbell"; Draw_call Box;
    scaleXYZ_assign 0.08 0.8 0.06; XrotationDegrees_assign 90.0;
    YrotationDegrees_assign 0.0; ZrotationDegrees_assign 90.0;
    positionXYZ_assign (-12.3) 0.4 8.0; SetTransformations_call;
    SetShaderColor_call 0.2 0.2 0.2 1; SetShaderTexture_call "dumbell_steel";
    SetShaderMaterial_call "darkMetallicDumbbell"; Draw_call Cylinder;
    scaleXYZ_assign 0.3 0.4 0.4; XrotationDegrees_assign 0.0;
    YrotationDegrees_assign 0.0; ZrotationDegrees_assign 0.0;
    positionXYZ_assign (-12.3) 0.4 8.0; SetTransformations_call;
    SetShaderColor_call 0.2 0.2 0.2 1; SetShaderTexture_call "dumbell_steel";
    SetShaderMaterial_call "darkMetallicDumbbell"; Draw_call Box;
    scaleXYZ_assign 0.3 0.4 0.4; XrotationDegrees_assign 0.0;
    YrotationDegrees_assign 0.0; ZrotationDegrees_assign 0.0;
    positionXYZ_assign (-13.3) 0.4 8.0; SetTransformations_call;
    SetShaderColor_call 0.2 0.2 0.2 1; SetShaderTexture_call "dumbell_steel";
    SetShaderMaterial_call "darkMetallicDumbbell"; Draw_call Box;
    scaleXYZ_assign 0.08 0.8 0.06; XrotationDegrees_assign 90.0;
    YrotationDegrees_assign 0.0; ZrotationDegrees_assign 90.0;
    positionXYZ_assign (-12.3) 0.4 6.0; SetTransformations_call;
    SetShaderColor_call 0.2 0.2 0.2 1; SetShaderTexture_call "dumbell_steel";
    SetShaderMaterial_call "darkMetallicDumbbell"; Draw_call Cylinder;
    scaleXYZ_assign 0.3 0.4 0.4; XrotationDegrees_assign 0.0;
    YrotationDegrees_assign 0.0; ZrotationDegrees_assign 0.0;
    positionXYZ_assign (-12.3) 0.4 6.0; SetTransformations_call;
    SetShaderColor_call 0.2 0.2 0.2 1; SetShaderTexture_call "dumbell_steel";
    SetShaderMaterial_call "darkMetallicDumbbell"; Draw_call Box;
    scaleXYZ_assign 0.3 0.4 0.4; XrotationDegrees_assign 0.0;
    YrotationDegrees_assign 0.0; ZrotationDegrees_assign 0.0;
    positionXYZ_assign (-13.3) 0.4 6.0; SetTransformations_call;
    SetShaderColor_call 0.2 0.2 0.2 1; SetShaderTexture_call "dumbell_steel";
    SetShaderMaterial_call "darkMetallicDumbbell"; Draw_call Box;
    scaleXYZ_assign 0.08 0.8 0.06; XrotationDegrees_assign 90.0;
    YrotationDegrees_assign 0.0; ZrotationDegrees_assign 90.0;
    positionXYZ_assign (-11.3) 0.4 3.8; SetTransformations_call;
    SetShaderColor_call 0.2 0.2 0.2 1; SetShaderTexture_call "dumbell_orange";
    SetShaderMaterial_call "rubberDumbell"; Draw_call Cylinder;
    scaleXYZ_assign 0.3 0.4 0.4; XrotationDegrees_assign 0.0;
    YrotationDegrees_assign 0.0; ZrotationDegrees_assign 0.0;
    positionXYZ_assign (-11.3) 0.4 3.8; SetTransformations_call;
    SetShaderColor_call 0.2 0.2 0.2 1; SetShaderTexture_call "dumbell_orange";
    SetShaderMaterial_call "rubberDumbell"; Draw_call Box;
    scaleXYZ_assign 0.3 0.4 0.4; XrotationDegrees_assign 0.0;
    YrotationDegrees_assign 0.0; ZrotationDegrees_assign 0.0;
    positionXYZ_assign (-12.2) 0.4 3.8; SetTransformations_call;
    SetShaderColor_call 0.2 0.2 0.2 1; SetShaderTexture_call "dumbell_orange";
    SetShaderMaterial_call "rubberDumbell"; Draw_call Box;
    scaleXYZ_assign 0.08 0.8 0.06; XrotationDegrees_assign 90.0;
    YrotationDegrees_assign 0.0; ZrotationDegrees_assign 90.0;
    positionXYZ_assign (-11.3) 0.4 3.0; SetTransformations_call;
    SetShaderColor_call 0.2 0.2 0.2 1; SetShaderTexture_call "dumbell_orange";
    SetShaderMaterial_call "rubberDumbell"; Draw_call Cylinder;
    scaleXYZ_assign 0.3 0.4 0.4; XrotationDegrees_assign 0.0;
    YrotationDegrees_assign 0.0; ZrotationDegrees_assign 0.0;
    positionXYZ_assign (-11.3) 0.4 3.0; SetTransformations_call;
    SetShaderColor_call 0.2 0.2 0.2 1; SetShaderTexture_call "dumbell_orange";
    SetShaderMaterial_call "rubberDumbell"; Draw_call Box;
    scaleXYZ_assign 0.3 0.4 0.4; XrotationDegrees_assign 0.0;
    YrotationDegrees_assign 0.0; ZrotationDegrees_assign 0.0;
    positionXYZ_assign (-12.2) 0.4 3.0; SetTransformations_call;
    SetShaderColor_call 0.2 0.2 0.2 1; SetShaderTexture_call "dumbell_orange";
    SetShaderMaterial_call "rubberDumbell"; Draw_call Box;
    scaleXYZ_assign 0.08 0.8 0.06; XrotationDegrees_assign 90.0;
    YrotationDegrees_assign 0.0; ZrotationDegrees_assign 90.0;
    positionXYZ_assign (-11.3) 0.4 2.0; SetTransformations_call;
    SetShaderColor_call 0.2 0.2 0.2 1; SetShaderTexture_call "dumbell_pink";
    SetShaderMaterial_call "rubberDumbell"; Draw_call Cylinder;
    scaleXYZ_assign 0.3 0.4 0.4; XrotationDegrees_assign 0.0;
    YrotationDegrees_assign 0.0; ZrotationDegrees_assign 0.0;
    positionXYZ_assign (-11.3) 0.4 2.0; SetTransformations_call;
    SetShaderColor_call 0.2 0.2 0.2 1; SetShaderTexture_call "dumbell_pink";
    SetShaderMaterial_call "rubberDumbell"; Draw_call Box;
    scaleXYZ_assign 0.3 0.4 0.4; XrotationDegrees_assign 0.0;
    YrotationDegrees_assign 0.0; ZrotationDegrees_assign 0.0;
    positionXYZ_assign (-12.2) 0.4 2.0; SetTransformations_call;
    SetShaderColor_call 0.2 0.2 0.2 1; SetShaderTexture_call "dumbell_pink";
    SetShaderMaterial_call "rubberDumbell"; Draw_call Box;
    scaleXYZ_assign 0.08 0.8 0.06; XrotationDegrees_assign 90.0;
    YrotationDegrees_assign 0.0; ZrotationDegrees_assign 90.0;
    positionXYZ_assign (-11.3) 0.4 1.0; SetTransformations_call;
    SetShaderColor_call 0.2 0.2 0.2 1; SetShaderTexture_call "dumbell_grey";
    SetShaderMaterial_call "rubberDumbell"; Draw_call Cylinder;
    scaleXYZ_assign 0.3 0.4 0.4; XrotationDegrees_assign 0.0;
    YrotationDegrees_assign 0.0; ZrotationDegrees_assign 0.0;
    positionXYZ_assign (-11.3) 0.4 1.0; SetTransformations_call;
    SetShaderColor_call 0.2 0.2 0.2 1; SetShaderTexture_call "dumbell_grey";
    SetShaderMaterial_call "rubberDumbell"; Draw_call Box;
    scaleXYZ_assign 0.3 0.4 0.4; XrotationDegrees_assign 0.0;
    YrotationDegrees_assign 0.0; ZrotationDegrees_assign 0.0;
    positionXYZ_assign (-12.2) 0.4 1.0; SetTransformations_call;
    SetShaderColor_call 0.2 0.2 0.2 1; SetShaderTexture_call "dumbell_grey";
    SetShaderMaterial_call "rubberDumbell"; Draw_call Box;
    scaleXYZ_assign 0.12 1.0 0.08; XrotationDegrees_assign 0.0;
    YrotationDegrees_assign 90.0; ZrotationDegrees_assign 90.0;
    positionXYZ_assign (-6.3) 0.4 (-9.0); SetTransformations_call;
    SetShaderColor_call 0.2 0.2 0.2 1; SetShaderTexture_call "dumbell_steel";
    SetShaderMaterial_call "darkMetallicDumbbell"; Draw_call Cylinder;
    scaleXYZ_assign 0.5 0.6 0.6; XrotationDegrees_assign 0.0;
    YrotationDegrees_assign 90.0; ZrotationDegrees_assign 0.0;
    positionXYZ_assign (-6.3) 0.4 (-9.0); SetTransformations_call;
    SetShaderColor_call 0.2 0.2 0.2 1; SetShaderTexture_call "dumbell_steel";
    SetShaderMaterial_call "darkMetallicDumbbell"; Draw_call Box;
    scaleXYZ_assign 0.5 0.6 0.6; XrotationDegrees_assign 0.0;
    YrotationDegrees_assign 90.0; ZrotationDegrees_assign 0.0;
    positionXYZ_assign (-6.3) 0.4 (-8.0); SetTransformations_call;
    SetShaderColor_call 0.2 0.2 0.2 1; SetShaderTexture_call "dumbell_steel";
    SetShaderMaterial_call "darkMetallicDumbbell"; Draw_call Box;
    scaleXYZ_assign 0.12 1.0 0.08; XrotationDegrees_assign 0.0;
    YrotationDegrees_assign 90.0; ZrotationDegrees_assign 90.0;
    positionXYZ_assign (-5.3) 0.4 (-9.0); SetTransformations_call;
    SetShaderColor_call 0.2 0.2 0.2 1; SetShaderTexture_call "dumbell_steel";
    SetShaderMaterial_call "darkMetallicDumbbell"; Draw_call Cylinder;
    scaleXYZ_assign 0.5 0.6 0.6; XrotationDegrees_assign 0.0;
    YrotationDegrees_assign 90.0; ZrotationDegrees_assign 0.0;
    positionXYZ_assign (-5.3) 0.4 (-9.0); SetTransformations_call;
    SetShaderColor_call 0.2 0.2 0.2 1; SetShaderTexture_call "dumbell_steel";
    SetShaderMaterial_call "darkMetallicDumbbell"; Draw_call Box;
    scaleXYZ_assign 0.5 0.6 0.6; XrotationDegrees_assign 0.0;
    YrotationDegrees_assign 90.0; ZrotationDegrees_assign 0.0;
    positionXYZ_assign (-5.3) 0.4 (-8.0); SetTransformations_call;
    SetShaderColor_call 0.2 0.2 0.2 1; SetShaderTexture_call "dumbell_steel";
    SetShaderMaterial_call "darkMetallicDumbbell"; Draw_call Box;
    scaleXYZ_assign 0.12 1.0 0.08; XrotationDegrees_assign 0.0;
    YrotationDegrees_assign 90.0; ZrotationDegrees_assign 90.0;
    positionXYZ_assign (-4.3) 0.4 (-9.0); SetTransformations_call;
    SetShaderColor_call 0.2 0.2 0.2 1; SetShaderTexture_call "dumbell_steel";
    SetShaderMaterial_call "darkMetallicDumbbell"; Draw_call Cylinder;
    scaleXYZ_assign 0.5 0.6 0.6; XrotationDegrees_assign 0.0;
    YrotationDegrees_assign 90.0; ZrotationDegrees_assign 0.0;
    positionXYZ_assign (-4.3) 0.4 (-9.0); SetTransformations_call;
    SetShaderColor_call 0.2 0.2 0.2 1; SetShaderTexture_call "dumbell_steel";
    SetShaderMaterial_call "darkMetallicDumbbell"; Draw_call Box;
    scaleXYZ_assign 0.5 0.6 0.6; XrotationDegrees_assign 0.0;
    YrotationDegrees_assign 90.0; ZrotationDegrees_assign 0.0;
    positionXYZ_assign (-4.3) 0.4 (-8.0); SetTransformations_call;
    SetShaderColor_call 0.2 0.2 0.2 1; SetShaderTexture_call "dumbell_steel";
    SetShaderMaterial_call "darkMetallicDumbbell"; Draw_call Box;
    scaleXYZ_assign 0.12 1.0 0.08; XrotationDegrees_assign 0.0;
    YrotationDegrees_assign 90.0; ZrotationDegrees_assign 90.0;
    positionXYZ_assign (-3.3) 0.4 (-9.0); SetTransformations_call;
    SetShaderColor_call 0.2 0.2 0.2 1; SetShaderTexture_call "dumbell_steel";
    SetShaderMaterial_call "darkMetallicDumbbell"; Draw_call Cylinder;
    scaleXYZ_assign 0.5 0.6 0.6; XrotationDegrees_assign 0.0;
    YrotationDegrees_assign 90.0; ZrotationDegrees_assign 0.0;
    positionXYZ_assign (-3.3) 0.4 (-9.0); SetTransformations_call;
    SetShaderColor_call 0.2 0.2 0.2 1; SetShaderTexture_call "dumbell_steel";
    SetShaderMaterial_call "darkMetallicDumbbell"; Draw_call Box;
    scaleXYZ_assign 0.5 0.6 0.6; XrotationDegrees_assign 0.0;
    YrotationDegrees_assign 90.0; ZrotationDegrees_assign 0.0;
    positionXYZ_assign (-3.3) 0.4 (-8.0); SetTransformations_call;
    SetShaderColor_call 0.2 0.2 0.2 1; SetShaderTexture_call "dumbell_steel";
    SetShaderMaterial_call "darkMetallicDumbbell"; Draw_call Box;
    scaleXYZ_assign 0.12 1.0 0.08; XrotationDegrees_assign 0.0;
    YrotationDegrees_assign 90.0; ZrotationDegrees_assign 90.0;
    positionXYZ_assign (-2.3) 0.4 (-9.0); SetTransformations_call;
    SetShaderColor_call 0.2 0.2 0.2 1; SetShaderTexture_call "dumbell_steel";
    SetShaderMaterial_call "darkMetallicDumbbell"; Draw_call Cylinder;
    scaleXYZ_assign 0.5 0.6 0.6; XrotationDegrees_assign 0.0;
    YrotationDegrees_assign 90.0; ZrotationDegrees_assign 0.0;
    positionXYZ_assign (-2.3) 0.4 (-9.0); SetTransformations_call;
    SetShaderColor_call 0.2 0.2 0.2 1; SetShaderTexture_call "dumbell_steel";
    SetShaderMaterial_call "darkMetallicDumbbell"; Draw_call Box;
    scaleXYZ_assign 0.5 0.6 0.6; XrotationDegrees_assign 0.0;
    YrotationDegrees_assign 90.0; ZrotationDegrees_assign 0.0;
    positionXYZ_assign (-2.3) 0.4 (-8.0); SetTransformations_call;
    SetShaderColor_call 0.2 0.2 0.2 1; SetShaderTexture_call "dumbell_steel";
    SetShaderMaterial_call "darkMetallicDumbbell"; Draw_call Box;
    scaleXYZ_assign 0.12 1.0 0.08; XrotationDegrees_assign 0.0;
    YrotationDegrees_assign 90.0; ZrotationDegrees_assign 90.0;
    positionXYZ_assign (-1.3) 0.4 (-9.0); SetTransformations_call;
    SetShaderColor_call 0.2 0.2 0.2 1; SetShaderTexture_call "dumbell_steel";
    SetShaderMaterial_call "darkMetallicDumbbell"; Draw_call Cylinder;
    scaleXYZ_assign 0.5 0.6 0.6; XrotationDegrees_assign 0.0;
    YrotationDegrees_assign 90.0; ZrotationDegrees_assign 0.0;
    positionXYZ_assign (-1.3) 0.4 (-9.0); SetTransformations_call;
    SetShaderColor_call 0.2 0.2 0.2 1; SetShaderTexture_call "dumbell_steel";
    SetShaderMaterial_call "darkMetallicDumbbell"; Draw_call Box;
    scaleXYZ_assign 0.5 0.6 0.6; XrotationDegrees_assign 0.0;
    YrotationDegrees_assign 90.0; ZrotationDegrees_assign 0.0;
    positionXYZ_assign (-1.3) 0.4 (-8.0); SetTransformations_call;
    SetShaderColor_call 0.2 0.2 0.2 1; SetShaderTexture_call "dumbell_steel";
    SetShaderMaterial_call "darkMetallicDumbbell"; Draw_call Box;
    scaleXYZ_assign 0.12 1.0 0.08; XrotationDegrees_assign 0.0;
    YrotationDegrees_assign 90.0; ZrotationDegrees_assign 90.0;
    positionXYZ_assign (-0.3) 0.4 (-9.0); SetTransformations_call;
    SetShaderColor_call 0.2 0.2 0.2 1; SetShaderTexture_call "dumbell_steel";
    SetShaderMaterial_call "darkMetallicDumbbell"; Draw_call Cylinder;
    scaleXYZ_assign 0.5 0.6 0.6; XrotationDegrees_assign 0.0;
    YrotationDegrees_assign 90.0; ZrotationDegrees_assign 0.0;
    positionXYZ_assign (-0.3) 0.4 (-9.0); SetTransformations_call;
    SetShaderColor_call 0.2 0.2 0.2 1; SetShaderTexture_call "dumbell_steel";
    SetShaderMaterial_call "darkMetallicDumbbell"; Draw_call Box;
    scaleXYZ_assign 0.5 0.6 0.6; XrotationDegrees_assign 0.0;
    YrotationDegrees_assign 90.0; ZrotationDegrees_assign 0.0;
    positionXYZ_assign (-0.3) 0.4 (-8.0); SetTransformations_call;
    SetShaderColor_call 0.2 0.2 0.2 1; SetShaderTexture_call "dumbell_steel";
    SetShaderMaterial_call "darkMetallicDumbbell"; Draw_call Box;
    scaleXYZ_assign 0.12 1.0 0.08; XrotationDegrees_assign 0.0;
    YrotationDegrees_assign 90.0; ZrotationDegrees_assign 90.0;
    positionXYZ_assign 1.3 0.4 (-9.0); SetTransformations_call;
    SetShaderColor_call 0.2 0.2 0.2 1; SetShaderTexture_call "dumbell_steel";
    SetShaderMaterial_call "darkMetallicDumbbell"; Draw_call Cylinder;
    scaleXYZ_assign 0.5 0.6 0.6; XrotationDegrees_assign 0.0;
    YrotationDegrees_assign 90.0; ZrotationDegrees_assign 0.0;
    positionXYZ_assign 1.3 0.4 (-9.0); SetTransformations_call;
    SetShaderColor_call 0.2 0.2 0.2 1; SetShaderTexture_call "dumbell_steel";
    SetShaderMaterial_call "darkMetallicDumbbell"; Draw_call Box;
    scaleXYZ_assign 0.5 0.6 0.6; XrotationDegrees_assign 0.0;
    YrotationDegrees_assign 90.0; ZrotationDegrees_assign 0.0;
    positionXYZ_assign 1.3 0.4 (-8.0); SetTransformations_call;
    SetShaderColor_call 0.2 0.2 0.2 1; SetShaderTexture_call "dumbell_steel";
    SetShaderMaterial_call "darkMetallicDumbbell"; Draw_call Box;
    scaleXYZ_assign 0.12 1.0 0.08; XrotationDegrees_assign 0.0;
    YrotationDegrees_assign 90.0; ZrotationDegrees_assign 90.0;
    positionXYZ_assign 2.3 0.4 (-9.0); SetTransformations_call;
    SetShaderColor_call 0.2 0.2 0.2 1; SetShaderTexture_call "dumbell_steel";
    SetShaderMaterial_call "darkMetallicDumbbell"; Draw_call Cylinder;
    scaleXYZ_assign 0.5 0.6 0.6; XrotationDegrees_assign 0.0;
    YrotationDegrees_assign 90.0; ZrotationDegrees_assign 0.0;
    positionXYZ_assign 2.3 0.4 (-9.0); SetTransformations_call;
    SetShaderColor_call 0.2 0.2 0.2 1; SetShaderTexture_call "dumbell_steel";
    SetShaderMaterial_call "darkMetallicDumbbell"; Draw_call Box;
    scaleXYZ_assign 0.5 0.6 0.6; XrotationDegrees_assign 0.0;
    YrotationDegrees_assign 90.0; ZrotationDegrees_assign 0.0;
    positionXYZ_assign 2.3 0.4 (-8.0); SetTransformations_call;
    SetShaderColor_call 0.2 0.2 0.2 1; SetShaderTexture_call "dumbell_steel";
    SetShaderMaterial_call "darkMetallicDumbbell"; Draw_call Box;
    scaleXYZ_assign 0.12 1.0 0.08; XrotationDegrees_assign 0.0;
    YrotationDegrees_assign 90.0; ZrotationDegrees_assign 90.0;
    positionXYZ_assign 3.3 0.4 (-9.0); SetTransformations_call;
    SetShaderColor_call 0.2 0.2 0.2 1; SetShaderTexture_call "dumbell_steel";
    SetShaderMaterial_call "darkMetallicDumbbell"; Draw_call Cylinder;
    scaleXYZ_assign 0.5 0.6 0.6; XrotationDegrees_assign 0.0;
    YrotationDegrees_assign 90.0; ZrotationDegrees_assign 0.0;
    positionXYZ_assign 3.3 0.4 (-9.0); SetTransformations_call;
    SetShaderColor_call 0.2 0.2 0.2 1; SetShaderTexture_call "dumbell_steel";
    SetShaderMaterial_call "darkMetallicDumbbell"; Draw_call Box;
    scaleXYZ_assign 0.5 0.6 0.6; XrotationDegrees_assign 0.0;
    YrotationDegrees_assign 90.0; ZrotationDegrees_assign 0.0;
    positionXYZ_assign 3.3 0.4 (-8.0); SetTransformations_call;
    SetShaderColor_call 0.2 0.2 0.2 1; SetShaderTexture_call "dumbell_steel";
    SetShaderMaterial_call "darkMetallicDumbbell"; Draw_call Box;
    scaleXYZ_assign 0.12 1.0 0.08; XrotationDegrees_assign 0.0;
    YrotationDegrees_assign 90.0; ZrotationDegrees_assign 90.0;
    positionXYZ_assign 4.3 0.4 (-9.0); SetTransformations_call;
    SetShaderColor_call 0.2 0.2 0.2 1; SetShaderTexture_call "dumbell_steel";
    SetShaderMaterial_call "darkMetallicDumbbell"; Draw_call Cylinder;
    scaleXYZ_assign 0.5 0.6 0.6; XrotationDegrees_assign 0.0;
    YrotationDegrees_assign 90.0; ZrotationDegrees_assign 0.0;
    positionXYZ_assign 4.3 0.4 (-9.0); SetTransformations_call;
    SetShaderColor_call 0.2 0.2 0.2 1; SetShaderTexture_call "dumbell_steel";
    SetShaderMaterial_call "darkMetallicDumbbell"; Draw_call Box;
    scaleXYZ_assign 0.5 0.6 0.6; XrotationDegrees_assign 0.0;
    YrotationDegrees_assign 90.0; ZrotationDegrees_assign 0.0;
    positionXYZ_assign 4.3 0.4 (-8.0); SetTransformations_call;
    SetShaderColor_call 0.2 0.2 0.2 1; SetShaderTexture_call "dumbell_steel";
    SetShaderMaterial_call "darkMetallicDumbbell"; Draw_call Box;
    scaleXYZ_assign 0.12 1.0 0.08; XrotationDegrees_assign 0.0;
    YrotationDegrees_assign 90.0; ZrotationDegrees_assign 90.0;
    positionXYZ_assign 5.3 0.4 (-9.0); SetTransformations_call;
    SetShaderColor_call 0.2 0.2 0.2 1; SetShaderTexture_call "dumbell_steel";
    SetShaderMaterial_call "darkMetallicDumbbell"; Draw_call Cylinder;
    scaleXYZ_assign 0.5 0.6 0.6; XrotationDegrees_assign 0.0;
    YrotationDegrees_assign 90.0; ZrotationDegrees_assign 0.0;
    positionXYZ_assign 5.3 0.4 (-9.0); SetTransformations_call;
    SetShaderColor_call 0.2 0.2 0.2 1; SetShaderTexture_call "dumbell_steel";
    SetShaderMaterial_call "darkMetallicDumbbell"; Draw_call Box;
    scaleXYZ_assign 0.5 0.6 0.6; XrotationDegrees_assign 0.0;
    YrotationDegrees_assign 90.0; ZrotationDegrees_assign 0.0;
    positionXYZ_assign 5.3 0.4 (-8.0); SetTransformations_call;
    SetShaderColor_call 0.2 0.2 0.2 1; SetShaderTexture_call "dumbell_steel";
    SetShaderMaterial_call "darkMetallicDumbbell"; Draw_call Box;
    scaleXYZ_assign 0.12 1.0 0.08; XrotationDegrees_assign 0.0;
    YrotationDegrees_assign 90.0; ZrotationDegrees_assign 90.0;
    positionXYZ_assign 6.3 0.4 (-9.0); SetTransformations_call;
    SetShaderColor_call 0.2 0.2 0.2 1; SetShaderTexture_call "dumbell_steel";
    SetShaderMaterial_call "darkMetallicDumbbell"; Draw_call Cylinder;
    scaleXYZ_assign 0.5 0.6 0.6; XrotationDegrees_assign 0.0;
    YrotationDegrees_assign 90.0; ZrotationDegrees_assign 0.0;
    positionXYZ_assign 6.3 0.4 (-9.0); SetTransformations_call;
    SetShaderColor_call 0.2 0.2 0.2 1; SetShaderTexture_call "dumbell_steel";
    SetShaderMaterial_call "darkMetallicDumbbell"; Draw_call Box;
    scaleXYZ_assign 0.5 0.6 0.6; XrotationDegrees_assign 0.0;
    YrotationDegrees_assign 90.0; ZrotationDegrees_assign 0.0;
    positionXYZ_assign 6.3 0.4 (-8.0); SetTransformations_call;
    SetShaderColor_call 0.2 0.2 0.2 1; SetShaderTexture_call "dumbell_steel";
    SetShaderMaterial_call "darkMetallicDumbbell"; Draw_call Box;
    scaleXYZ_assign 0.12 1.0 0.08; XrotationDegrees_assign 0.0;
    YrotationDegrees_assign 90.0; ZrotationDegrees_assign 90.0;
    positionXYZ_assign 7.3 0.4 (-9.0); SetTransformations_call;
    SetShaderColor_call 0.2 0.2 0.2 1; SetShaderTexture_call "dumbell_orange";
    SetShaderMaterial_call "rubberDumbell"; Draw_call Cylinder;
    scaleXYZ_assign 0.5 0.6 0.6; XrotationDegrees_assign 0.0;
    YrotationDegrees_assign 90.0; ZrotationDegrees_assign 0.0;
    positionXYZ_assign 7.3 0.4 (-9.0); SetTransformations_call;
    SetShaderColor_call 0.2 0.2 0.2 1; SetShaderTexture_call "dumbell_orange";
    SetShaderMaterial_call "rubberDumbell"; Draw_call Box;
    scaleXYZ_assign 0.5 0.6 0.6; XrotationDegrees_assign 0.0;
    YrotationDegrees_assign 90.0; ZrotationDegrees_assign 0.0;
    positionXYZ_assign 7.3 0.4 (-8.0); SetTransformations_call;
    SetShaderColor_call 0.2 0.2 0.2 1; SetShaderTexture_call "dumbell_orange";
    SetShaderMaterial_call "rubberDumbell"; Draw_call Box;
    scaleXYZ_assign 0.12 1.0 0.08; XrotationDegrees_assign 0.0;
    YrotationDegrees_assign 90.0; ZrotationDegrees_assign 90.0;
    positionXYZ_assign 8.3 0.4 (-9.0); SetTransformations_call;
    SetShaderColor_call 0.2 0.2 0.2 1; SetShaderTexture_call "dumbell_orange";
    SetShaderMaterial_call "rubberDumbell"; Draw_call Cylinder;
    scaleXYZ_assign 0.5 0.6 0.6; XrotationDegrees_assign 0.0;
    YrotationDegrees_assign 90.0; ZrotationDegrees_assign 0.0;
    positionXYZ_assign 8.3 0.4 (-9.0); SetTransformations_call;
    SetShaderColor_call 0.2 0.2 0.2 1; SetShaderTexture_call "dumbell_orange";
    SetShaderMaterial_call "rubberDumbell"; Draw_call Box;
    scaleXYZ_assign 0.5 0.6 0.6; XrotationDegrees_assign 0.0;
    YrotationDegrees_assign 90.0; ZrotationDegrees_assign 0.0;
    positionXYZ_assign 8.3 0.4 (-8.0); SetTransformations_call;
    SetShaderColor_call 0.2 0.2 0.2 1; SetShaderTexture_call "dumbell_orange";
    SetShaderMaterial_call "rubberDumbell"; Draw_call Box ].

Section Scene.
Context `{G : Glm}.

(** The overload [setVec3Value(name, x, y, z)] and [setBoolValue]; a bool
    is stored as the integer 0 or 1, as [setIntValue] stores the bool it is
    handed. *)
Definition setVec3Value_xyz name (x y z : float) :=
  setVec3Value name (mk_vec3 x y z).
Definition setBoolValue name (b : bool) :=
  setValue name (UInt (if b then 1 else 0)).

(** *** SetupSceneLights *)
Local Open Scope Q_scope.
Definition SetupSceneLights (this : SceneManager) : Outcome SceneManager :=
  let f := float_lit in
  (* Light 1 *)
  this ← setVec3Value_xyz "lightSources[0].position"
      (f (-14.0)) (f 14.0) (f 0.0) this;
  this ← setVec3Value_xyz "lightSources[0].ambientColor"
      (f 0.5) (f 0.7) (f 0.7) this;
  this ← setVec3Value_xyz "lightSources[0].diffuseColor"
      (f 0.5) (f 0.7) (f 0.7) this;
  this ← setVec3Value_xyz "lightSources[0].specularColor"
      (f 0.5) (f 0.7) (f 0.7) this;
  this ← setFloatValue "lightSources[0].focalStrength" (f 18.0) this;
  this ← setFloatValue "lightSources[0].specularIntensity" (f 0.05) this;
  (* Light 2 *)
  this ← setVec3Value_xyz "lightSources[1].position"
      (f 14.0) (f 5.0) (f 14.0) this;
  this ← setVec3Value_xyz "lightSources[1].ambientColor"
      (f 0.2) (f 0.2) (f 0.2) this;
  this ← setVec3Value_xyz "lightSources[1].diffuseColor"
      (f 0.2) (f 0.2) (f 0.2) this;
  this ← setVec3Value_xyz "lightSources[1].specularColor"
      (f 0.2) (f 0.2) (f 0.2) this;
  this ← setFloatValue "lightSources[1].focalStrength" (f 18.0) this;
  this ← setFloatValue "lightSources[1].specularIntensity" (f 0.05) this;
  let coolWhiteIntensity := f 0.8 in
  let coolWhiteR := f 0.7 in
  let coolWhiteG := f 0.75 in
  let coolWhiteB := f 0.85 in
  this ← setVec3Value_xyz "lightSources[0].ambientColor"
      coolWhiteR coolWhiteG coolWhiteB this;
  this ← setVec3Value_xyz "lightSources[0].diffuseColor"
      coolWhiteR coolWhiteG coolWhiteB this;
  this ← setVec3Value_xyz "lightSources[0].specularColor"
      coolWhiteR coolWhiteG coolWhiteB this;
  this ← setFloatValue "lightSources[0].specularIntensity"
      coolWhiteIntensity this;
  this ← setVec3Value_xyz "lightSources[1].ambientColor"
      coolWhiteR coolWhiteG coolWhiteB this;
  this ← setVec3Value_xyz "lightSources[1].diffuseColor"
      coolWhiteR coolWhiteG coolWhiteB this;
  this ← setVec3Value_xyz "lightSources[1].specularColor"
      coolWhiteR coolWhiteG coolWhiteB this;
  this ← setFloatValue "lightSources[1].specularIntensity"
      coolWhiteIntensity this;
  setBoolValue "bUseLighting" true this.
Local Close Scope Q_scope.

(** *** The mesh library

    Modelled from the spec: the ShapeMeshes class behind [m_basicMeshes]
    is not among the sources.  The spec gives it a [Load<Shape>Mesh] and a
    [Draw<Shape>Mesh] per shape, the draw using the uniforms most recently
    uploaded; so it is a log of those calls, most recent first, each draw
    with the uniforms of the shader manager at that moment ([None] when
    there is no shader manager). *)
Inductive MeshCall :=
  | LoadMesh (shape : Shape)
  | DrawMesh (shape : Shape) (uniforms : option (gmap string Uniform)).

(** The object together with its member [m_basicMeshes], which the record
    [SceneManager] above leaves out. *)
Record Scene := mk_Scene {
  object : SceneManager;
  m_basicMeshes : list MeshCall
}.

Definition mesh_call (c : MeshCall) (scene : Scene) : Scene :=
  mk_Scene (object scene) (c :: m_basicMeshes scene).

(** *** PrepareScene *)
Definition PrepareScene (scene : Scene) (stb : string → option Image)
    (gl : nat → Z) : Outcome Scene :=
  this ← LoadSceneTextures (object scene) stb gl;
  let this := DefineObjectMaterials this in
  this ← SetupSceneLights this;
  let scene := mk_Scene this (m_basicMeshes scene) in
  let scene := mesh_call (LoadMesh Plane) scene in
  let scene := mesh_call (LoadMesh TaperedCylinder) scene in
  let scene := mesh_call (LoadMesh Cylinder) scene in
  let scene := mesh_call (LoadMesh Cone) scene in
  let scene := mesh_call (LoadMesh Box) scene in
  let scene := mesh_call (LoadMesh Torus) scene in
  let scene := mesh_call (LoadMesh Sphere) scene in
  Ok scene.

(** *** RenderScene *)

(** The local variables of [RenderScene]. *)
Record Locals := mk_Locals {
  scaleXYZ : vec3 float;
  XrotationDegrees : float;
  YrotationDegrees : float;
  ZrotationDegrees : float;
  positionXYZ : vec3 float
}.

(** One statement.  [material] is the content of the uninitialised local
    of [SetShaderMaterial], should the statement be a call of it. *)
Definition exec (material : OBJECT_MATERIAL.t) (s : Stmt)
    (state : Locals * Scene) : Outcome (Locals * Scene) :=
  let '(locals, scene) := state in
  let 'mk_Locals scale xrot yrot zrot position := locals in
  let method (m : SceneManager → Outcome SceneManager) :=
    this ← m (object scene);
    Ok (locals, mk_Scene this (m_basicMeshes scene)) in
  match s with
  | scaleXYZ_assign x y z =>
    let scale := mk_vec3 (float_lit x) (float_lit y) (float_lit z) in
    Ok (mk_Locals scale xrot yrot zrot position, scene)
  | XrotationDegrees_assign d =>
    Ok (mk_Locals scale (float_lit d) yrot zrot position, scene)
  | YrotationDegrees_assign d =>
    Ok (mk_Locals scale xrot (float_lit d) zrot position, scene)
  | ZrotationDegrees_assign d =>
    Ok (mk_Locals scale xrot yrot (float_lit d) position, scene)
  | positionXYZ_assign x y z =>
    let position := mk_vec3 (float_lit x) (float_lit y) (float_lit z) in
    Ok (mk_Locals scale xrot yrot zrot position, scene)
  | SetTransformations_call =>
    method (λ this, SetTransformations this scale xrot yrot zrot position)
  | SetShaderColor_call r g b a =>
    method (λ this, SetShaderColor this (float_lit r) (float_lit g)
                      (float_lit b) (float_lit a))
  | SetShaderTexture_call tag =>
    method (λ this, SetShaderTexture this tag)
  | SetShaderMaterial_call tag =>
    method (λ this, SetShaderMaterial this tag material)
  | SetTextureUVScale_call u v =>
    method (λ this, SetTextureUVScale this (float_lit u) (float_lit v))
  | Draw_call shape =>
    Ok (locals,
        mesh_call (DrawMesh shape (m_pShaderManager (object scene))) scene)
  end.

(** Statements in sequence; [k] numbers them, and [uninitialised k] is the
    content of the uninitialised material local at statement [k]. *)
Fixpoint exec_all (uninitialised : nat → OBJECT_MATERIAL.t) (k : nat)
    (body : list Stmt) (state : Locals * Scene) : Outcome (Locals * Scene) :=
  match body with
  | [] => Ok state
  | s :: body =>
    state ← exec (uninitialised k) s state;
    exec_all uninitialised (S k) body state
  end.

(** [scale0] and [position0] are the contents of the two [glm::vec3]
    locals the declarations leave uninitialised. *)
Definition RenderScene (scene : Scene) (scale0 position0 : vec3 float)
    (uninitialised : nat → OBJECT_MATERIAL.t) : Outcome Scene :=
  let locals :=
    mk_Locals scale0 (float_lit 0.0) (float_lit 0.0) (float_lit 0.0)
      position0 in
  '(_, scene) ← exec_all uninitialised 0 RenderScene_body (locals, scene);
  Ok scene.

End Scene.

(** What statements of a body ask for. *)
Definition texture_tags (body : list Stmt) : list string :=
  omap (λ s, match s with SetShaderTexture_call t => Some t | _ => None end)
    body.
Definition material_tags (body : list Stmt) : list string :=
  omap (λ s, match s with SetShaderMaterial_call t => Some t | _ => None end)
    body.
Definition drawn_shapes (body : list Stmt) : list Shape :=
  omap (λ s, match s with Draw_call shape => Some shape | _ => None end) body.

(** The draws in a mesh log, oldest first. *)
Definition draws `{Glm} (log : list MeshCall)
    : list (Shape * option (gmap string Uniform)) :=
  reverse (omap (λ c, match c with
                      | DrawMesh shape u => Some (shape, u)
                      | LoadMesh _ => None
                      end) log).
Definition loaded_shapes `{Glm} (log : list MeshCall) : list Shape :=
  omap (λ c, match c with LoadMesh shape => Some shape | _ => None end) log.

(** ** What the logs amount to *)

(** OpenGL's texture units after a log of calls: [glActiveTexture] selects
    a unit (unit 0 at the start) and [glBindTexture GL_TEXTURE_2D] binds a
    texture to the selected unit (texture 0 is "none").  The result is the
    selected unit and the binding of each unit. *)
Fixpoint texture_units (log : list Call) : Z * gmap Z Z :=
  match log with
  | [] => (0, ∅)
  | c :: earlier =>
    let '(active, bound) := texture_units earlier in
    match c with
    | glActiveTexture unit => (unit, bound)
    | glBindTexture GL_TEXTURE_2D texture => (active, <[active := texture]> bound)
    | _ => (active, bound)
    end
  end.

(** The texture bound to the selected unit. *)
Definition bound_texture (log : list Call) : option Z :=
  let '(active, bound) := texture_units log in bound !! active.

(** The calls [BindGLTextures] makes for a list of entries, most recent
    first: for the entry at position [i], select unit [i], bind its
    handle. *)
Definition bind_calls (entries : list TEXTURE_INFO.t) : list Call :=
  reverse (concat (imap (λ i e, [ glActiveTexture (Z.of_nat i);
                                  glBindTexture GL_TEXTURE_2D (TEXTURE_INFO.ID e) ])
                     entries)).

(** The entries a run of [CreateGLTexture] calls over [files] registers:
    one per file that decodes to 3 or 4 channels, with the name the driver
    gave in that call. *)
Fixpoint loads (files : list (string * string)) (stb : string → option Image)
    (gl : nat → Z) (k : nat) : list TEXTURE_INFO.t :=
  match files with
  | [] => []
  | (filename, tag) :: files =>
    match stb filename with
    | Some image =>
      if bool_decide (colorChannels image = 3 ∨ colorChannels image = 4)
      then TEXTURE_INFO.mk (gl k) tag :: loads files stb gl (S k)
      else loads files stb gl (S k)
    | None => loads files stb gl (S k)
    end
  end.

(** The count is a position of the array, or one past its end. *)
Definition registry_inv `{Glm} (this : SceneManager) : Prop :=
  0 ≤ m_loadedTextures this ≤ Z.of_nat (length (m_textureIDs this)).

(** The materials [DefineObjectMaterials] appends. *)
Definition defined_materials `{Glm} : list OBJECT_MATERIAL.t :=
  m_objectMaterials (DefineObjectMaterials (new_scene 0)).

(** The array after [DestroyGLTextures] has gone over its first [n]
    elements: each has the name the driver wrote in its iteration, and its
    tag as before. *)
Definition regenerated (names : Z → Z) (n : nat) (a : list TEXTURE_INFO.t)
    : list TEXTURE_INFO.t :=
  imap (λ i e, if bool_decide (i < n)%nat
               then TEXTURE_INFO.mk (names (Z.of_nat i)) (TEXTURE_INFO.tag e)
               else e) a.

(** The shapes [PrepareScene] loads, most recent first. *)
Definition prepared_shapes : list Shape :=
  [Sphere; Torus; Box; Cone; Cylinder; TaperedCylinder; Plane].

(** What the text of a statement does to "bUseTexture": [SetShaderColor]
    writes 0, [SetShaderTexture] writes 1, nothing else writes it.  [None]
    stands for a value not known from the text. *)
Definition flag_step (s : Stmt) (flag : option bool) : option bool :=
  match s with
  | SetShaderColor_call _ _ _ _ => Some false
  | SetShaderTexture_call _ => Some true
  | _ => flag
  end.

(** Every draw of the body comes when the flag is known to be 1. *)
Fixpoint draws_textured (flag : option bool) (body : list Stmt) : bool :=
  match body with
  | [] => true
  | s :: body =>
    match s with
    | Draw_call _ => bool_decide (flag = Some true)
    | _ => true
    end && draws_textured (flag_step s flag) body
  end.

Definition is_SetShaderMaterial_call (s : Stmt) : bool :=
  match s with SetShaderMaterial_call _ => true | _ => false end.

(** Everything of the object but the shader manager is the same. *)
Definition same_registries `{Glm} (this this' : SceneManager) : Prop :=
  m_textureIDs this' = m_textureIDs this ∧
  m_loadedTextures this' = m_loadedTextures this ∧
  m_objectMaterials this' = m_objectMaterials this ∧
  calls this' = calls this.

(** The uniforms agree with what the text says of the flag. *)
Definition flag_holds `{Glm} (flag : option bool)
    (sh : gmap string Uniform) : Prop :=
  match flag with
  | Some b => sh !! g_UseTextureName = Some (UInt (if b then 1 else 0))
  | None => True
  end.

(** A draw that went out with "bUseTexture" at 1. *)
Definition textured `{Glm} (d : Shape * option (gmap string Uniform))
    : Prop :=
  ∃ sh, d.2 = Some sh ∧ sh !! g_UseTextureName = Some (UInt 1).

(** [stbi_load] succeeds on the file with an image of 3 or 4 channels. *)
Definition decodable (stb : string → option Image) (filename : string)
    : Prop :=
  ∃ image, stb filename = Some image ∧
           (colorChannels image = 3 ∨ colorChannels image = 4).

(** ** More concrete scenes *)

(** A second texture loaded under the tag "floor", already in use. *)
Definition floor_loaded_twice : SceneManager :=
  match CreateGLTexture floor_loaded "floor2.jpg" "floor"
          (Some (mk_Image 64 64 4)) 2 with
  | Ok (_, this) => this
  | Undefined _ => floor_loaded
  end.

(** A first texture for which the driver hands out the largest name. *)
Definition floor_loaded_at_UINT_MAX : SceneManager :=
  match CreateGLTexture (new_scene 16) "floor.jpg" "floor"
          (Some (mk_Image 64 64 3)) UINT_MAX with
  | Ok (_, this) => this
  | Undefined _ => new_scene 16
  end.

(** The scene before and after [PrepareScene], with sixteen slots and every
    file decodable. *)
Definition unprepared_scene : Scene := mk_Scene (new_scene 16) [].
Definition prepared_scene : Scene :=
  match PrepareScene unprepared_scene decodes_RGB counting_driver with
  | Ok scene => scene
  | Undefined _ => unprepared_scene
  end.

(** Scenes with no shader manager, with too small an array. *)
Definition unprepared_scene_without_shader : Scene :=
  mk_Scene (new_scene_without_shader 16) [].
Definition cramped_scene : Scene := mk_Scene (new_scene 2) [].

(** Contents for the locals [RenderScene] and [SetShaderMaterial] leave
    uninitialised. *)
Definition some_vec3 : vec3 Q := mk_vec3 0%Q 0%Q 0%Q.
Definition some_material : OBJECT_MATERIAL.t :=
  material 9 9 9 9 9 9 9 9 9 9 9 "".

(** * Properties *)

(** ** Loops *)

Lemma while_invariant {L : Type} (I : L → Prop) (cond : L → bool)
    (body : L → Outcome L) :
  (∀ s s', I s → cond s = true → body s = Ok s' → I s') →
  ∀ fuel s s',
    I s → while fuel cond body s = Ok s' → I s' ∧ cond s' = false.
Proof.
  intros Hstep fuel. induction fuel as [|fuel IH]; intros s s' Hs; simpl.
  - destruct (cond s) eqn:Hc; [discriminate|].
    intros [= <-]. auto.
  - destruct (cond s) eqn:Hc.
    + destruct (body s) as [s1|f] eqn:Hb; simpl; [|discriminate].
      apply IH. eauto.
    + intros [= <-]. auto.
Qed.

(** A loop whose body strictly decreases a measure that is positive while
    the condition holds never runs out of the fuel the measure prescribes. *)
Lemma while_enough_fuel {L : Type} (μ : L → nat) (cond : L → bool)
    (body : L → Outcome L) :
  (∀ s, cond s = true →
        (0 < μ s)%nat ∧
        match body s with
        | Ok s' => (μ s' < μ s)%nat
        | Undefined f => f ≠ OutOfFuel
        end) →
  ∀ fuel s,
    (μ s ≤ fuel)%nat → while fuel cond body s ≠ Undefined OutOfFuel.
Proof.
  intros Hstep fuel. induction fuel as [|fuel IH]; intros s Hμ; simpl.
  - destruct (cond s) eqn:Hc; [|discriminate].
    destruct (Hstep s Hc) as [Hpos _]. lia.
  - destruct (cond s) eqn:Hc; [|discriminate].
    destruct (Hstep s Hc) as [_ Hb].
    destruct (body s) as [s1|f]; simpl.
    + apply IH. lia.
    + congruence.
Qed.

Lemma bind_Ok {A B : Type} (x : A) (k : A → Outcome B) : Ok x ≫= k = k x.
Proof. reflexivity. Qed.

Lemma bind_Undefined {A B : Type} (f : Fault) (k : A → Outcome B) :
  Undefined f ≫= k = Undefined f.
Proof. reflexivity. Qed.

Lemma compare_is_0_true (a b : string) : compare_is_0 a b = true ↔ a = b.
Proof.
  unfold compare_is_0. split.
  - destruct (String.compare a b) eqn:Hcmp; try discriminate.
    intros _. by apply String.compare_eq_iff.
  - intros <-. pose proof (String.compare_antisym a a) as Hsym.
    destruct (String.compare a a); simpl in Hsym; congruence.
Qed.

Lemma compare_is_0_false (a b : string) : compare_is_0 a b = false ↔ a ≠ b.
Proof.
  rewrite <- compare_is_0_true. destruct (compare_is_0 a b); split; congruence.
Qed.

Lemma array_get_lookup {A : Type} (a : list A) (k : nat) (x : A) :
  a !! k = Some x → array_get a (Z.of_nat k) = Ok x.
Proof.
  intros Hk. unfold array_get.
  rewrite bool_decide_eq_true_2 by lia.
  by rewrite Nat2Z.id, Hk.
Qed.

(** From position [k] of the first [n] elements of [a] the scan stops at
    the first element whose tag compares equal, and delivers [pick] of that
    position and element. *)
Section Scan.
Context {E R : Type} (tag_of : E → string) (pick : Z → E → R → R).
Context (a : list E) (n : Z) (tag : string).

Lemma scan_from (d : nat) :
  n ≤ Z.of_nat (length a) →
  ∀ (k fuel : nat) (r : R),
    (k + d = Z.to_nat n)%nat → (d ≤ fuel)%nat →
    while fuel (scan_cond n) (scan_body tag_of pick a tag)
      (r, Z.of_nat k, false) =
    Ok match list_find (λ e, tag_of e = tag)
               (drop k (take (Z.to_nat n) a)) with
       | Some (j, e) =>
           (pick (Z.of_nat (k + j)) e r, Z.of_nat (k + j), true)
       | None => (r, Z.of_nat (Z.to_nat n), false)
       end.
Proof.
  intros Hn. induction d as [|d IH]; intros k fuel r Hk Hfuel.
  - rewrite drop_ge by (rewrite length_take; lia). simpl.
    replace (k + 0)%nat with k in Hk by lia. subst k.
    destruct fuel; simpl; rewrite bool_decide_eq_false_2 by lia; done.
  - destruct fuel as [|fuel]; [lia|].
    assert (Hlt : (k < Z.to_nat n)%nat) by lia.
    destruct (lookup_lt_is_Some_2 a k) as [e He]; [lia|].
    assert (Ht : take (Z.to_nat n) a !! k = Some e)
      by (by rewrite lookup_take_lt).
    rewrite (drop_S _ _ _ Ht). cbn [list_find].
    simpl while. rewrite bool_decide_eq_true_2 by lia. simpl.
    rewrite (array_get_lookup _ _ _ He). simpl.
    destruct (compare_is_0 (tag_of e) tag) eqn:Hcmp.
    + apply compare_is_0_true in Hcmp.
      rewrite decide_True by done.
      replace (k + 0)%nat with k by lia.
      destruct fuel; simpl; rewrite andb_false_r; done.
    + apply compare_is_0_false in Hcmp.
      rewrite decide_False by done.
      replace (Z.of_nat k + 1) with (Z.of_nat (S k)) by lia.
      rewrite bind_Ok, (IH (S k) fuel r) by lia.
      destruct (list_find _ (drop (S k) _)) as [[j e']|]; simpl; [|done].
      by replace (k + S j)%nat with (S (k + j)) by lia.
Qed.

Lemma scan_never_out_of_fuel (r : R) :
  while (Z.to_nat n) (scan_cond n) (scan_body tag_of pick a tag) (r, 0, false)
  ≠ Undefined OutOfFuel.
Proof.
  apply (while_enough_fuel
           (λ '(_, index, bFound),
              if bFound : bool then O else Z.to_nat (n - index))).
  - intros [[r' index] bFound] Hc. simpl in Hc.
    apply andb_true_iff in Hc as [Hlt Hnf].
    apply bool_decide_eq_true in Hlt. apply negb_true_iff in Hnf. subst bFound.
    split; [lia|]. simpl. unfold array_get.
    case_bool_decide; simpl; [|done].
    destruct (a !! Z.to_nat index); simpl; [|done].
    destruct (compare_is_0 _ _); lia.
  - simpl. lia.
Qed.

End Scan.

(** ** The lookups *)

Section Lookups.
Context `{G : Glm}.
Implicit Types this : SceneManager.

Lemma length_registered this :
  registry_ok this →
  length (registered this) = Z.to_nat (m_loadedTextures this).
Proof.
  unfold registry_ok, registered. intros Hok. rewrite length_take. lia.
Qed.

(** [FindTextureSlot] is the position of the first registered entry with
    the tag, or -1. *)
Lemma FindTextureSlot_list_find this tag :
  registry_ok this →
  FindTextureSlot this tag =
  Ok match list_find (has_tag tag) (registered this) with
     | Some (j, _) => Z.of_nat j
     | None => -1
     end.
Proof.
  intros Hok. unfold FindTextureSlot.
  change (while ?f _ _ ?s) with
    (while f (scan_cond (m_loadedTextures this))
       (scan_body TEXTURE_INFO.tag (λ index _ _, index) (m_textureIDs this)
          tag) s).
  rewrite (scan_from _ _ _ _ _ (Z.to_nat (m_loadedTextures this)) Hok 0%nat)
    by lia.
  rewrite drop_0, bind_Ok. fold (registered this).
  by destruct (list_find _ _) as [[j e]|].
Qed.

(** [FindTextureID] is the handle of that entry, converted to [int], or
    -1. *)
Lemma FindTextureID_list_find this tag :
  registry_ok this →
  FindTextureID this tag =
  Ok match list_find (has_tag tag) (registered this) with
     | Some (_, e) => int_of_GLuint (TEXTURE_INFO.ID e)
     | None => -1
     end.
Proof.
  intros Hok. unfold FindTextureID.
  change (while ?f _ _ ?s) with
    (while f (scan_cond (m_loadedTextures this))
       (scan_body TEXTURE_INFO.tag (λ _ e _, int_of_GLuint (TEXTURE_INFO.ID e))
          (m_textureIDs this) tag) s).
  rewrite (scan_from _ _ _ _ _ (Z.to_nat (m_loadedTextures this)) Hok 0%nat)
    by lia.
  rewrite drop_0, bind_Ok. fold (registered this).
  by destruct (list_find _ _) as [[j e]|].
Qed.

(** [FindMaterial] answers [true] whenever the list is not empty; the
    caller's object receives the first entry with the tag when there is
    one and is left as it was otherwise. *)
Lemma FindMaterial_list_find this tag material :
  FindMaterial this tag material =
  Ok match m_objectMaterials this with
     | [] => (false, material)
     | _ :: _ =>
       (true,
        match list_find (material_has_tag tag) (m_objectMaterials this) with
        | Some (_, e) => copy_material e material
        | None => material
        end)
     end.
Proof.
  unfold FindMaterial.
  destruct (m_objectMaterials this) as [|m ms] eqn:Hms; [done|].
  rewrite bool_decide_eq_false_2 by (simpl; lia).
  set (mats := m :: ms).
  change (while ?f _ _ ?s) with
    (while f (scan_cond (Z.of_nat (length mats)))
       (scan_body OBJECT_MATERIAL.tag (λ _ e r, copy_material e r) mats tag)
       s).
  rewrite (scan_from _ _ _ _ _ (length mats) (Z.le_refl _) 0%nat)
    by lia.
  rewrite drop_0, bind_Ok, Nat2Z.id, firstn_all.
  by destruct (list_find _ _) as [[j e]|].
Qed.

(** The loops of the three lookups stop within the iterations the model
    allots them, whatever the object holds. *)
Lemma FindTextureSlot_never_out_of_fuel this tag :
  FindTextureSlot this tag ≠ Undefined OutOfFuel.
Proof.
  unfold FindTextureSlot.
  pose proof (scan_never_out_of_fuel TEXTURE_INFO.tag (λ index _ _, index)
                (m_textureIDs this) (m_loadedTextures this) tag (-1)) as Hw.
  unfold scan_cond, scan_body in Hw.
  destruct (while _ _ _ _) as [[[r i] b]|f]; simpl; congruence.
Qed.

Lemma FindTextureID_never_out_of_fuel this tag :
  FindTextureID this tag ≠ Undefined OutOfFuel.
Proof.
  unfold FindTextureID.
  pose proof (scan_never_out_of_fuel TEXTURE_INFO.tag
                (λ _ e _, int_of_GLuint (TEXTURE_INFO.ID e))
                (m_textureIDs this) (m_loadedTextures this) tag (-1)) as Hw.
  unfold scan_cond, scan_body in Hw.
  destruct (while _ _ _ _) as [[[r i] b]|f]; simpl; congruence.
Qed.

End Lookups.

(** ** Loading textures *)

Section Loading.
Context `{G : Glm}.
Implicit Types this : SceneManager.

(** The two member stores of a registration amount to one store of the
    pair. *)
Lemma alter_ID_then_tag (a : list TEXTURE_INFO.t) (i : nat) (name : Z)
    (tag : string) :
  alter (λ e, TEXTURE_INFO.mk (TEXTURE_INFO.ID e) tag) i
    (alter (λ e, TEXTURE_INFO.mk name (TEXTURE_INFO.tag e)) i a) =
  <[i := TEXTURE_INFO.mk name tag]> a.
Proof.
  apply list_eq. intros j.
  destruct (decide (i = j)) as [<-|Hne].
  - rewrite list_lookup_alter_eq, list_lookup_alter_eq.
    destruct (a !! i) as [e|] eqn:Hi; simpl.
    + by rewrite list_lookup_insert_eq by eauto using lookup_lt_Some.
    + symmetry. apply lookup_ge_None. rewrite length_insert.
      by apply lookup_ge_None.
  - by rewrite !list_lookup_alter_ne, list_lookup_insert_ne.
Qed.

(** A decoded image with neither 3 nor 4 channels: the call returns
    [false] right after the console line; the members are as before. *)
Lemma CreateGLTexture_other_channels this filename tag image name :
  colorChannels image ≠ 3 → colorChannels image ≠ 4 →
  CreateGLTexture this filename tag (Some image) name =
  Ok (false,
      mk_SceneManager (m_pShaderManager this) (m_textureIDs this)
        (m_loadedTextures this) (m_objectMaterials this)
        (cout (NotImplementedChannels (colorChannels image))
           :: prologue filename image name ++ calls this)).
Proof.
  intros H3 H4. destruct this as [p a n ms cs]. unfold CreateGLTexture.
  rewrite !bool_decide_eq_false_2 by done. reflexivity.
Qed.

(** A decoded image with 3 or 4 channels: the call never returns [false];
    it registers the texture at position [m_loadedTextures], provided that
    position is inside the array. *)
Lemma CreateGLTexture_3_or_4_channels this filename tag image name :
  colorChannels image = 3 ∨ colorChannels image = 4 →
  let n := m_loadedTextures this in
  CreateGLTexture this filename tag (Some image) name =
  if bool_decide (0 ≤ n ∧ n < Z.of_nat (length (m_textureIDs this))) then
    if bool_decide (n = INT_MAX) then Undefined SignedOverflow
    else
      Ok (true,
          mk_SceneManager (m_pShaderManager this)
            (<[Z.to_nat n := TEXTURE_INFO.mk name tag]> (m_textureIDs this))
            (n + 1) (m_objectMaterials this)
            (glBindTexture GL_TEXTURE_2D 0 :: stbi_image_free
               :: glGenerateMipmap GL_TEXTURE_2D
               :: (if bool_decide (colorChannels image = 3)
                   then upload_of image GL_RGB8 GL_RGB
                   else upload_of image GL_RGBA8 GL_RGBA)
               :: prologue filename image name ++ calls this))
  else Undefined OutOfBounds.
Proof.
  intros Hc. destruct this as [p a n ms cs].
  unfold CreateGLTexture, call, set_textures, array_update.
  cbn [m_textureIDs m_loadedTextures m_pShaderManager m_objectMaterials calls].
  cbn zeta.
  assert (Hstores :
    ∀ rest : list TEXTURE_INFO.t → Outcome (bool * SceneManager),
      ((if bool_decide (0 ≤ n ∧ n < Z.of_nat (length a))
        then Ok (alter (λ e, TEXTURE_INFO.mk name (TEXTURE_INFO.tag e))
                   (Z.to_nat n) a)
        else Undefined OutOfBounds) ≫=
       λ a', (if bool_decide (0 ≤ n ∧ n < Z.of_nat (length a'))
              then Ok (alter (λ e, TEXTURE_INFO.mk (TEXTURE_INFO.ID e) tag)
                         (Z.to_nat n) a')
              else Undefined OutOfBounds) ≫= rest) =
      if bool_decide (0 ≤ n ∧ n < Z.of_nat (length a))
      then rest (<[Z.to_nat n := TEXTURE_INFO.mk name tag]> a)
      else Undefined OutOfBounds).
  { intros rest. case_bool_decide as Hin; [|done].
    rewrite bind_Ok, length_alter, bool_decide_eq_true_2 by done.
    by rewrite bind_Ok, alter_ID_then_tag. }
  destruct Hc as [Hc|Hc].
  - rewrite !(bool_decide_eq_true_2 (colorChannels image = 3)) by done.
    rewrite Hstores. by repeat case_bool_decide.
  - rewrite !(bool_decide_eq_false_2 (colorChannels image = 3)) by lia.
    rewrite bool_decide_eq_true_2 by done.
    rewrite Hstores. by repeat case_bool_decide.
Qed.

(** On the path that returns [false] for the channel count the decoded
    buffer is still outstanding when the call returns ... *)
Lemma CreateGLTexture_other_channels_unfreed this filename tag image name :
  colorChannels image ≠ 3 → colorChannels image ≠ 4 →
  ∃ this',
    CreateGLTexture this filename tag (Some image) name = Ok (false, this') ∧
    unfreed_images (calls this') = unfreed_images (calls this) + 1.
Proof.
  intros H3 H4. eexists. split.
  - by apply CreateGLTexture_other_channels.
  - reflexivity.
Qed.

(** ... whereas the path that returns [true] has handed it back. *)
Lemma CreateGLTexture_true_frees this filename tag image name this' :
  CreateGLTexture this filename tag (Some image) name = Ok (true, this') →
  unfreed_images (calls this') = unfreed_images (calls this).
Proof.
  destruct (decide (colorChannels image = 3 ∨ colorChannels image = 4))
    as [Hc|Hc].
  - rewrite CreateGLTexture_3_or_4_channels by done. cbn zeta.
    repeat case_bool_decide; intros [= <-]; simpl; unfold upload_of; lia.
  - rewrite CreateGLTexture_other_channels by lia. discriminate.
Qed.

(** No capacity test: with a decodable 3- or 4-channel image the call does
    not return [false], however many textures are registered. *)
Lemma CreateGLTexture_never_refuses this filename tag image name this' :
  colorChannels image = 3 ∨ colorChannels image = 4 →
  CreateGLTexture this filename tag (Some image) name ≠ Ok (false, this').
Proof.
  intros Hc. rewrite CreateGLTexture_3_or_4_channels by done. cbn zeta.
  repeat case_bool_decide; discriminate.
Qed.

(** With every slot of the array taken, the registration stores past its
    end. *)
Lemma CreateGLTexture_full_array this filename tag image name :
  colorChannels image = 3 ∨ colorChannels image = 4 →
  m_loadedTextures this = Z.of_nat (length (m_textureIDs this)) →
  CreateGLTexture this filename tag (Some image) name = Undefined OutOfBounds.
Proof.
  intros Hc Hfull. rewrite CreateGLTexture_3_or_4_channels by done. cbn zeta.
  by rewrite bool_decide_eq_false_2 by lia.
Qed.

(** What a call that returned [true] has done to the registry. *)
Lemma CreateGLTexture_true_registers this filename tag decoded name this' :
  CreateGLTexture this filename tag decoded name = Ok (true, this') →
  0 ≤ m_loadedTextures this ∧
  m_loadedTextures this < Z.of_nat (length (m_textureIDs this)) ∧
  m_loadedTextures this' = m_loadedTextures this + 1 ∧
  registry_ok this' ∧
  registered this' = registered this ++ [TEXTURE_INFO.mk name tag].
Proof.
  destruct decoded as [image|]; [|discriminate].
  destruct (decide (colorChannels image = 3 ∨ colorChannels image = 4))
    as [Hc|Hc]; [|by rewrite CreateGLTexture_other_channels by lia].
  rewrite CreateGLTexture_3_or_4_channels by done. cbn zeta.
  case_bool_decide as Hin; [|discriminate].
  case_bool_decide as Hmax; [discriminate|].
  intros [= <-]. unfold registry_ok, registered. simpl.
  rewrite length_insert. split_and!; try lia.
  replace (Z.to_nat (m_loadedTextures this + 1))
    with (S (Z.to_nat (m_loadedTextures this))) by lia.
  erewrite take_S_r by (apply list_lookup_insert_eq; lia).
  by rewrite take_insert_ge by lia.
Qed.

Lemma int_of_GLuint_nonzero (u : Z) :
  0 < u ≤ UINT_MAX →
  int_of_GLuint u ≠ 0 ∧ int_of_GLuint u mod 4294967296 = u.
Proof.
  unfold int_of_GLuint, UINT_MAX. intros Hu.
  destruct (decide (u < 2147483648)).
  - rewrite (Z.mod_small (u + 2147483648)) by lia.
    rewrite Z.mod_small by lia. lia.
  - replace (u + 2147483648) with (u - 2147483648 + 1 * 4294967296) by lia.
    rewrite Z.mod_add, (Z.mod_small (u - 2147483648)) by lia.
    replace (u - 2147483648 - 2147483648) with (u + (-1) * 4294967296) by lia.
    rewrite Z.mod_add, Z.mod_small by lia. lia.
Qed.

(** C7: a decoded image whose channel count is neither 3 nor 4 makes
    [CreateGLTexture] return [false] and leaves the texture registry as it
    was: the array [m_textureIDs] is untouched, so no entry is added, and
    [m_loadedTextures] keeps its value. *)
Theorem CreateGLTexture_unsupported_channels_registry_unchanged
    this filename tag image name :
  colorChannels image ≠ 3 → colorChannels image ≠ 4 →
  ∃ this',
    CreateGLTexture this filename tag (Some image) name = Ok (false, this') ∧
    m_textureIDs this' = m_textureIDs this ∧
    m_loadedTextures this' = m_loadedTextures this ∧
    registered this' = registered this.
Proof.
  intros H3 H4. eexists. split; [by apply CreateGLTexture_other_channels|].
  by unfold registered.
Qed.

(** C8: for a tag that no registered entry carries, [FindTextureSlot] and
    [FindTextureID] both return -1 (a normal return, no fault), and with a
    live shader manager [SetShaderTexture] sets the use-texture flag to 1
    and writes that -1 as the sampler value; the call returns normally. *)
Theorem unregistered_tag_resolves_to_sentinel this tag :
  registry_ok this →
  (∀ e, e ∈ registered this → TEXTURE_INFO.tag e ≠ tag) →
  FindTextureSlot this tag = Ok (-1) ∧
  FindTextureID this tag = Ok (-1) ∧
  ∀ sh, m_pShaderManager this = Some sh →
    SetShaderTexture this tag =
    Ok (set_shader this
          (<[g_TextureValueName := USampler2D (-1)]>
             (<[g_UseTextureName := UInt 1]> sh))).
Proof.
  intros Hok Hnone.
  assert (Hfind : list_find (has_tag tag) (registered this) = None).
  { apply list_find_None, Forall_forall. exact Hnone. }
  assert (Hslot : FindTextureSlot this tag = Ok (-1)).
  { by rewrite FindTextureSlot_list_find, Hfind. }
  split_and!; [done| |].
  - by rewrite FindTextureID_list_find, Hfind.
  - intros sh Hsh. destruct this as [p a n ms cs]. simpl in Hsh. subst p.
    unfold SetShaderTexture, setIntValue, setSampler2DValue, setValue.
    cbn [m_pShaderManager is_NULL negb set_shader]. rewrite bind_Ok.
    replace (FindTextureSlot _ tag)
      with (FindTextureSlot (mk_SceneManager (Some sh) a n ms cs) tag)
      by reflexivity.
    by rewrite Hslot, bind_Ok.
Qed.

(** C9: [FindTextureSlot] returns the position of the first registered
    entry, in registration order, whose tag matches (and [FindTextureID]
    the handle held there, as an [int]).  Consequently, once
    [CreateGLTexture] has returned [true] for a tag that was not registered
    before, [FindTextureSlot] on that tag returns the position the entry
    was loaded at, which is at least 0 and below [m_loadedTextures], and
    [FindTextureID] returns the handle stored there, which is not zero:
    the name [glGenTextures] gave, a non-zero [GLuint]. *)
Theorem FindTextureSlot_first_match_and_after_load :
  (∀ this tag (i : nat) e,
     registry_ok this →
     registered this !! i = Some e →
     TEXTURE_INFO.tag e = tag →
     (∀ (j : nat) e', registered this !! j = Some e' → (j < i)%nat →
                       TEXTURE_INFO.tag e' ≠ tag) →
     FindTextureSlot this tag = Ok (Z.of_nat i) ∧
     FindTextureID this tag = Ok (int_of_GLuint (TEXTURE_INFO.ID e))) ∧
  (∀ this filename tag decoded name this',
     (∀ e, e ∈ registered this → TEXTURE_INFO.tag e ≠ tag) →
     0 < name ≤ UINT_MAX →
     CreateGLTexture this filename tag decoded name = Ok (true, this') →
     let slot := m_loadedTextures this in
     FindTextureSlot this' tag = Ok slot ∧
     0 ≤ slot < m_loadedTextures this' ∧
     registered this' !! Z.to_nat slot = Some (TEXTURE_INFO.mk name tag) ∧
     FindTextureID this' tag = Ok (int_of_GLuint name) ∧
     int_of_GLuint name ≠ 0 ∧
     int_of_GLuint name mod 4294967296 = name).
Proof.
  assert (Hfirst : ∀ this tag (i : nat) e,
     registry_ok this →
     registered this !! i = Some e →
     TEXTURE_INFO.tag e = tag →
     (∀ (j : nat) e', registered this !! j = Some e' → (j < i)%nat →
                       TEXTURE_INFO.tag e' ≠ tag) →
     FindTextureSlot this tag = Ok (Z.of_nat i) ∧
     FindTextureID this tag = Ok (int_of_GLuint (TEXTURE_INFO.ID e))).
  { intros this tag i e Hok Hi He Hbefore.
    assert (Hfind : list_find (has_tag tag) (registered this) = Some (i, e)).
    { apply list_find_Some. split_and!; [done..|].
      intros j e' Hj Hlt. by apply Hbefore with j. }
    by rewrite FindTextureSlot_list_find, FindTextureID_list_find, Hfind. }
  split; [exact Hfirst|].
  intros this filename tag decoded name this' Hnew Hname Hload slot.
  destruct (CreateGLTexture_true_registers _ _ _ _ _ _ Hload)
    as (H0 & Hlt & Hcount & Hok' & Hreg).
  assert (Hlen : length (registered this) = Z.to_nat slot).
  { apply length_registered. unfold registry_ok. lia. }
  assert (Hat : registered this' !! Z.to_nat slot
                = Some (TEXTURE_INFO.mk name tag)).
  { rewrite Hreg, <- Hlen. by rewrite lookup_app_r, Nat.sub_diag by lia. }
  destruct (Hfirst this' tag (Z.to_nat slot) _ Hok' Hat eq_refl) as [Hs Hi].
  { intros j e' Hj Hjlt. apply Hnew.
    rewrite Hreg, lookup_app_l in Hj by lia.
    by eapply list_elem_of_lookup_2. }
  rewrite Z2Nat.id in Hs by done. simpl in Hi.
  destruct (int_of_GLuint_nonzero name Hname) as [Hnz Hsame].
  split_and!; auto; lia.
Qed.

End Loading.

(** ** Teardown and binding *)

Section Teardown.
Context `{G : Glm}.
Implicit Types this : SceneManager.

(** [DestroyGLTextures] issues no [glDeleteTextures]: every texture object
    that existed before the call exists after it. *)
Lemma DestroyGLTextures_releases_nothing this names this' :
  DestroyGLTextures this names = Ok this' →
  releases (calls this') = releases (calls this) ∧
  live_textures (calls this) ⊆ live_textures (calls this').
Proof.
  unfold DestroyGLTextures.
  destruct (while _ _ _ _) as [[i s]|f] eqn:Hw; simpl; [|discriminate].
  intros [= <-].
  apply (while_invariant
           (λ '(_, s), releases (calls s) = releases (calls this) ∧
                       live_textures (calls this) ⊆ live_textures (calls s)))
    in Hw as [Hinv _]; [done| |done].
  clear. intros [i [p a n ms cs]] [i' s'] [Hrel Hlive] _. simpl in *.
  destruct (array_update _ _ _) as [a'|f]; simpl; [|discriminate].
  intros [= <- <-]. simpl. split; [done|]. set_solver.
Qed.

Lemma DestroyGLTextures_never_out_of_fuel this names :
  DestroyGLTextures this names ≠ Undefined OutOfFuel.
Proof.
  unfold DestroyGLTextures.
  set (n := m_loadedTextures this).
  assert (Hw : ∀ fuel i s,
    m_loadedTextures s = n → (Z.to_nat (n - i) ≤ fuel)%nat →
    while fuel
      (λ '(i, this), bool_decide (i < m_loadedTextures this))
      (λ '(i, this),
         a ← array_update (m_textureIDs this) i
               (λ e, TEXTURE_INFO.mk (names i) (TEXTURE_INFO.tag e));
         let this := call (glGenTextures (names i)) this in
         Ok (i + 1, set_textures this a (m_loadedTextures this)))
      (i, s) ≠ Undefined OutOfFuel).
  { induction fuel as [|fuel IH]; intros i [p a n' ms cs] Hn Hfuel;
      simpl in *.
    - rewrite bool_decide_eq_false_2 by lia. discriminate.
    - case_bool_decide; [|discriminate].
      destruct (array_update _ _ _) as [a'|f] eqn:Hu; simpl.
      + apply IH; simpl; lia.
      + unfold array_update in Hu. case_bool_decide; congruence. }
  specialize (Hw (Z.to_nat n) 0 this eq_refl).
  destruct (while _ _ _ _) as [[i s]|f]; simpl; [discriminate|].
  intros [= ->]. apply Hw; [lia|done].
Qed.

Lemma BindGLTextures_never_out_of_fuel this :
  BindGLTextures this ≠ Undefined OutOfFuel.
Proof.
  unfold BindGLTextures.
  set (n := m_loadedTextures this).
  assert (Hw : ∀ fuel i s,
    m_loadedTextures s = n → (Z.to_nat (n - i) ≤ fuel)%nat →
    while fuel
      (λ '(i, this), bool_decide (i < m_loadedTextures this))
      (λ '(i, this),
         let this := call (glActiveTexture i) this in
         e ← array_get (m_textureIDs this) i;
         let this :=
         call (glBindTexture GL_TEXTURE_2D (TEXTURE_INFO.ID e)) this in
         Ok (i + 1, this))
      (i, s) ≠ Undefined OutOfFuel).
  { induction fuel as [|fuel IH]; intros i [p a n' ms cs] Hn Hfuel;
      simpl in *.
    - rewrite bool_decide_eq_false_2 by lia. discriminate.
    - case_bool_decide; [|discriminate].
      destruct (array_get _ _) as [e|f] eqn:Hg; simpl.
      + apply IH; simpl; lia.
      + unfold array_get in Hg. case_bool_decide; [|congruence].
        destruct (_ !! _); congruence. }
  specialize (Hw (Z.to_nat n) 0 this eq_refl).
  destruct (while _ _ _ _) as [[i s]|f]; simpl; [discriminate|].
  intros [= ->]. apply Hw; [lia|done].
Qed.

End Teardown.

(** ** Per-draw state *)

Section DrawState.
Context `{G : Glm}.
Implicit Types this : SceneManager.

Lemma FindMaterial_never_out_of_fuel this tag material :
  FindMaterial this tag material ≠ Undefined OutOfFuel.
Proof. by rewrite FindMaterial_list_find. Qed.

(** On a list that is not empty [FindMaterial] answers [true], match or no
    match. *)
Lemma FindMaterial_true_on_nonempty this tag material :
  m_objectMaterials this ≠ [] →
  ∃ material', FindMaterial this tag material = Ok (true, material').
Proof.
  intros Hne. rewrite FindMaterial_list_find.
  destruct (m_objectMaterials this); [done|]. eauto.
Qed.

(** With a shader manager and a list that is not empty,
    [SetShaderMaterial] writes the five uniforms: from the first entry with
    the tag when there is one, and from the local object as it stood
    otherwise. *)
Lemma SetShaderMaterial_writes this tag material sh :
  m_pShaderManager this = Some sh →
  m_objectMaterials this ≠ [] →
  SetShaderMaterial this tag material =
  Ok (set_shader this
        (material_uniforms
           match list_find (material_has_tag tag) (m_objectMaterials this) with
           | Some (_, e) => e
           | None => material
           end sh)).
Proof.
  intros Hsh Hne. destruct this as [p a n ms cs]. simpl in Hsh, Hne. subst p.
  unfold SetShaderMaterial. rewrite FindMaterial_list_find.
  cbn [m_objectMaterials]. destruct ms as [|m ms']; [done|].
  rewrite bool_decide_eq_true_2 by (simpl; lia).
  rewrite bind_Ok. cbn iota beta.
  unfold setVec3Value, setFloatValue, setValue, material_uniforms.
  by destruct (list_find _ _) as [[j e]|].
Qed.

(** The half of the material step that holds: a tag that some entry
    carries gets that entry's five values written, and nothing else. *)
Lemma SetShaderMaterial_found this tag material sh (i : nat) e :
  m_pShaderManager this = Some sh →
  list_find (material_has_tag tag) (m_objectMaterials this) = Some (i, e) →
  SetShaderMaterial this tag material =
  Ok (set_shader this (material_uniforms e sh)).
Proof.
  intros Hsh Hfind. rewrite (SetShaderMaterial_writes _ _ _ sh); [|done|].
  - by rewrite Hfind.
  - intros Hnil. by rewrite Hnil in Hfind.
Qed.

(** C1: with a shader manager present, [SetTransformations] writes to the
    uniform named "model" the matrix Translation x RotationX x RotationY x
    RotationZ x Scale, multiplied left to right, translation outermost and
    scale innermost; each rotation is glm's rotation by the angle converted
    to radians about its own axis (1,0,0), (0,1,0), (0,0,1).  Nothing else
    of the object changes. *)
Theorem SetTransformations_model_is_T_Rx_Ry_Rz_S
    this scaleXYZ XrotationDegrees YrotationDegrees ZrotationDegrees
    positionXYZ sh :
  m_pShaderManager this = Some sh →
  SetTransformations this scaleXYZ XrotationDegrees YrotationDegrees
    ZrotationDegrees positionXYZ =
  Ok (set_shader this
        (<[g_ModelName :=
             UMat4 (Compose scaleXYZ XrotationDegrees YrotationDegrees
                      ZrotationDegrees positionXYZ)]> sh)) ∧
  Compose scaleXYZ XrotationDegrees YrotationDegrees ZrotationDegrees
    positionXYZ =
  ((((glm_translate positionXYZ
      * glm_rotate (glm_radians XrotationDegrees)
          (mk_vec3 (float_lit 1) (float_lit 0) (float_lit 0)))
     * glm_rotate (glm_radians YrotationDegrees)
         (mk_vec3 (float_lit 0) (float_lit 1) (float_lit 0)))
    * glm_rotate (glm_radians ZrotationDegrees)
        (mk_vec3 (float_lit 0) (float_lit 0) (float_lit 1)))
   * glm_scale scaleXYZ)%mat4.
Proof.
  intros Hsh. split; [|reflexivity].
  destruct this as [p a n ms cs]. simpl in Hsh. subst p. reflexivity.
Qed.

(** C10: with a NULL shader manager, [SetTransformations],
    [SetShaderColor], [SetShaderTexture] and [SetTextureUVScale] return
    with the object exactly as it was, so none of them calls through the
    NULL pointer; [SetShaderMaterial] has no such test and, whenever the
    material list is not empty, calls through the NULL pointer. *)
Theorem shader_writers_guard_NULL_except_SetShaderMaterial this :
  m_pShaderManager this = None →
  (∀ scaleXYZ xdeg ydeg zdeg positionXYZ,
     SetTransformations this scaleXYZ xdeg ydeg zdeg positionXYZ = Ok this) ∧
  (∀ r g b a, SetShaderColor this r g b a = Ok this) ∧
  (∀ textureTag, SetShaderTexture this textureTag = Ok this) ∧
  (∀ u v, SetTextureUVScale this u v = Ok this) ∧
  (∀ materialTag material,
     m_objectMaterials this ≠ [] →
     SetShaderMaterial this materialTag material = Undefined NullDereference).
Proof.
  intros Hnull. destruct this as [p a n ms cs]. simpl in Hnull. subst p.
  split_and!; try reflexivity.
  intros materialTag material Hne. simpl in Hne.
  unfold SetShaderMaterial. rewrite FindMaterial_list_find.
  cbn [m_objectMaterials]. destruct ms as [|m ms']; [done|].
  rewrite bool_decide_eq_true_2 by (simpl; lia).
  by rewrite bind_Ok.
Qed.

End DrawState.

(** ** The methods on concrete scenes *)

Local Open Scope Q_scope.

Example Compose_scales_x :
  Exact.transform (Compose (mk_vec3 2 1 1) 0 0 0 (mk_vec3 0 0 0))
    (mk_vec4 1 0 0 1) = mk_vec4 2 0 0 1.
Proof. vm_compute. reflexivity. Qed.

Example Compose_rotates_before_translating :
  Exact.transform (Compose (mk_vec3 1 1 1) 0 90 0 (mk_vec3 5 0 0))
    (mk_vec4 0 0 1 1) = mk_vec4 6 0 0 1.
Proof. vm_compute. reflexivity. Qed.

(** The order of the product shows: the reverse order gives another
    matrix. *)
Example Compose_order_is_observable :
  Compose (mk_vec3 2 1 1) 0 90 0 (mk_vec3 5 0 0) ≠
  (Scale (mk_vec3 2 1 1) * RotationZ 0 * RotationY 90 * RotationX 0
   * Translation (mk_vec3 5 0 0))%mat4.
Proof. vm_compute. discriminate. Qed.

Lemma SetTransformations_model_witness :
  m_pShaderManager (new_scene 16) = Some ∅ ∧
  SetTransformations (new_scene 16) (mk_vec3 2 1 1) 0 90 0 (mk_vec3 5 0 0) =
    Ok (set_shader (new_scene 16)
          (<[g_ModelName :=
               UMat4 (Compose (mk_vec3 2 1 1) 0 90 0 (mk_vec3 5 0 0))]>
             ∅)) ∧
  Compose (mk_vec3 2 1 1) 0 90 0 (mk_vec3 5 0 0) =
    ((((glm_translate (mk_vec3 5 0 0)
        * glm_rotate (glm_radians 0)
            (mk_vec3 (float_lit 1) (float_lit 0) (float_lit 0)))
       * glm_rotate (glm_radians 90)
           (mk_vec3 (float_lit 0) (float_lit 1) (float_lit 0)))
      * glm_rotate (glm_radians 0)
          (mk_vec3 (float_lit 0) (float_lit 0) (float_lit 1)))
     * glm_scale (mk_vec3 2 1 1))%mat4.
Proof.
  split; [reflexivity|].
  apply (@SetTransformations_model_is_T_Rx_Ry_Rz_S ExactGlm (new_scene 16)
           (mk_vec3 2 1 1) 0 90 0 (mk_vec3 5 0 0) ∅).
  reflexivity.
Defined.

Local Close Scope Q_scope.

Lemma LoadSceneTextures_loaded_scene :
  LoadSceneTextures (new_scene 16) decodes_RGB counting_driver
  = Ok loaded_scene.
Proof. reflexivity. Qed.

Lemma registered_loaded_scene :
  registered loaded_scene =
  [ TEXTURE_INFO.mk 1 "floor"; TEXTURE_INFO.mk 2 "kickstand";
    TEXTURE_INFO.mk 3 "kickbag"; TEXTURE_INFO.mk 4 "dumbell_steel";
    TEXTURE_INFO.mk 5 "dumbell_orange"; TEXTURE_INFO.mk 6 "dumbell_pink";
    TEXTURE_INFO.mk 7 "dumbell_grey"; TEXTURE_INFO.mk 8 "wall";
    TEXTURE_INFO.mk 9 "window"; TEXTURE_INFO.mk 10 "window_wall";
    TEXTURE_INFO.mk 11 "tv"; TEXTURE_INFO.mk 12 "dumbell_steel_white";
    TEXTURE_INFO.mk 13 "door"; TEXTURE_INFO.mk 14 "double_doors";
    TEXTURE_INFO.mk 15 "weight_mats"; TEXTURE_INFO.mk 16 "wall_mat" ].
Proof. reflexivity. Qed.

Lemma registry_ok_loaded_scene : registry_ok loaded_scene.
Proof.
  unfold registry_ok.
  replace (m_loadedTextures loaded_scene) with 16 by reflexivity.
  replace (length (m_textureIDs loaded_scene)) with 16%nat by reflexivity.
  lia.
Qed.

Lemma CreateGLTexture_unsupported_channels_witness :
  colorChannels grey_image ≠ 3 ∧ colorChannels grey_image ≠ 4 ∧
  ∃ this',
    CreateGLTexture (new_scene 16) "grey.png" "grey" (Some grey_image) 1
      = Ok (false, this') ∧
    m_textureIDs this' = m_textureIDs (new_scene 16) ∧
    m_loadedTextures this' = m_loadedTextures (new_scene 16) ∧
    registered this' = registered (new_scene 16).
Proof.
  split; [discriminate|]. split; [discriminate|].
  apply (CreateGLTexture_unsupported_channels_registry_unchanged
           (new_scene 16) "grey.png" "grey" grey_image 1); discriminate.
Defined.

Lemma loaded_scene_shader : m_pShaderManager loaded_scene = Some ∅.
Proof. reflexivity. Qed.

(** "kettlebell_blue" is a tag [RenderScene] asks for and
    [LoadSceneTextures] never registers. *)
Lemma unregistered_tag_witness :
  registry_ok loaded_scene ∧
  (∀ e, e ∈ registered loaded_scene →
        TEXTURE_INFO.tag e ≠ "kettlebell_blue") ∧
  FindTextureSlot loaded_scene "kettlebell_blue" = Ok (-1) ∧
  FindTextureID loaded_scene "kettlebell_blue" = Ok (-1) ∧
  SetShaderTexture loaded_scene "kettlebell_blue" =
    Ok (set_shader loaded_scene
          (<[g_TextureValueName := USampler2D (-1)]>
             (<[g_UseTextureName := UInt 1]> ∅))).
Proof.
  assert (Hnone : ∀ e, e ∈ registered loaded_scene →
                       TEXTURE_INFO.tag e ≠ "kettlebell_blue").
  { rewrite registered_loaded_scene. intros e He.
    repeat (apply elem_of_cons in He as [->|He]; [discriminate|]).
    by apply elem_of_nil in He. }
  destruct (unregistered_tag_resolves_to_sentinel loaded_scene
              "kettlebell_blue" registry_ok_loaded_scene Hnone)
    as (Hslot & Hid & Hset).
  split; [exact registry_ok_loaded_scene|]. split; [exact Hnone|].
  split; [exact Hslot|]. split; [exact Hid|].
  exact (Hset ∅ loaded_scene_shader).
Defined.

Lemma CreateGLTexture_floor_loaded :
  CreateGLTexture (new_scene 16) "floor.jpg" "floor" (Some (mk_Image 64 64 3)) 1
  = Ok (true, floor_loaded).
Proof. reflexivity. Qed.

(** First half at the scene's textures and the tag "wall" (eighth to be
    loaded, handle 8); second half at the first load into an empty
    registry. *)
Lemma FindTextureSlot_first_match_and_after_load_witness :
  (registry_ok loaded_scene ∧
   registered loaded_scene !! 7%nat = Some (TEXTURE_INFO.mk 8 "wall") ∧
   FindTextureSlot loaded_scene "wall" = Ok 7 ∧
   FindTextureID loaded_scene "wall" = Ok 8) ∧
  (0 < 1 ≤ UINT_MAX ∧
   CreateGLTexture (new_scene 16) "floor.jpg" "floor"
     (Some (mk_Image 64 64 3)) 1 = Ok (true, floor_loaded) ∧
   FindTextureSlot floor_loaded "floor" = Ok 0 ∧
   0 ≤ 0 < m_loadedTextures floor_loaded ∧
   registered floor_loaded !! 0%nat = Some (TEXTURE_INFO.mk 1 "floor") ∧
   FindTextureID floor_loaded "floor" = Ok 1 ∧
   int_of_GLuint 1 ≠ 0).
Proof.
  destruct FindTextureSlot_first_match_and_after_load as [Hfirst Hload].
  split.
  - assert (Hat : registered loaded_scene !! 7%nat
                  = Some (TEXTURE_INFO.mk 8 "wall"))
      by (by rewrite registered_loaded_scene).
    split; [exact registry_ok_loaded_scene|]. split; [exact Hat|].
    apply (Hfirst loaded_scene "wall" 7%nat (TEXTURE_INFO.mk 8 "wall")
             registry_ok_loaded_scene Hat eq_refl).
    rewrite registered_loaded_scene. intros j e' Hj Hlt.
    do 7 (destruct j as [|j]; [injection Hj as <-; discriminate|]). lia.
  - assert (Hname : 0 < 1 ≤ UINT_MAX) by (unfold UINT_MAX; lia).
    split; [exact Hname|]. split; [exact CreateGLTexture_floor_loaded|].
    destruct (Hload (new_scene 16) "floor.jpg" "floor"
                (Some (mk_Image 64 64 3)) 1 floor_loaded)
      as (Hslot & Hrange & Hat & Hid & Hnz & _).
    + intros e He. by apply elem_of_nil in He.
    + exact Hname.
    + exact CreateGLTexture_floor_loaded.
    + split; [exact Hslot|]. split; [exact Hrange|]. split; [exact Hat|].
      split; [exact Hid|exact Hnz].
Defined.

Lemma shader_writers_guard_NULL_witness :
  m_pShaderManager scene_with_materials_without_shader = None ∧
  m_objectMaterials scene_with_materials_without_shader ≠ [] ∧
  SetTransformations scene_with_materials_without_shader
    (mk_vec3 2%Q 1%Q 1%Q) 0%Q 90%Q 0%Q (mk_vec3 5%Q 0%Q 0%Q)
    = Ok scene_with_materials_without_shader ∧
  SetShaderColor scene_with_materials_without_shader 0%Q 1%Q 1%Q 1%Q
    = Ok scene_with_materials_without_shader ∧
  SetShaderTexture scene_with_materials_without_shader "wall"
    = Ok scene_with_materials_without_shader ∧
  SetTextureUVScale scene_with_materials_without_shader 2%Q 2%Q
    = Ok scene_with_materials_without_shader ∧
  SetShaderMaterial scene_with_materials_without_shader "whiteWall"
    (material 0 0 0 0 0 0 0 0 0 0 0 "")
    = Undefined NullDereference.
Proof.
  assert (Hnull : m_pShaderManager scene_with_materials_without_shader = None)
    by reflexivity.
  assert (Hne : m_objectMaterials scene_with_materials_without_shader ≠ [])
    by discriminate.
  destruct (shader_writers_guard_NULL_except_SetShaderMaterial
              scene_with_materials_without_shader Hnull)
    as (Htransform & Hcolor & Htexture & Huv & Hmaterial).
  split; [exact Hnull|]. split; [exact Hne|].
  split; [apply Htransform|]. split; [apply Hcolor|].
  split; [apply Htexture|]. split; [apply Huv|].
  apply Hmaterial, Hne.
Defined.

(** ** Where the code departs from its description *)

(** "rubberDumbell" is the tag [RenderScene] passes eighteen times; the
    material [DefineObjectMaterials] registers is tagged "rubberDumbbell". *)
Lemma rubberDumbell_not_defined :
  list_find (material_has_tag "rubberDumbell")
    (m_objectMaterials scene_with_materials) = None.
Proof. reflexivity. Qed.

Lemma scene_with_materials_shader :
  m_pShaderManager scene_with_materials = Some ∅.
Proof. reflexivity. Qed.

Lemma scene_with_materials_nonempty :
  m_objectMaterials scene_with_materials ≠ [].
Proof. discriminate. Qed.

(** C2, on the code: the material list of the scene has no entry tagged
    "rubberDumbell", yet [FindMaterial] returns [true] for that tag and
    leaves the caller's object as it found it. *)
Theorem FindMaterial_true_without_match :
  list_find (material_has_tag "rubberDumbell")
    (m_objectMaterials scene_with_materials) = None ∧
  ∀ material,
    FindMaterial scene_with_materials "rubberDumbell" material
    = Ok (true, material).
Proof.
  split; [exact rubberDumbell_not_defined|].
  intros material. rewrite FindMaterial_list_find.
  by rewrite rubberDumbell_not_defined.
Qed.

(** C3, on the code: after the material "whiteWall" has been bound, a
    [SetShaderMaterial] with the unmatched tag "rubberDumbell" overwrites
    all five material uniforms with the content of its uninitialised local
    object, whatever that is; the values bound before do not persist. *)
Theorem SetShaderMaterial_unmatched_tag_overwrites :
  ∀ uninitialised : OBJECT_MATERIAL.t,
  ∃ bound sh after sh',
    SetShaderMaterial scene_with_materials "whiteWall" uninitialised
      = Ok bound ∧
    m_pShaderManager bound = Some sh ∧
    sh !! "material.diffuseColor"
      = Some (UVec3 (mk_vec3 (float_lit 0.8) (float_lit 0.8)
                       (float_lit 0.8))) ∧
    SetShaderMaterial bound "rubberDumbell" uninitialised = Ok after ∧
    m_pShaderManager after = Some sh' ∧
    sh' !! "material.ambientColor"
      = Some (UVec3 (OBJECT_MATERIAL.ambientColor uninitialised)) ∧
    sh' !! "material.ambientStrength"
      = Some (UFloat (OBJECT_MATERIAL.ambientStrength uninitialised)) ∧
    sh' !! "material.diffuseColor"
      = Some (UVec3 (OBJECT_MATERIAL.diffuseColor uninitialised)) ∧
    sh' !! "material.specularColor"
      = Some (UVec3 (OBJECT_MATERIAL.specularColor uninitialised)) ∧
    sh' !! "material.shininess"
      = Some (UFloat (OBJECT_MATERIAL.shininess uninitialised)).
Proof.
  intros uninitialised.
  assert (HwhiteWall :
    list_find (material_has_tag "whiteWall")
      (m_objectMaterials scene_with_materials)
    = Some (5%nat,
            material 0.8 0.8 0.8 0.2 0.8 0.8 0.8 0.0 0.0 0.0 0.0 "whiteWall"))
    by reflexivity.
  pose proof (SetShaderMaterial_found scene_with_materials "whiteWall"
                uninitialised ∅ _ _ scene_with_materials_shader HwhiteWall)
    as Hbound.
  set (sh := material_uniforms _ ∅) in Hbound.
  assert (Hdiffuse : sh !! "material.diffuseColor"
    = Some (UVec3 (mk_vec3 (float_lit 0.8) (float_lit 0.8) (float_lit 0.8)))).
  { unfold sh, material_uniforms.
    repeat (rewrite lookup_insert_ne by discriminate).
    apply lookup_insert_eq. }
  clearbody sh.
  set (bound := set_shader scene_with_materials sh) in Hbound.
  pose proof (SetShaderMaterial_writes bound "rubberDumbell" uninitialised sh
                eq_refl scene_with_materials_nonempty) as Hafter.
  change (m_objectMaterials bound)
    with (m_objectMaterials scene_with_materials) in Hafter.
  rewrite rubberDumbell_not_defined in Hafter.
  eexists bound, sh, _, _.
  split; [exact Hbound|]. split; [reflexivity|].
  split; [exact Hdiffuse|].
  split; [exact Hafter|]. split; [reflexivity|].
  unfold material_uniforms.
  split_and!; repeat (rewrite lookup_insert_ne by discriminate);
    apply lookup_insert_eq.
Qed.

(** C4, on the code: the sixteen loads of [LoadSceneTextures] fill a
    sixteen-slot array; a seventeenth [CreateGLTexture] with a decodable
    RGB image does not return [false]: it stores to [m_textureIDs[16]],
    past the end of the array. *)
Theorem CreateGLTexture_seventeenth_overruns :
  LoadSceneTextures (new_scene 16) decodes_RGB counting_driver
    = Ok loaded_scene ∧
  m_loadedTextures loaded_scene = 16 ∧
  length (m_textureIDs loaded_scene) = 16%nat ∧
  CreateGLTexture loaded_scene "seventeenth.jpg" "seventeenth"
    (Some (mk_Image 64 64 3)) 17 = Undefined OutOfBounds.
Proof.
  split; [exact LoadSceneTextures_loaded_scene|].
  split; [reflexivity|]. split; [reflexivity|].
  apply CreateGLTexture_full_array; [by left|reflexivity].
Qed.

(** C5, on the code: [DestroyGLTextures] on the loaded scene returns with
    no [glDeleteTextures] issued; the sixteen registered texture objects
    are all still alive, next to sixteen new ones the loop generated. *)
Theorem DestroyGLTextures_leaves_textures_alive :
  ∃ this',
    DestroyGLTextures loaded_scene (λ i, 17 + i) = Ok this' ∧
    releases (calls this') = 0%nat ∧
    (∀ e, e ∈ registered loaded_scene →
          TEXTURE_INFO.ID e ∈ live_textures (calls this')) ∧
    live_textures (calls this') = list_to_set (seqZ 1 32).
Proof.
  exists destroyed_scene.
  assert (Hd : DestroyGLTextures loaded_scene (λ i, 17 + i)
               = Ok destroyed_scene) by reflexivity.
  destruct (DestroyGLTextures_releases_nothing _ _ _ Hd) as [Hrel Hlive].
  assert (Hall : live_textures (calls destroyed_scene)
                 = list_to_set (seqZ 1 32))
    by (vm_compute; reflexivity).
  split; [exact Hd|]. split; [by vm_compute|]. split; [|exact Hall].
  intros e He. rewrite Hall. revert e He. rewrite registered_loaded_scene.
  apply Forall_forall.
  repeat constructor; apply bool_decide_unpack; vm_compute; exact I.
Qed.

(** C6, on the code: the decode of a single-channel image succeeds,
    [CreateGLTexture] returns [false], and the decoded buffer has not been
    released: no [stbi_image_free] was issued. *)
Theorem CreateGLTexture_unsupported_channels_leaks_image :
  ∃ this',
    CreateGLTexture (new_scene 16) "grey.png" "grey" (Some grey_image) 1
      = Ok (false, this') ∧
    unfreed_images (calls (new_scene 16)) = 0 ∧
    unfreed_images (calls this') = 1 ∧
    stbi_image_free ∉ calls this'.
Proof.
  eexists. split; [by apply CreateGLTexture_other_channels|].
  split; [reflexivity|]. split; [reflexivity|].
  simpl. intros Hin.
  repeat (apply elem_of_cons in Hin as [Hin|Hin]; [discriminate|]).
  by apply elem_of_nil in Hin.
Qed.

(** * Further properties *)

(** ** The texture registry *)

Section Registry.
Context `{G : Glm}.
Implicit Types this : SceneManager.

Lemma CreateGLTexture_not_decoded this filename tag name :
  CreateGLTexture this filename tag None name =
  Ok (false,
      mk_SceneManager (m_pShaderManager this) (m_textureIDs this)
        (m_loadedTextures this) (m_objectMaterials this)
        (cout (CouldNotLoad filename) :: stbi_load filename None
           :: stbi_set_flip_vertically_on_load true :: calls this)).
Proof. by destruct this. Qed.

Lemma texture_units_prologue filename image name (log : list Call) :
  texture_units (prologue filename image name ++ log) =
  (fst (texture_units log),
   <[fst (texture_units log) := name]> (snd (texture_units log))).
Proof. unfold prologue. simpl. by destruct (texture_units log). Qed.

Lemma live_textures_prologue filename image name (log : list Call) :
  live_textures (prologue filename image name ++ log)
  = {[ name ]} ∪ live_textures log.
Proof. reflexivity. Qed.

Lemma success_log_facts image internalformat format filename name
    (log : list Call) :
  let log' :=
    glBindTexture GL_TEXTURE_2D 0 :: stbi_image_free
      :: glGenerateMipmap GL_TEXTURE_2D
      :: upload_of image internalformat format
      :: prologue filename image name ++ log in
  live_textures log' = {[ name ]} ∪ live_textures log ∧
  bound_texture log' = Some 0 ∧
  unfreed_images log' = unfreed_images log.
Proof.
  unfold bound_texture, upload_of, prologue. simpl.
  destruct (texture_units log) as [active bound]. simpl.
  rewrite lookup_insert_eq. split_and!; [done|done|lia].
Qed.

Lemma CreateGLTexture_false_unchanged this filename tag decoded name this' :
  CreateGLTexture this filename tag decoded name = Ok (false, this') →
  m_textureIDs this' = m_textureIDs this ∧
  m_loadedTextures this' = m_loadedTextures this.
Proof.
  destruct decoded as [image|].
  - destruct (decide (colorChannels image = 3 ∨ colorChannels image = 4))
      as [Hc|Hc].
    + rewrite CreateGLTexture_3_or_4_channels by done. cbn zeta.
      repeat case_bool_decide; discriminate.
    + rewrite CreateGLTexture_other_channels by lia. by intros [= <-].
  - rewrite CreateGLTexture_not_decoded. by intros [= <-].
Qed.


(** The two paths that return [false] differ in what they leave behind.
    When the file does not decode, no texture object has been created, no
    unit has been touched and no image buffer is outstanding.  When the
    channel count is not 3 or 4, the texture object generated for the image
    stays alive and stays bound to the selected unit, although the registry
    does not hold it. *)
Theorem CreateGLTexture_false_paths_leftovers this filename tag name :
  (∃ this',
     CreateGLTexture this filename tag None name = Ok (false, this') ∧
     live_textures (calls this') = live_textures (calls this) ∧
     texture_units (calls this') = texture_units (calls this) ∧
     unfreed_images (calls this') = unfreed_images (calls this)) ∧
  (∀ image,
     colorChannels image ≠ 3 → colorChannels image ≠ 4 →
     ∃ this',
       CreateGLTexture this filename tag (Some image) name
         = Ok (false, this') ∧
       name ∈ live_textures (calls this') ∧
       bound_texture (calls this') = Some name ∧
       registered this' = registered this).
Proof.
  split.
  - eexists. split; [apply CreateGLTexture_not_decoded|]. simpl.
    split_and!; try done. by destruct (texture_units (calls this)).
  - intros image H3 H4. eexists.
    split; [by apply CreateGLTexture_other_channels|].
    cbn [calls]. split_and!.
    + cbn [live_textures]. rewrite live_textures_prologue. set_solver.
    + unfold bound_texture. cbn [texture_units].
      rewrite texture_units_prologue. simpl. apply lookup_insert_eq.
    + done.
Qed.

(** A call that returns [true] leaves the new texture object alive, the
    selected unit unbound (texture 0), the image buffer released, and one
    entry stored at the old count, which goes up by one. *)
Theorem CreateGLTexture_true_effects this filename tag decoded name this' :
  CreateGLTexture this filename tag decoded name = Ok (true, this') →
  live_textures (calls this') = {[ name ]} ∪ live_textures (calls this) ∧
  bound_texture (calls this') = Some 0 ∧
  unfreed_images (calls this') = unfreed_images (calls this) ∧
  m_textureIDs this' =
    <[Z.to_nat (m_loadedTextures this) := TEXTURE_INFO.mk name tag]>
      (m_textureIDs this) ∧
  m_loadedTextures this' = m_loadedTextures this + 1.
Proof.
  destruct decoded as [image|]; [|by rewrite CreateGLTexture_not_decoded].
  destruct (decide (colorChannels image = 3 ∨ colorChannels image = 4))
    as [Hc|Hc]; [|by rewrite CreateGLTexture_other_channels by lia].
  rewrite CreateGLTexture_3_or_4_channels by done. cbn zeta.
  pose proof (success_log_facts image GL_RGB8 GL_RGB filename name
                (calls this)) as (? & ? & ?).
  pose proof (success_log_facts image GL_RGBA8 GL_RGBA filename name
                (calls this)) as (? & ? & ?).
  repeat case_bool_decide; intros [= <-];
    cbn [calls m_textureIDs m_loadedTextures]; by split_and!.
Qed.

(** Loading never changes what an already registered tag resolves to:
    the scan stops at the first entry, so a second texture loaded under a
    tag in use is never found. *)
Theorem CreateGLTexture_keeps_earlier_lookups
    this filename tag decoded name (b : bool) this' tag' e :
  CreateGLTexture this filename tag decoded name = Ok (b, this') →
  registry_ok this →
  e ∈ registered this → TEXTURE_INFO.tag e = tag' →
  FindTextureSlot this' tag' = FindTextureSlot this tag' ∧
  FindTextureID this' tag' = FindTextureID this tag'.
Proof.
  intros Hload Hok He Htag. destruct b.
  - destruct (CreateGLTexture_true_registers _ _ _ _ _ _ Hload)
      as (_ & _ & _ & Hok' & Hreg).
    rewrite !FindTextureSlot_list_find, !FindTextureID_list_find by done.
    rewrite Hreg.
    destruct (list_find (has_tag tag') (registered this)) as [[i e']|] eqn:Hf.
    + by rewrite (list_find_app_l _ _ _ _ _ Hf).
    + apply list_find_None in Hf. rewrite Forall_forall in Hf.
      by destruct (Hf e He).
  - destruct (CreateGLTexture_false_unchanged _ _ _ _ _ _ Hload) as [Ha Hn].
    assert (Hreg : registered this' = registered this)
      by (unfold registered; by rewrite Ha, Hn).
    assert (Hok' : registry_ok this')
      by (unfold registry_ok; by rewrite Ha, Hn).
    rewrite !FindTextureSlot_list_find, !FindTextureID_list_find by done.
    by rewrite Hreg.
Qed.

(** [FindTextureSlot] answers -1 or a position below the count; it answers
    a position exactly when some registered entry carries the tag, that
    position holds an entry with the tag, no earlier position does, and
    [FindTextureID] answers the handle stored there. *)
Theorem FindTextureSlot_sound_and_complete this tag :
  registry_ok this →
  ∃ slot,
    FindTextureSlot this tag = Ok slot ∧
    (slot = -1 ∨ 0 ≤ slot < m_loadedTextures this) ∧
    (slot ≠ -1 ↔ ∃ e, e ∈ registered this ∧ TEXTURE_INFO.tag e = tag) ∧
    (slot ≠ -1 →
     ∃ e, registered this !! Z.to_nat slot = Some e ∧
          TEXTURE_INFO.tag e = tag ∧
          (∀ (j : nat) e', registered this !! j = Some e' →
                           (j < Z.to_nat slot)%nat →
                           TEXTURE_INFO.tag e' ≠ tag) ∧
          FindTextureID this tag = Ok (int_of_GLuint (TEXTURE_INFO.ID e))).
Proof.
  intros Hok. rewrite FindTextureSlot_list_find, FindTextureID_list_find by done.
  pose proof (length_registered this Hok) as Hlen.
  destruct (list_find (has_tag tag) (registered this)) as [[i e]|] eqn:Hf.
  - apply list_find_Some in Hf as (Hi & He & Hbefore).
    pose proof (lookup_lt_Some _ _ _ Hi) as Hlt.
    exists (Z.of_nat i). split; [done|]. split; [right; lia|]. split.
    + split; [|lia]. intros _. exists e. split; [|done].
      by eapply list_elem_of_lookup_2.
    + intros _. exists e. rewrite Nat2Z.id. split_and!; try done.
      all: intros j e' Hj Hjlt; by apply (Hbefore j).
  - exists (-1). split; [done|]. split; [by left|]. split; [|done].
    split; [done|]. intros (e & He & Htag).
    apply list_find_None in Hf. rewrite Forall_forall in Hf.
    by destruct (Hf e He).
Qed.

(** [FindTextureID] hands the [GLuint] handle back as an [int]: a handle
    up to [INT_MAX] comes back as it is, a larger one comes back negative,
    less 2^32; the handle [UINT_MAX] comes back as -1, the answer for a tag
    that is not registered. *)
Theorem FindTextureID_converts_handle this tag (i : nat) e :
  registry_ok this →
  list_find (has_tag tag) (registered this) = Some (i, e) →
  0 ≤ TEXTURE_INFO.ID e ≤ UINT_MAX →
  FindTextureID this tag =
    Ok (if bool_decide (TEXTURE_INFO.ID e ≤ INT_MAX)
        then TEXTURE_INFO.ID e
        else TEXTURE_INFO.ID e - 4294967296) ∧
  (TEXTURE_INFO.ID e = UINT_MAX → FindTextureID this tag = Ok (-1)).
Proof.
  intros Hok Hf Hrange. rewrite FindTextureID_list_find, Hf by done.
  unfold UINT_MAX, INT_MAX in *.
  assert (Hconv : int_of_GLuint (TEXTURE_INFO.ID e) =
    if bool_decide (TEXTURE_INFO.ID e ≤ 2147483647)
    then TEXTURE_INFO.ID e else TEXTURE_INFO.ID e - 4294967296).
  { unfold int_of_GLuint. case_bool_decide.
    - rewrite Z.mod_small by lia. lia.
    - replace (TEXTURE_INFO.ID e + 2147483648)
        with (TEXTURE_INFO.ID e - 2147483648 + 1 * 4294967296) by lia.
      rewrite Z.mod_add, Z.mod_small by lia. lia. }
  rewrite Hconv. split; [done|]. intros ->. done.
Qed.

End Registry.

(** ** Binding, teardown and runs of loads *)

Section BindAndDestroy.
Context `{G : Glm}.
Implicit Types this : SceneManager.

Lemma bind_calls_snoc (l : list TEXTURE_INFO.t) (e : TEXTURE_INFO.t) :
  bind_calls (l ++ [e]) =
  glBindTexture GL_TEXTURE_2D (TEXTURE_INFO.ID e)
    :: glActiveTexture (Z.of_nat (length l)) :: bind_calls l.
Proof.
  unfold bind_calls. rewrite imap_app, concat_app, reverse_app. simpl.
  by rewrite Nat.add_0_r.
Qed.

Lemma texture_units_bind_calls (l : list TEXTURE_INFO.t) (log : list Call)
    (i : nat) (e : TEXTURE_INFO.t) :
  l !! i = Some e →
  snd (texture_units (bind_calls l ++ log)) !! Z.of_nat i
  = Some (TEXTURE_INFO.ID e).
Proof.
  revert i e. induction l as [|e' l IH] using rev_ind; intros i e Hi; [done|].
  rewrite bind_calls_snoc. simpl.
  destruct (texture_units (bind_calls l ++ log)) as [active bound] eqn:Hu.
  simpl. apply lookup_app_Some in Hi as [Hi|[Hge Hi]].
  - pose proof (lookup_lt_Some _ _ _ Hi).
    rewrite lookup_insert_ne by lia.
    exact (IH i e Hi).
  - apply list_lookup_singleton_Some in Hi as [Hi ->].
    replace i with (length l) by lia. apply lookup_insert_eq.
Qed.

Lemma BindGLTextures_result this :
  registry_ok this →
  BindGLTextures this =
  Ok (mk_SceneManager (m_pShaderManager this) (m_textureIDs this)
        (m_loadedTextures this) (m_objectMaterials this)
        (bind_calls (registered this) ++ calls this)).
Proof.
  destruct this as [p a n ms cs]. unfold registry_ok, registered. simpl.
  intros Hok. set (reg := take (Z.to_nat n) a).
  assert (Hlen : length reg = Z.to_nat n)
    by (unfold reg; rewrite length_take; lia).
  assert (Hw : ∀ (d k fuel : nat),
    (k + d = Z.to_nat n)%nat → (d ≤ fuel)%nat →
    while fuel
      (λ '(i, this), bool_decide (i < m_loadedTextures this))
      (λ '(i, this),
         let this := call (glActiveTexture i) this in
         e ← array_get (m_textureIDs this) i;
         let this :=
           call (glBindTexture GL_TEXTURE_2D (TEXTURE_INFO.ID e)) this in
         Ok (i + 1, this))
      (Z.of_nat k, mk_SceneManager p a n ms (bind_calls (take k reg) ++ cs))
    = Ok (Z.of_nat (Z.to_nat n),
          mk_SceneManager p a n ms (bind_calls reg ++ cs))).
  { induction d as [|d IH]; intros k fuel Hk Hfuel.
    - replace k with (Z.to_nat n) by lia.
      rewrite take_ge by lia.
      destruct fuel; simpl; by rewrite bool_decide_eq_false_2 by lia.
    - destruct fuel as [|fuel]; [lia|].
      destruct (lookup_lt_is_Some_2 reg k) as [e He]; [lia|].
      assert (Ha : a !! k = Some e).
      { unfold reg in He. by rewrite lookup_take_lt in He by lia. }
      simpl. rewrite bool_decide_eq_true_2 by lia.
      rewrite (array_get_lookup _ _ _ Ha), bind_Ok. cbn zeta.
      replace (Z.of_nat k + 1) with (Z.of_nat (S k)) by lia.
      rewrite <- (IH (S k) fuel) by lia.
      rewrite (take_S_r _ _ _ He), bind_calls_snoc.
      by rewrite length_take_le by lia. }
  specialize (Hw (Z.to_nat n) 0%nat (Z.to_nat n) ltac:(lia) ltac:(lia)).
  unfold BindGLTextures. simpl in Hw |- *.
  change (Z.of_nat 0) with 0 in Hw. by rewrite Hw.
Qed.

(** [BindGLTextures] goes over the registered entries in load order and,
    for the entry at position [i], selects texture unit [i] and binds the
    entry's handle; afterwards unit [i] holds the handle of slot [i], for
    every slot.  The members are untouched. *)
Theorem BindGLTextures_binds_slot_i_to_unit_i this :
  registry_ok this →
  ∃ this',
    BindGLTextures this = Ok this' ∧
    calls this' = bind_calls (registered this) ++ calls this ∧
    m_textureIDs this' = m_textureIDs this ∧
    m_loadedTextures this' = m_loadedTextures this ∧
    m_objectMaterials this' = m_objectMaterials this ∧
    m_pShaderManager this' = m_pShaderManager this ∧
    ∀ (i : nat) e,
      registered this !! i = Some e →
      snd (texture_units (calls this')) !! Z.of_nat i
      = Some (TEXTURE_INFO.ID e).
Proof.
  intros Hok. eexists. split; [by apply BindGLTextures_result|]. simpl.
  split_and!; try done. intros i e Hi. by apply texture_units_bind_calls.
Qed.

Lemma regenerated_0 names (a : list TEXTURE_INFO.t) : regenerated names 0 a = a.
Proof.
  unfold regenerated. apply list_eq. intros i.
  rewrite list_lookup_imap. destruct (a !! i); [|done].
  cbn [fmap option_fmap option_map]. case_bool_decide; [lia|done].
Qed.

Lemma regenerated_S names (k : nat) (a : list TEXTURE_INFO.t) :
  alter (λ e, TEXTURE_INFO.mk (names (Z.of_nat k)) (TEXTURE_INFO.tag e)) k
    (regenerated names k a)
  = regenerated names (S k) a.
Proof.
  unfold regenerated. apply list_eq. intros i.
  destruct (decide (k = i)) as [<-|Hne].
  - rewrite list_lookup_alter_eq, !list_lookup_imap.
    destruct (a !! k); [|done].
    cbn [fmap option_fmap option_map].
    rewrite bool_decide_eq_false_2, bool_decide_eq_true_2 by lia. done.
  - rewrite list_lookup_alter_ne, !list_lookup_imap by done.
    destruct (a !! i); [|done].
    cbn [fmap option_fmap option_map].
    destruct (decide (i < k)%nat).
    + by rewrite !bool_decide_eq_true_2 by lia.
    + by rewrite !bool_decide_eq_false_2 by lia.
Qed.

Lemma length_regenerated names n (a : list TEXTURE_INFO.t) :
  length (regenerated names n a) = length a.
Proof. unfold regenerated. apply length_imap. Qed.

Lemma DestroyGLTextures_result this names :
  registry_ok this →
  ∃ log,
    DestroyGLTextures this names =
    Ok (mk_SceneManager (m_pShaderManager this)
          (regenerated names (Z.to_nat (m_loadedTextures this))
             (m_textureIDs this))
          (m_loadedTextures this) (m_objectMaterials this) log).
Proof.
  destruct this as [p a n ms cs]. unfold registry_ok. simpl. intros Hok.
  assert (Hw : ∀ (d k fuel : nat) (log : list Call),
    (k + d = Z.to_nat n)%nat → (d ≤ fuel)%nat →
    ∃ log',
    while fuel
      (λ '(i, this), bool_decide (i < m_loadedTextures this))
      (λ '(i, this),
         a ← array_update (m_textureIDs this) i
               (λ e, TEXTURE_INFO.mk (names i) (TEXTURE_INFO.tag e));
         let this := call (glGenTextures (names i)) this in
         Ok (i + 1, set_textures this a (m_loadedTextures this)))
      (Z.of_nat k, mk_SceneManager p (regenerated names k a) n ms log)
    = Ok (Z.of_nat (Z.to_nat n),
          mk_SceneManager p (regenerated names (Z.to_nat n) a) n ms log')).
  { induction d as [|d IH]; intros k fuel log Hk Hfuel.
    - replace k with (Z.to_nat n) by lia. exists log.
      destruct fuel; simpl; by rewrite bool_decide_eq_false_2 by lia.
    - destruct fuel as [|fuel]; [lia|].
      simpl. rewrite bool_decide_eq_true_2 by lia.
      unfold array_update. rewrite length_regenerated.
      rewrite bool_decide_eq_true_2 by lia.
      rewrite bind_Ok, Nat2Z.id, regenerated_S. cbn zeta. simpl.
      replace (Z.of_nat k + 1) with (Z.of_nat (S k)) by lia.
      apply IH; lia. }
  destruct (Hw (Z.to_nat n) 0%nat (Z.to_nat n) cs) as [log' Hlog]; [lia..|].
  rewrite regenerated_0 in Hlog. exists log'.
  unfold DestroyGLTextures. simpl in Hlog |- *.
  change (Z.of_nat 0) with 0 in Hlog. by rewrite Hlog.
Qed.

Lemma registered_regenerated names (a : list TEXTURE_INFO.t) (n : nat) :
  (n ≤ length a)%nat →
  take n (regenerated names n a) =
  imap (λ i e, TEXTURE_INFO.mk (names (Z.of_nat i)) (TEXTURE_INFO.tag e))
    (take n a).
Proof.
  intros Hn. apply list_eq. intros i.
  destruct (decide (i < n)%nat).
  - rewrite lookup_take_lt by done. unfold regenerated.
    rewrite !list_lookup_imap, lookup_take_lt by done.
    destruct (a !! i); [|done].
    cbn [fmap option_fmap option_map].
    by rewrite bool_decide_eq_true_2 by lia.
  - rewrite !lookup_ge_None_2; [done|..].
    + rewrite length_imap, length_take. lia.
    + rewrite length_take, length_regenerated. lia.
Qed.

Lemma list_find_has_tag_imap (f : nat → TEXTURE_INFO.t → TEXTURE_INFO.t)
    (l : list TEXTURE_INFO.t) (tag : string) :
  (∀ i e, TEXTURE_INFO.tag (f i e) = TEXTURE_INFO.tag e) →
  fst <$> list_find (has_tag tag) (imap f l)
  = fst <$> list_find (has_tag tag) l.
Proof.
  revert f. induction l as [|e l IH]; intros f Hf; [done|].
  rewrite imap_cons. cbn [list_find].
  specialize (IH (f ∘ S) (λ i e, Hf (S i) e)).
  pose proof (Hf 0%nat e) as Hf0.
  repeat case_decide; unfold has_tag in *; try congruence; [done|].
  destruct (list_find _ (imap (f ∘ S) l)) as [[i x]|],
    (list_find _ l) as [[j y]|]; by simplify_eq/=.
Qed.

(** [DestroyGLTextures] leaves the registry populated: the count and every
    tag are as before, and each registered handle has been replaced by the
    name the driver generated in that iteration.  Lookups by tag go on
    answering the same slot. *)
Theorem DestroyGLTextures_keeps_registry_populated this names :
  registry_ok this →
  ∃ this',
    DestroyGLTextures this names = Ok this' ∧
    m_loadedTextures this' = m_loadedTextures this ∧
    length (m_textureIDs this') = length (m_textureIDs this) ∧
    (∀ (i : nat) e,
       registered this !! i = Some e →
       registered this' !! i
       = Some (TEXTURE_INFO.mk (names (Z.of_nat i)) (TEXTURE_INFO.tag e))) ∧
    (∀ tag, FindTextureSlot this' tag = FindTextureSlot this tag).
Proof.
  intros Hok. destruct (DestroyGLTextures_result this names Hok) as [log Hd].
  eexists. split; [exact Hd|]. cbn [m_loadedTextures m_textureIDs].
  assert (Hreg :
    registered
      (mk_SceneManager (m_pShaderManager this)
         (regenerated names (Z.to_nat (m_loadedTextures this))
            (m_textureIDs this))
         (m_loadedTextures this) (m_objectMaterials this) log)
    = imap (λ i e, TEXTURE_INFO.mk (names (Z.of_nat i)) (TEXTURE_INFO.tag e))
        (registered this)).
  { unfold registered. cbn [m_loadedTextures m_textureIDs].
    apply registered_regenerated. unfold registry_ok in Hok. lia. }
  split; [done|]. split; [apply length_regenerated|]. split.
  - intros i e Hi. rewrite Hreg, list_lookup_imap, Hi. done.
  - intros tag. rewrite !FindTextureSlot_list_find; [|done|].
    + rewrite Hreg.
      pose proof (list_find_has_tag_imap
        (λ i e, TEXTURE_INFO.mk (names (Z.of_nat i)) (TEXTURE_INFO.tag e))
        (registered this) tag (λ _ _, eq_refl)) as Hfind.
      destruct (list_find _ (imap _ _)) as [[i x]|],
        (list_find _ (registered this)) as [[j y]|]; by simplify_eq/=.
    + unfold registry_ok. cbn [m_loadedTextures m_textureIDs].
      rewrite length_regenerated. exact Hok.
Qed.

End BindAndDestroy.

Section Runs.
Context `{G : Glm}.
Implicit Types this : SceneManager.

Lemma CreateGLTexture_Ok_frame this filename tag decoded name (b : bool) this' :
  CreateGLTexture this filename tag decoded name = Ok (b, this') →
  length (m_textureIDs this') = length (m_textureIDs this) ∧
  m_pShaderManager this' = m_pShaderManager this ∧
  m_objectMaterials this' = m_objectMaterials this ∧
  (registry_inv this → registry_inv this').
Proof.
  unfold registry_inv. destruct decoded as [image|].
  - destruct (decide (colorChannels image = 3 ∨ colorChannels image = 4))
      as [Hc|Hc].
    + rewrite CreateGLTexture_3_or_4_channels by done. cbn zeta.
      repeat case_bool_decide; intros [= <- <-]; simpl;
        rewrite length_insert; (split_and!; [done..|lia]).
    + rewrite CreateGLTexture_other_channels by lia. by intros [= <- <-].
  - rewrite CreateGLTexture_not_decoded. by intros [= <- <-].
Qed.

(** Every texture method that returns keeps the count between 0 and the
    length of the array, and keeps that length. *)
Theorem texture_methods_keep_count_within_array this :
  registry_inv this →
  (∀ filename tag decoded name (b : bool) this',
     CreateGLTexture this filename tag decoded name = Ok (b, this') →
     registry_inv this' ∧
     length (m_textureIDs this') = length (m_textureIDs this)) ∧
  (∀ this', BindGLTextures this = Ok this' →
     registry_inv this' ∧
     length (m_textureIDs this') = length (m_textureIDs this)) ∧
  (∀ names this', DestroyGLTextures this names = Ok this' →
     registry_inv this' ∧
     length (m_textureIDs this') = length (m_textureIDs this)).
Proof.
  intros Hinv.
  assert (Hok : registry_ok this) by (unfold registry_inv in Hinv; apply Hinv).
  split_and!.
  - intros filename tag decoded name b this' Hload.
    destruct (CreateGLTexture_Ok_frame _ _ _ _ _ _ _ Hload)
      as (Hlen & _ & _ & Hkeep). auto.
  - intros this'. rewrite BindGLTextures_result by done. by intros [= <-].
  - intros names this'.
    destruct (DestroyGLTextures_result this names Hok) as [log ->].
    intros [= <-]. unfold registry_inv in *. simpl.
    by rewrite length_regenerated.
Qed.

Lemma CreateGLTextures_cons this filename tag files stb gl k :
  CreateGLTextures this ((filename, tag) :: files) stb gl k =
  CreateGLTexture this filename tag (stb filename) (gl k)
  ≫= λ '(bReturn, this), CreateGLTextures this files stb gl (S k).
Proof. reflexivity. Qed.

Lemma CreateGLTextures_result this files stb gl k :
  registry_inv this →
  Z.of_nat (length (m_textureIDs this)) ≤ INT_MAX →
  let room :=
    Z.of_nat (length (m_textureIDs this)) - m_loadedTextures this in
  if bool_decide (Z.of_nat (length (loads files stb gl k)) ≤ room) then
    ∃ this',
      CreateGLTextures this files stb gl k = Ok this' ∧
      registered this' = registered this ++ loads files stb gl k ∧
      m_loadedTextures this' =
        m_loadedTextures this + Z.of_nat (length (loads files stb gl k)) ∧
      length (m_textureIDs this') = length (m_textureIDs this) ∧
      m_pShaderManager this' = m_pShaderManager this ∧
      m_objectMaterials this' = m_objectMaterials this
  else CreateGLTextures this files stb gl k = Undefined OutOfBounds.
Proof.
  revert this k. induction files as [|[filename tag] files IH];
    intros this k Hinv Hmax; cbn zeta.
  - simpl. rewrite bool_decide_eq_true_2 by (unfold registry_inv in Hinv; lia).
    exists this. by rewrite app_nil_r, Z.add_0_r.
  - rewrite CreateGLTextures_cons. cbn [loads].
    assert (Hskip : ∀ this1,
      CreateGLTexture this filename tag (stb filename) (gl k)
        = Ok (false, this1) →
      if bool_decide (Z.of_nat (length (loads files stb gl (S k)))
                      ≤ Z.of_nat (length (m_textureIDs this))
                        - m_loadedTextures this) then
        ∃ this',
          CreateGLTextures this1 files stb gl (S k) = Ok this' ∧
          registered this' = registered this ++ loads files stb gl (S k) ∧
          m_loadedTextures this' =
            m_loadedTextures this
            + Z.of_nat (length (loads files stb gl (S k))) ∧
          length (m_textureIDs this') = length (m_textureIDs this) ∧
          m_pShaderManager this' = m_pShaderManager this ∧
          m_objectMaterials this' = m_objectMaterials this
      else CreateGLTextures this1 files stb gl (S k) = Undefined OutOfBounds).
    { intros this1 Hload.
      destruct (CreateGLTexture_Ok_frame _ _ _ _ _ _ _ Hload)
        as (Hlen & Hp & Hms & Hkeep).
      destruct (CreateGLTexture_false_unchanged _ _ _ _ _ _ Hload)
        as [Ha Hn].
      specialize (IH this1 (S k) (Hkeep Hinv)). cbn zeta in IH.
      rewrite Ha, Hn in IH. specialize (IH Hmax).
      case_bool_decide; [|done].
      destruct IH as (this' & -> & Hreg & Hcount & Hlen' & Hp' & Hms').
      exists this'. split; [done|].
      assert (Hreg1 : registered this1 = registered this)
        by (unfold registered; by rewrite Ha, Hn).
      rewrite Hreg1 in Hreg. rewrite Hp in Hp'. rewrite Hms in Hms'.
      by split_and!. }
    destruct (stb filename) as [image|] eqn:Hstb.
    + destruct (decide (colorChannels image = 3 ∨ colorChannels image = 4))
        as [Hc|Hc];
        [rewrite !(bool_decide_eq_true_2 (_ ∨ _)) by done
        |rewrite !(bool_decide_eq_false_2 (_ ∨ _)) by done].
      * (* decodable: registered, unless the array is full *)
        rewrite CreateGLTexture_3_or_4_channels by done. cbn zeta.
        unfold registry_inv in Hinv.
        destruct (decide (m_loadedTextures this
                          < Z.of_nat (length (m_textureIDs this)))) as [Hlt|Hge].
        -- rewrite (bool_decide_eq_true_2 (_ ∧ _)) by lia.
           rewrite (bool_decide_eq_false_2 (_ = INT_MAX)) by lia.
           rewrite bind_Ok.
           match goal with
           | |- context [CreateGLTextures ?s files stb gl (S k)] =>
               set (this1 := s)
           end.
           assert (Hlen1 : length (m_textureIDs this1)
                           = length (m_textureIDs this))
             by (unfold this1; simpl; apply length_insert).
           assert (Hn1 : m_loadedTextures this1 = m_loadedTextures this + 1)
             by done.
           assert (Hp1 : m_pShaderManager this1 = m_pShaderManager this)
             by done.
           assert (Hms1 : m_objectMaterials this1 = m_objectMaterials this)
             by done.
           assert (Hreg1 : registered this1
             = registered this ++ [TEXTURE_INFO.mk (gl k) tag]).
           { unfold registered, this1. simpl.
             replace (Z.to_nat (m_loadedTextures this + 1))
               with (S (Z.to_nat (m_loadedTextures this))) by lia.
             erewrite take_S_r by (apply list_lookup_insert_eq; lia).
             by rewrite take_insert_ge by lia. }
           clearbody this1.
           assert (Hinv1 : registry_inv this1)
             by (unfold registry_inv; lia).
           specialize (IH this1 (S k) Hinv1). cbn zeta in IH.
           rewrite Hlen1, Hn1, Hp1, Hms1, Hreg1 in IH. specialize (IH Hmax).
           cbn [length].
           destruct (decide
             (Z.of_nat (length (loads files stb gl (S k)))
              ≤ Z.of_nat (length (m_textureIDs this))
                - (m_loadedTextures this + 1))) as [Hroom|Hroom].
           ++ rewrite bool_decide_eq_true_2 in IH by done.
              rewrite bool_decide_eq_true_2 by lia.
              destruct IH as (this' & -> & Hreg & Hcount & Hlen' & Hp' & Hms').
              exists this'. split; [done|].
              rewrite Hreg, <- app_assoc. simpl.
              split_and!; try done. lia.
           ++ rewrite bool_decide_eq_false_2 in IH by done.
              by rewrite bool_decide_eq_false_2 by lia.
        -- rewrite (bool_decide_eq_false_2 (_ ∧ _)) by lia.
           cbn [length]. by rewrite bool_decide_eq_false_2 by lia.
      * (* wrong channel count: skipped *)
        assert (Hload := CreateGLTexture_other_channels this filename tag
                           image (gl k) ltac:(lia) ltac:(lia)).
        rewrite Hload, bind_Ok. by apply Hskip.
    + (* not decoded: skipped *)
      assert (Hload := CreateGLTexture_not_decoded this filename tag (gl k)).
      rewrite Hload, bind_Ok. by apply Hskip.
Qed.

(** A run of [CreateGLTexture] calls registers, in order, one entry for
    each file that decodes to 3 or 4 channels, and skips the others, as
    long as the array has room for them; when the decodable files outnumber
    the free slots, the run stores past the end of the array. *)
Theorem CreateGLTextures_registers_the_decodable this files stb gl k :
  registry_inv this →
  Z.of_nat (length (m_textureIDs this)) ≤ INT_MAX →
  let room :=
    Z.of_nat (length (m_textureIDs this)) - m_loadedTextures this in
  (Z.of_nat (length (loads files stb gl k)) ≤ room →
   ∃ this',
     CreateGLTextures this files stb gl k = Ok this' ∧
     registered this' = registered this ++ loads files stb gl k ∧
     m_loadedTextures this' =
       m_loadedTextures this + Z.of_nat (length (loads files stb gl k))) ∧
  (room < Z.of_nat (length (loads files stb gl k)) →
   CreateGLTextures this files stb gl k = Undefined OutOfBounds).
Proof.
  intros Hinv Hmax room.
  pose proof (CreateGLTextures_result this files stb gl k Hinv Hmax) as H.
  cbn zeta in H. fold room in H. split; intros Hroom.
  - rewrite bool_decide_eq_true_2 in H by done.
    destruct H as (this' & ? & ? & ? & _). eauto.
  - by rewrite bool_decide_eq_false_2 in H by lia.
Qed.

End Runs.

(** ** The material registry *)

Section Materials.
Context `{G : Glm}.
Implicit Types this : SceneManager.

(** On an empty list [FindMaterial] returns [false] and leaves the
    caller's object alone.  Otherwise, when some entry carries the tag, the
    caller's object receives the five values of the first such entry, in
    definition order, and keeps its own tag. *)
Theorem FindMaterial_copies_first_match this tag material :
  (m_objectMaterials this = [] →
   FindMaterial this tag material = Ok (false, material)) ∧
  (∀ (i : nat) e,
     m_objectMaterials this !! i = Some e →
     OBJECT_MATERIAL.tag e = tag →
     (∀ (j : nat) e', m_objectMaterials this !! j = Some e' → (j < i)%nat →
                      OBJECT_MATERIAL.tag e' ≠ tag) →
     ∃ material',
       FindMaterial this tag material = Ok (true, material') ∧
       OBJECT_MATERIAL.ambientColor material'
         = OBJECT_MATERIAL.ambientColor e ∧
       OBJECT_MATERIAL.ambientStrength material'
         = OBJECT_MATERIAL.ambientStrength e ∧
       OBJECT_MATERIAL.diffuseColor material'
         = OBJECT_MATERIAL.diffuseColor e ∧
       OBJECT_MATERIAL.specularColor material'
         = OBJECT_MATERIAL.specularColor e ∧
       OBJECT_MATERIAL.shininess material' = OBJECT_MATERIAL.shininess e ∧
       OBJECT_MATERIAL.tag material' = OBJECT_MATERIAL.tag material).
Proof.
  rewrite FindMaterial_list_find. split.
  - by intros ->.
  - intros i e Hi Htag Hbefore.
    assert (Hf : list_find (material_has_tag tag) (m_objectMaterials this)
                 = Some (i, e)).
    { apply list_find_Some. split_and!; [done..|].
      intros j e' Hj Hlt. by apply (Hbefore j). }
    rewrite Hf. destruct (m_objectMaterials this); [done|].
    eexists. split; [reflexivity|]. by split_and!.
Qed.

Lemma DefineObjectMaterials_appends this :
  m_objectMaterials (DefineObjectMaterials this)
  = m_objectMaterials this ++ defined_materials.
Proof.
  destruct this as [p a n ms cs]. unfold defined_materials.
  unfold DefineObjectMaterials, set_materials, new_scene. simpl.
  by rewrite <- !app_assoc.
Qed.

Lemma DefineObjectMaterials_frame this :
  m_pShaderManager (DefineObjectMaterials this) = m_pShaderManager this ∧
  m_textureIDs (DefineObjectMaterials this) = m_textureIDs this ∧
  m_loadedTextures (DefineObjectMaterials this) = m_loadedTextures this ∧
  calls (DefineObjectMaterials this) = calls this.
Proof. by destruct this. Qed.

Lemma defined_materials_nonempty : defined_materials ≠ [].
Proof. discriminate. Qed.

Lemma match_nonempty {A B : Type} (l : list A) (x y : B) :
  l ≠ [] → match l with [] => x | _ :: _ => y end = y.
Proof. by destruct l. Qed.

(** [DefineObjectMaterials] appends its eleven materials behind whatever
    is defined already, so a tag defined before keeps resolving to the
    earlier material, and calling the method a second time changes the
    answer for no tag. *)
Theorem DefineObjectMaterials_never_redefines this tag material :
  (∀ e, e ∈ m_objectMaterials this → OBJECT_MATERIAL.tag e = tag →
        FindMaterial (DefineObjectMaterials this) tag material
        = FindMaterial this tag material) ∧
  FindMaterial (DefineObjectMaterials (DefineObjectMaterials this)) tag
    material
  = FindMaterial (DefineObjectMaterials this) tag material.
Proof.
  assert (Hkeep : ∀ (ms extra : list OBJECT_MATERIAL.t) (i : nat) e,
    list_find (material_has_tag tag) ms = Some (i, e) →
    list_find (material_has_tag tag) (ms ++ extra) = Some (i, e)).
  { intros ms extra i e Hf. by apply list_find_app_l. }
  split.
  - intros e He Htag. rewrite !FindMaterial_list_find.
    rewrite DefineObjectMaterials_appends.
    destruct (list_find (material_has_tag tag) (m_objectMaterials this))
      as [[i e']|] eqn:Hf.
    + rewrite (Hkeep _ defined_materials _ _ Hf).
      by destruct (m_objectMaterials this).
    + apply list_find_None in Hf. rewrite Forall_forall in Hf.
      by destruct (Hf e He).
  - rewrite !FindMaterial_list_find, !DefineObjectMaterials_appends.
    set (ms := m_objectMaterials this ++ defined_materials).
    assert (Hne : ms ≠ []).
    { unfold ms. intros [_ Hd]%app_eq_nil.
      by apply defined_materials_nonempty. }
    assert (Hne' : ms ++ defined_materials ≠ []).
    { intros [? _]%app_eq_nil. done. }
    rewrite !match_nonempty by done.
    destruct (list_find (material_has_tag tag) ms) as [[i e]|] eqn:Hf.
    + by rewrite (Hkeep _ defined_materials _ _ Hf).
    + assert (Hnone : list_find (material_has_tag tag) (ms ++ defined_materials)
                      = None); [|by rewrite Hnone].
      apply list_find_app_None. split; [done|].
      unfold ms in Hf. by apply list_find_app_None in Hf as [_ ?].
Qed.


End Materials.

(** ** The shader writers *)

Section Writers.
Context `{G : Glm}.
Implicit Types this : SceneManager.

Lemma setValue_cases name v this :
  match m_pShaderManager this with
  | Some sh => setValue name v this = Ok (set_shader this (<[name := v]> sh))
  | None => setValue name v this = Undefined NullDereference
  end.
Proof. unfold setValue. by destruct (m_pShaderManager this). Qed.

Lemma SetShaderTexture_result this textureTag sh :
  m_pShaderManager this = Some sh →
  SetShaderTexture this textureTag =
  FindTextureSlot this textureTag ≫= λ textureID,
    Ok (set_shader this
          (<[g_TextureValueName := USampler2D textureID]>
             (<[g_UseTextureName := UInt 1]> sh))).
Proof.
  destruct this as [p a n ms cs]. simpl. intros ->.
  unfold SetShaderTexture, setIntValue, setSampler2DValue, setValue.
  cbn [m_pShaderManager is_NULL negb set_shader]. rewrite bind_Ok.
  replace (FindTextureSlot _ textureTag)
    with (FindTextureSlot (mk_SceneManager (Some sh) a n ms cs) textureTag)
    by reflexivity.
  by destruct (FindTextureSlot _ _).
Qed.

Lemma SetShaderMaterial_result this materialTag material :
  SetShaderMaterial this materialTag material =
  match m_objectMaterials this, m_pShaderManager this with
  | [], _ => Ok this
  | _ :: _, None => Undefined NullDereference
  | _ :: _, Some sh =>
    Ok (set_shader this
          (material_uniforms
             match list_find (material_has_tag materialTag)
                     (m_objectMaterials this) with
             | Some (_, e) => e
             | None => material
             end sh))
  end.
Proof.
  destruct (m_objectMaterials this) as [|m ms] eqn:Hms.
  - unfold SetShaderMaterial. by rewrite Hms.
  - destruct (m_pShaderManager this) as [sh|] eqn:Hsh.
    + rewrite (SetShaderMaterial_writes this materialTag material sh Hsh)
        by (by rewrite Hms).
      by rewrite Hms.
    + destruct this as [p a n ms' cs]. simpl in Hms, Hsh. subst.
      unfold SetShaderMaterial. rewrite FindMaterial_list_find.
      cbn [m_objectMaterials].
      rewrite bool_decide_eq_true_2 by (simpl; lia). by rewrite bind_Ok.
Qed.

(** None of the five writers touches the texture array, the count, the
    materials or the log of external calls. *)
Theorem shader_writers_leave_registries_alone this this' :
  (∀ scaleXYZ xdeg ydeg zdeg positionXYZ,
     SetTransformations this scaleXYZ xdeg ydeg zdeg positionXYZ = Ok this' →
     same_registries this this') ∧
  (∀ r g b a, SetShaderColor this r g b a = Ok this' →
     same_registries this this') ∧
  (∀ textureTag, SetShaderTexture this textureTag = Ok this' →
     same_registries this this') ∧
  (∀ u v, SetTextureUVScale this u v = Ok this' →
     same_registries this this') ∧
  (∀ materialTag material,
     SetShaderMaterial this materialTag material = Ok this' →
     same_registries this this').
Proof.
  unfold same_registries. split_and!.
  - intros *. destruct this as [[sh0|] arr n ms cs]; by intros [= <-].
  - intros *. destruct this as [[sh0|] arr n ms cs]; by intros [= <-].
  - intros textureTag. destruct (m_pShaderManager this) as [sh|] eqn:Hsh.
    + rewrite (SetShaderTexture_result _ _ sh Hsh).
      destruct (FindTextureSlot this textureTag); [|discriminate].
      rewrite bind_Ok. destruct this. by intros [= <-].
    + destruct this as [p arr n ms cs]. simpl in Hsh. subst p.
      by intros [= <-].
  - intros *. destruct this as [[sh0|] arr n ms cs]; by intros [= <-].
  - intros materialTag material. rewrite SetShaderMaterial_result.
    destruct this as [[sh0|] arr n [|m ms] cs]; simpl; try discriminate;
      by intros [= <-].
Qed.

(** With a shader manager present each writer changes only its own
    uniforms: "model"; "bUseTexture" and "objectColor"; "bUseTexture" and
    "objectTexture"; "UVscale"; the five "material." fields.  Every other
    uniform keeps its value. *)
Theorem shader_writers_change_only_their_uniforms this this' sh sh' name :
  m_pShaderManager this = Some sh →
  m_pShaderManager this' = Some sh' →
  (∀ scaleXYZ xdeg ydeg zdeg positionXYZ,
     SetTransformations this scaleXYZ xdeg ydeg zdeg positionXYZ = Ok this' →
     name ≠ "model" → sh' !! name = sh !! name) ∧
  (∀ r g b a, SetShaderColor this r g b a = Ok this' →
     name ≠ "bUseTexture" → name ≠ "objectColor" →
     sh' !! name = sh !! name) ∧
  (∀ textureTag, SetShaderTexture this textureTag = Ok this' →
     name ≠ "bUseTexture" → name ≠ "objectTexture" →
     sh' !! name = sh !! name) ∧
  (∀ u v, SetTextureUVScale this u v = Ok this' →
     name ≠ "UVscale" → sh' !! name = sh !! name) ∧
  (∀ materialTag material,
     SetShaderMaterial this materialTag material = Ok this' →
     name ≠ "material.ambientColor" → name ≠ "material.ambientStrength" →
     name ≠ "material.diffuseColor" → name ≠ "material.specularColor" →
     name ≠ "material.shininess" →
     sh' !! name = sh !! name).
Proof.
  intros Hsh Hsh'. split_and!.
  - intros *. destruct this as [p arr n ms cs]. simpl in Hsh. subst p.
    intros [= <-] ?. simpl in Hsh'. injection Hsh' as <-.
    by rewrite lookup_insert_ne.
  - intros *. destruct this as [p arr n ms cs]. simpl in Hsh. subst p.
    intros [= <-] ??. simpl in Hsh'. injection Hsh' as <-.
    by rewrite !lookup_insert_ne.
  - intros textureTag. rewrite (SetShaderTexture_result _ _ sh Hsh).
    destruct (FindTextureSlot this textureTag); [|discriminate].
    rewrite bind_Ok. destruct this. intros [= <-] ??.
    simpl in Hsh'. injection Hsh' as <-.
    by rewrite !lookup_insert_ne.
  - intros *. destruct this as [p arr n ms cs]. simpl in Hsh. subst p.
    intros [= <-] ?. simpl in Hsh'. injection Hsh' as <-.
    by rewrite lookup_insert_ne.
  - intros materialTag material. rewrite SetShaderMaterial_result, Hsh.
    destruct (m_objectMaterials this) as [|m ms].
    + intros [= <-] ?????. congruence.
    + destruct this. intros [= <-] ?????.
      simpl in Hsh'. injection Hsh' as <-.
      unfold material_uniforms. cbn zeta. by rewrite !lookup_insert_ne.
Qed.

(** The colour step and the texture step fight over "bUseTexture", and
    the later one wins.  Colour then texture leaves the flag at 1, the
    colour in place and the sampler at what [FindTextureSlot] answers;
    texture then colour leaves the flag at 0, with the sampler still set. *)
Theorem colour_and_texture_steps_compose this sh r g b a textureTag :
  m_pShaderManager this = Some sh →
  registry_ok this →
  ∃ slot coloured_then_textured textured_then_coloured sh1 sh2,
    FindTextureSlot this textureTag = Ok slot ∧
    (SetShaderColor this r g b a ≫= λ this, SetShaderTexture this textureTag)
      = Ok coloured_then_textured ∧
    m_pShaderManager coloured_then_textured = Some sh1 ∧
    sh1 !! g_UseTextureName = Some (UInt 1) ∧
    sh1 !! g_ColorValueName = Some (UVec4 (mk_vec4 r g b a)) ∧
    sh1 !! g_TextureValueName = Some (USampler2D slot) ∧
    (SetShaderTexture this textureTag ≫= λ this, SetShaderColor this r g b a)
      = Ok textured_then_coloured ∧
    m_pShaderManager textured_then_coloured = Some sh2 ∧
    sh2 !! g_UseTextureName = Some (UInt 0) ∧
    sh2 !! g_ColorValueName = Some (UVec4 (mk_vec4 r g b a)) ∧
    sh2 !! g_TextureValueName = Some (USampler2D slot).
Proof.
  intros Hsh Hok.
  destruct (FindTextureSlot this textureTag) as [slot|f] eqn:Hslot;
    [|by rewrite FindTextureSlot_list_find in Hslot].
  destruct this as [p a' n ms cs]. simpl in Hsh. subst p.
  exists slot.
  assert (Hcolour : SetShaderColor (mk_SceneManager (Some sh) a' n ms cs)
                      r g b a
    = Ok (mk_SceneManager
            (Some (<[g_ColorValueName := UVec4 (mk_vec4 r g b a)]>
                     (<[g_UseTextureName := UInt 0]> sh))) a' n ms cs))
    by reflexivity.
  assert (Htexture : ∀ sh0,
    SetShaderTexture (mk_SceneManager (Some sh0) a' n ms cs) textureTag
    = Ok (mk_SceneManager
            (Some (<[g_TextureValueName := USampler2D slot]>
                     (<[g_UseTextureName := UInt 1]> sh0))) a' n ms cs)).
  { intros sh0.
    rewrite (SetShaderTexture_result
               (mk_SceneManager (Some sh0) a' n ms cs) textureTag sh0 eq_refl).
    replace (FindTextureSlot (mk_SceneManager (Some sh0) a' n ms cs) textureTag)
      with (FindTextureSlot (mk_SceneManager (Some sh) a' n ms cs) textureTag)
      by reflexivity.
    by rewrite Hslot. }
  rewrite Hcolour, bind_Ok, !Htexture, bind_Ok.
  eexists _, _, _, _.
  split; [done|]. split; [reflexivity|]. split; [reflexivity|].
  cbn [m_pShaderManager].
  split_and!; try reflexivity;
    repeat (rewrite lookup_insert_ne by done); by rewrite lookup_insert_eq.
Qed.

End Writers.

(** ** Lights and preparation *)

Section Prepare.
Context `{G : Glm}.
Implicit Types this : SceneManager.

Lemma SetupSceneLights_NULL this :
  m_pShaderManager this = None →
  SetupSceneLights this = Undefined NullDereference.
Proof.
  destruct this as [p a n ms cs]. simpl. intros ->. reflexivity.
Qed.

Lemma SetupSceneLights_Ok this sh :
  m_pShaderManager this = Some sh →
  ∃ sh', SetupSceneLights this = Ok (set_shader this sh').
Proof.
  destruct this as [p a n ms cs]. simpl. intros ->. eexists. reflexivity.
Qed.

(** With a shader manager present [SetupSceneLights] ends with both lights
    cool white (0.7, 0.75, 0.85) in all three colours and at specular
    intensity 0.8: the colours and the intensity 0.05 it writes first are
    overwritten before it returns.  The positions, the focal strength 18
    and the lighting flag are as written, and no other uniform changes. *)
Theorem SetupSceneLights_final_values this sh :
  m_pShaderManager this = Some sh →
  ∃ sh',
    SetupSceneLights this = Ok (set_shader this sh') ∧
    sh' !! "lightSources[0].position"
      = Some (UVec3 (mk_vec3 (float_lit (-14.0)) (float_lit 14.0)
                       (float_lit 0.0))) ∧
    sh' !! "lightSources[1].position"
      = Some (UVec3 (mk_vec3 (float_lit 14.0) (float_lit 5.0)
                       (float_lit 14.0))) ∧
    (∀ name,
       name ∈ [ "lightSources[0].ambientColor";
                "lightSources[0].diffuseColor";
                "lightSources[0].specularColor";
                "lightSources[1].ambientColor";
                "lightSources[1].diffuseColor";
                "lightSources[1].specularColor" ] →
       sh' !! name
       = Some (UVec3 (mk_vec3 (float_lit 0.7) (float_lit 0.75)
                        (float_lit 0.85)))) ∧
    sh' !! "lightSources[0].focalStrength" = Some (UFloat (float_lit 18.0)) ∧
    sh' !! "lightSources[1].focalStrength" = Some (UFloat (float_lit 18.0)) ∧
    sh' !! "lightSources[0].specularIntensity"
      = Some (UFloat (float_lit 0.8)) ∧
    sh' !! "lightSources[1].specularIntensity"
      = Some (UFloat (float_lit 0.8)) ∧
    sh' !! "bUseLighting" = Some (UInt 1) ∧
    (∀ name,
       name ∉ [ "lightSources[0].position"; "lightSources[1].position";
                "lightSources[0].ambientColor";
                "lightSources[0].diffuseColor";
                "lightSources[0].specularColor";
                "lightSources[1].ambientColor";
                "lightSources[1].diffuseColor";
                "lightSources[1].specularColor";
                "lightSources[0].focalStrength";
                "lightSources[1].focalStrength";
                "lightSources[0].specularIntensity";
                "lightSources[1].specularIntensity"; "bUseLighting" ] →
       sh' !! name = sh !! name).
Proof.
  destruct this as [p a n ms cs]. simpl. intros ->.
  unfold SetupSceneLights, setVec3Value_xyz, setVec3Value, setFloatValue,
    setBoolValue, setValue.
  cbn [mbind Outcome_bind m_pShaderManager set_shader].
  eexists. split; [reflexivity|].
  split_and!.
  - repeat (rewrite lookup_insert_ne by done); by rewrite lookup_insert_eq.
  - repeat (rewrite lookup_insert_ne by done); by rewrite lookup_insert_eq.
  - intros name Hname.
    repeat (apply elem_of_cons in Hname as [->|Hname];
            [repeat (rewrite lookup_insert_ne by done);
             by rewrite lookup_insert_eq|]).
    by apply elem_of_nil in Hname.
  - repeat (rewrite lookup_insert_ne by done); by rewrite lookup_insert_eq.
  - repeat (rewrite lookup_insert_ne by done); by rewrite lookup_insert_eq.
  - repeat (rewrite lookup_insert_ne by done); by rewrite lookup_insert_eq.
  - repeat (rewrite lookup_insert_ne by done); by rewrite lookup_insert_eq.
  - repeat (rewrite lookup_insert_ne by done); by rewrite lookup_insert_eq.
  - intros name Hname. rewrite !not_elem_of_cons in Hname.
    destruct_and!. repeat (rewrite lookup_insert_ne by done). done.
Qed.

Lemma LoadSceneTextures_result this stb gl :
  registry_inv this →
  Z.of_nat (length (m_textureIDs this)) ≤ INT_MAX →
  Z.of_nat (length (loads scene_textures stb gl 0))
  ≤ Z.of_nat (length (m_textureIDs this)) - m_loadedTextures this →
  ∃ this',
    LoadSceneTextures this stb gl = Ok this' ∧
    registered this' = registered this ++ loads scene_textures stb gl 0 ∧
    registry_inv this' ∧
    length (m_textureIDs this') = length (m_textureIDs this) ∧
    m_pShaderManager this' = m_pShaderManager this ∧
    m_objectMaterials this' = m_objectMaterials this ∧
    ∀ (i : nat) e,
      registered this' !! i = Some e →
      snd (texture_units (calls this')) !! Z.of_nat i
      = Some (TEXTURE_INFO.ID e).
Proof.
  intros Hinv Hmax Hroom.
  pose proof (CreateGLTextures_result this scene_textures stb gl 0 Hinv Hmax)
    as H. cbn zeta in H. rewrite bool_decide_eq_true_2 in H by done.
  destruct H as (this1 & Hrun & Hreg & Hcount & Hlen & Hp & Hms).
  unfold LoadSceneTextures. rewrite Hrun, bind_Ok.
  assert (Hinv1 : registry_inv this1).
  { unfold registry_inv in *. rewrite Hcount, Hlen. lia. }
  assert (Hok1 : registry_ok this1) by apply Hinv1.
  rewrite BindGLTextures_result by done.
  eexists. split; [reflexivity|].
  unfold registered, registry_inv. cbn [m_textureIDs m_loadedTextures
    m_pShaderManager m_objectMaterials calls].
  fold (registered this1). split_and!; try done.
  - apply Hinv1.
  - intros i e Hi. by apply texture_units_bind_calls.
Qed.

(** With a shader manager present and room in the array for the files that
    decode, [PrepareScene] returns with: one texture registered per
    decodable file, in the order of the source; every registered slot's
    texture unit holding that slot's handle; the eleven materials appended;
    and the seven shapes loaded. *)
Theorem PrepareScene_prepares scene stb gl :
  m_pShaderManager (object scene) ≠ None →
  registry_inv (object scene) →
  Z.of_nat (length (m_textureIDs (object scene))) ≤ INT_MAX →
  Z.of_nat (length (loads scene_textures stb gl 0))
  ≤ Z.of_nat (length (m_textureIDs (object scene)))
    - m_loadedTextures (object scene) →
  ∃ scene',
    PrepareScene scene stb gl = Ok scene' ∧
    registered (object scene')
      = registered (object scene) ++ loads scene_textures stb gl 0 ∧
    (∀ (i : nat) e,
       registered (object scene') !! i = Some e →
       snd (texture_units (calls (object scene'))) !! Z.of_nat i
       = Some (TEXTURE_INFO.ID e)) ∧
    m_objectMaterials (object scene')
      = m_objectMaterials (object scene) ++ defined_materials ∧
    m_pShaderManager (object scene') ≠ None ∧
    loaded_shapes (m_basicMeshes scene')
      = prepared_shapes ++ loaded_shapes (m_basicMeshes scene) ∧
    draws (m_basicMeshes scene') = draws (m_basicMeshes scene).
Proof.
  intros Hsh Hinv Hmax Hroom.
  destruct (LoadSceneTextures_result _ stb gl Hinv Hmax Hroom)
    as (this1 & Hload & Hreg & Hinv1 & Hlen & Hp & Hms & Hunits).
  unfold PrepareScene. rewrite Hload, bind_Ok. cbn zeta.
  destruct (DefineObjectMaterials_frame this1) as (Hp2 & Ha2 & Hn2 & Hc2).
  destruct (m_pShaderManager (object scene)) as [sh|] eqn:Hsh0; [|done].
  destruct (SetupSceneLights_Ok (DefineObjectMaterials this1) sh)
    as [sh' Hlights]; [congruence|].
  rewrite Hlights, bind_Ok.
  eexists. split; [reflexivity|]. unfold mesh_call. cbn [object m_basicMeshes].
  pose proof (DefineObjectMaterials_appends this1) as Happ.
  destruct (DefineObjectMaterials this1) as [p2 a2 n2 ms2 cs2].
  simpl in Hp2, Ha2, Hn2, Hc2, Happ. subst.
  unfold registered in *. cbn [set_shader m_textureIDs m_loadedTextures
    m_pShaderManager m_objectMaterials calls].
  split_and!; try done. by rewrite Hms.
Qed.

(** [PrepareScene] has two ways to fail.  When the decodable files
    outnumber the free slots, the loading stores past the end of the array.
    When there is room but no shader manager, the textures get loaded and
    bound and the materials defined, and then [SetupSceneLights] calls
    through the NULL pointer. *)
Theorem PrepareScene_faults scene stb gl :
  registry_inv (object scene) →
  Z.of_nat (length (m_textureIDs (object scene))) ≤ INT_MAX →
  let room :=
    Z.of_nat (length (m_textureIDs (object scene)))
    - m_loadedTextures (object scene) in
  (room < Z.of_nat (length (loads scene_textures stb gl 0)) →
   PrepareScene scene stb gl = Undefined OutOfBounds) ∧
  (Z.of_nat (length (loads scene_textures stb gl 0)) ≤ room →
   m_pShaderManager (object scene) = None →
   PrepareScene scene stb gl = Undefined NullDereference).
Proof.
  intros Hinv Hmax room. split.
  - intros Hroom.
    pose proof (CreateGLTextures_result (object scene) scene_textures stb gl 0
                  Hinv Hmax) as H.
    cbn zeta in H. rewrite bool_decide_eq_false_2 in H by (unfold room in *; lia).
    unfold PrepareScene, LoadSceneTextures. by rewrite H.
  - intros Hroom Hnull.
    destruct (LoadSceneTextures_result _ stb gl Hinv Hmax Hroom)
      as (this1 & Hload & _ & _ & _ & Hp & _).
    unfold PrepareScene. rewrite Hload, bind_Ok. cbn zeta.
    rewrite SetupSceneLights_NULL; [done|].
    destruct (DefineObjectMaterials_frame this1) as (-> & _). congruence.
Qed.

End Prepare.

(** ** Rendering *)

Section Render.
Context `{G : Glm}.
Implicit Types this : SceneManager.

(** One statement, with a shader manager present. *)
Lemma exec_with_shader material s locals arr n ms cs meshes sh :
  n ≤ Z.of_nat (length arr) →
  ∃ locals' sh',
    exec material s
      (locals, mk_Scene (mk_SceneManager (Some sh) arr n ms cs) meshes)
    = Ok (locals',
          mk_Scene (mk_SceneManager (Some sh') arr n ms cs)
            match s with
            | Draw_call shape => DrawMesh shape (Some sh) :: meshes
            | _ => meshes
            end) ∧
    (∀ flag, flag_holds flag sh → flag_holds (flag_step s flag) sh').
Proof.
  intros Hok. destruct locals as [scale xrot yrot zrot position].
  destruct s; try (by eexists _, sh).
  - (* SetTransformations *)
    eexists _, _. split; [reflexivity|].
    intros [b|] Hflag; [|done]. simpl in *. by rewrite lookup_insert_ne.
  - (* SetShaderColor *)
    eexists _, _. split; [reflexivity|].
    intros flag _. simpl. by rewrite lookup_insert_ne, lookup_insert_eq.
  - (* SetShaderTexture *)
    unfold exec. cbn [object m_basicMeshes].
    rewrite (SetShaderTexture_result (mk_SceneManager (Some sh) arr n ms cs)
               tag sh eq_refl).
    rewrite FindTextureSlot_list_find by done. rewrite !bind_Ok.
    eexists _, _. split; [reflexivity|].
    intros flag _. simpl. by rewrite lookup_insert_ne, lookup_insert_eq.
  - (* SetShaderMaterial *)
    unfold exec. cbn [object m_basicMeshes].
    rewrite SetShaderMaterial_result. cbn [m_objectMaterials m_pShaderManager].
    destruct ms as [|m ms'].
    + rewrite bind_Ok. by eexists _, sh.
    + rewrite bind_Ok. eexists _, _. split; [reflexivity|].
      intros [b|] Hflag; [|done]. simpl in *.
      unfold material_uniforms. cbn zeta.
      by repeat (rewrite lookup_insert_ne by done).
  - (* SetTextureUVScale *)
    eexists _, _. split; [reflexivity|].
    intros [b|] Hflag; [|done]. simpl in *. by rewrite lookup_insert_ne.
Qed.

Lemma draws_app (new meshes : list MeshCall) :
  draws (new ++ meshes) = draws meshes ++ draws new.
Proof. unfold draws. by rewrite omap_app, reverse_app. Qed.

Lemma loaded_shapes_app (new meshes : list MeshCall) :
  loaded_shapes (new ++ meshes) = loaded_shapes new ++ loaded_shapes meshes.
Proof. unfold loaded_shapes. by rewrite omap_app. Qed.

Lemma draws_without_uniforms (shapes : list Shape) :
  draws (reverse ((λ shape, DrawMesh shape None) <$> shapes))
  = (λ shape, (shape, None)) <$> shapes.
Proof.
  induction shapes as [|shape shapes IH]; [done|].
  rewrite fmap_cons, reverse_cons, draws_app, IH. done.
Qed.

Lemma exec_all_with_shader uninitialised body :
  ∀ k locals arr n ms cs meshes sh flag,
    n ≤ Z.of_nat (length arr) →
    flag_holds flag sh →
    ∃ locals' sh' new,
      exec_all uninitialised k body
        (locals, mk_Scene (mk_SceneManager (Some sh) arr n ms cs) meshes)
      = Ok (locals',
            mk_Scene (mk_SceneManager (Some sh') arr n ms cs)
              (new ++ meshes)) ∧
      (draws new).*1 = drawn_shapes body ∧
      loaded_shapes new = [] ∧
      (draws_textured flag body = true → Forall textured (draws new)).
Proof.
  induction body as [|s body IH];
    intros k locals arr n ms cs meshes sh flag Hok Hflag.
  - exists locals, sh, []. split_and!; try done.
  - cbn [exec_all].
    destruct (exec_with_shader (uninitialised k) s locals arr n ms cs meshes
                sh Hok) as (locals1 & sh1 & -> & Hstep).
    rewrite bind_Ok.
    destruct (IH (S k) locals1 arr n ms cs
                match s with
                | Draw_call shape => DrawMesh shape (Some sh) :: meshes
                | _ => meshes
                end sh1 (flag_step s flag) Hok (Hstep flag Hflag))
      as (locals' & sh' & new & -> & Hshapes & Hloads & Htex).
    destruct s;
      try (exists locals', sh', new; split_and!; [done..|];
           cbn [draws_textured]; rewrite andb_true_l; exact Htex).
    exists locals', sh', (new ++ [DrawMesh shape (Some sh)]).
    rewrite <- app_assoc. split; [done|].
    rewrite draws_app, loaded_shapes_app, Hloads. split_and!.
    + rewrite fmap_app, Hshapes. done.
    + done.
    + cbn [draws_textured]. intros [Hnow Hrest]%andb_true_iff.
      apply bool_decide_eq_true in Hnow. subst flag.
      apply Forall_app. split; [|by apply Htex].
      apply Forall_singleton. by exists sh.
Qed.

(** One statement, without a shader manager: the four guarded methods do
    nothing, [SetShaderMaterial] calls through the NULL pointer unless the
    material list is empty, and a draw goes out with no uniforms. *)
Lemma exec_without_shader material s locals arr n ms cs meshes :
  let scene := mk_Scene (mk_SceneManager None arr n ms cs) meshes in
  match s with
  | SetShaderMaterial_call _ =>
    exec material s (locals, scene)
    = match ms with
      | [] => Ok (locals, scene)
      | _ :: _ => Undefined NullDereference
      end
  | Draw_call shape =>
    exec material s (locals, scene)
    = Ok (locals, mk_Scene (object scene) (DrawMesh shape None :: meshes))
  | _ => ∃ locals', exec material s (locals, scene) = Ok (locals', scene)
  end.
Proof.
  destruct locals as [scale xrot yrot zrot position].
  destruct s; cbn zeta; try (by eexists).
  unfold exec. cbn [object m_basicMeshes].
  rewrite SetShaderMaterial_result. by destruct ms.
Qed.

Lemma exec_all_without_shader uninitialised body :
  ∀ k locals arr n ms cs meshes,
    if bool_decide (ms ≠ []) && existsb is_SetShaderMaterial_call body
    then
      exec_all uninitialised k body
        (locals, mk_Scene (mk_SceneManager None arr n ms cs) meshes)
      = Undefined NullDereference
    else
      ∃ locals',
        exec_all uninitialised k body
          (locals, mk_Scene (mk_SceneManager None arr n ms cs) meshes)
        = Ok (locals',
              mk_Scene (mk_SceneManager None arr n ms cs)
                (reverse ((λ shape, DrawMesh shape None)
                            <$> drawn_shapes body) ++ meshes)).
Proof.
  induction body as [|s body IH]; intros k locals arr n ms cs meshes.
  - rewrite andb_false_r. by exists locals.
  - cbn [exec_all existsb].
    pose proof (exec_without_shader (uninitialised k) s locals arr n ms cs
                  meshes) as Hs.
    cbn zeta in Hs.
    destruct s; simpl is_SetShaderMaterial_call;
      try (lazymatch type of Hs with
           | ex _ => destruct Hs as [locals' ->]
           end; rewrite bind_Ok, orb_false_l; apply IH).
    + (* SetShaderMaterial *)
      rewrite Hs. destruct ms as [|m ms'].
      * rewrite bind_Ok. rewrite bool_decide_eq_false_2 by auto.
        specialize (IH (S k) locals arr n [] cs meshes).
        by rewrite bool_decide_eq_false_2 in IH by auto.
      * by rewrite bool_decide_eq_true_2 by done.
    + (* Draw *)
      rewrite Hs, bind_Ok, orb_false_l. cbn [object].
      specialize (IH (S k) locals arr n ms cs (DrawMesh shape None :: meshes)).
      destruct (_ && _); [done|]. destruct IH as [locals' ->].
      exists locals'. unfold drawn_shapes. simpl.
      by rewrite reverse_cons, <- app_assoc.
Qed.

Lemma RenderScene_body_facts :
  length (drawn_shapes RenderScene_body) = 111%nat ∧
  draws_textured None RenderScene_body = true ∧
  existsb is_SetShaderMaterial_call RenderScene_body = true.
Proof. by vm_compute. Qed.

(** With a shader manager present and the count within the array,
    [RenderScene] returns.  It leaves the textures, the count, the
    materials, the log of external calls and the loaded shapes as they
    were, and adds 111 draws to the mesh log, of the shapes the body names
    and in that order. *)
Theorem RenderScene_returns_with_111_draws
    scene scale0 position0 uninitialised :
  m_pShaderManager (object scene) ≠ None →
  registry_ok (object scene) →
  ∃ scene',
    RenderScene scene scale0 position0 uninitialised = Ok scene' ∧
    same_registries (object scene) (object scene') ∧
    m_pShaderManager (object scene') ≠ None ∧
    loaded_shapes (m_basicMeshes scene') = loaded_shapes (m_basicMeshes scene) ∧
    (draws (m_basicMeshes scene')).*1
      = (draws (m_basicMeshes scene)).*1 ++ drawn_shapes RenderScene_body ∧
    length (drawn_shapes RenderScene_body) = 111%nat.
Proof.
  destruct scene as [[[sh|] arr n ms cs] meshes]; [|done].
  intros _ Hok. unfold registry_ok in Hok. simpl in Hok.
  unfold RenderScene.
  destruct (exec_all_with_shader uninitialised RenderScene_body 0%nat
              (mk_Locals scale0 (float_lit 0.0) (float_lit 0.0)
                 (float_lit 0.0) position0)
              arr n ms cs meshes sh None Hok I)
    as (locals' & sh' & new & -> & Hshapes & Hloads & _).
  rewrite bind_Ok. eexists. split; [reflexivity|].
  cbn [object m_basicMeshes]. unfold same_registries.
  rewrite draws_app, loaded_shapes_app, fmap_app, Hshapes, Hloads.
  split_and!; try done; apply RenderScene_body_facts.
Qed.


(** Without a shader manager [RenderScene] depends on the material list.
    If it is not empty, the first [SetShaderMaterial] calls through the
    NULL pointer.  If it is empty, every method call is a no-op, the object
    is unchanged, and the 111 meshes are drawn with no uniforms set. *)
Theorem RenderScene_without_shader_manager
    scene scale0 position0 uninitialised :
  m_pShaderManager (object scene) = None →
  (m_objectMaterials (object scene) ≠ [] →
   RenderScene scene scale0 position0 uninitialised
   = Undefined NullDereference) ∧
  (m_objectMaterials (object scene) = [] →
   ∃ scene',
     RenderScene scene scale0 position0 uninitialised = Ok scene' ∧
     object scene' = object scene ∧
     draws (m_basicMeshes scene')
     = draws (m_basicMeshes scene)
       ++ ((λ shape, (shape, None)) <$> drawn_shapes RenderScene_body)).
Proof.
  destruct scene as [[p arr n ms cs] meshes]. simpl. intros ->.
  pose proof (exec_all_without_shader uninitialised RenderScene_body 0%nat
                (mk_Locals scale0 (float_lit 0.0) (float_lit 0.0)
                   (float_lit 0.0) position0) arr n ms cs meshes) as H.
  destruct RenderScene_body_facts as (_ & _ & Hmat). rewrite Hmat in H.
  unfold RenderScene. split.
  - intros Hne. rewrite bool_decide_eq_true_2 in H by done. by rewrite H.
  - intros ->. rewrite bool_decide_eq_false_2 in H by auto.
    destruct H as [locals' ->]. rewrite bind_Ok.
    eexists. split; [reflexivity|]. split; [done|].
    cbn [m_basicMeshes]. by rewrite draws_app, draws_without_uniforms.
Qed.

End Render.

(** ** What rendering asks of preparation *)

Section Resources.
Context `{G : Glm}.
Implicit Types this : SceneManager.

Lemma loads_tags files stb gl k :
  (∀ filename tag, (filename, tag) ∈ files → decodable stb filename) →
  TEXTURE_INFO.tag <$> loads files stb gl k = files.*2.
Proof.
  revert k. induction files as [|[filename tag] files IH]; intros k Hall;
    [done|].
  destruct (Hall filename tag) as (image & Hstb & Hc); [by left|].
  cbn [loads]. rewrite Hstb, bool_decide_eq_true_2 by done.
  rewrite !fmap_cons. simpl. f_equal. apply IH.
  intros f t Hin. apply (Hall f t). by right.
Qed.

Lemma FindTextureSlot_sentinel_iff this tag :
  registry_ok this →
  FindTextureSlot this tag = Ok (-1) ↔
  tag ∉ TEXTURE_INFO.tag <$> registered this.
Proof.
  intros Hok. rewrite FindTextureSlot_list_find by done.
  destruct (list_find (has_tag tag) (registered this)) as [[i e]|] eqn:Hf.
  - apply list_find_Some in Hf as (Hi & He & _). split.
    + intros [= ?]. lia.
    + intros Hnot. destruct Hnot. apply list_elem_of_fmap.
      exists e. split; [done|]. by eapply list_elem_of_lookup_2.
  - split; [|done]. intros _ (e & -> & He)%list_elem_of_fmap.
    apply list_find_None in Hf. rewrite Forall_forall in Hf.
    by apply (Hf e He).
Qed.

Lemma list_find_material_None_iff (ms : list OBJECT_MATERIAL.t) tag :
  list_find (material_has_tag tag) ms = None ↔
  tag ∉ OBJECT_MATERIAL.tag <$> ms.
Proof.
  rewrite list_find_None, Forall_forall. split.
  - intros Hnone (e & -> & He)%list_elem_of_fmap. by apply (Hnone e He).
  - intros Hnot e He Htag. apply Hnot. apply list_elem_of_fmap.
    by exists e.
Qed.

Lemma RenderScene_body_against_sources :
  Forall (λ tag, tag ∉ scene_textures.*2 ↔
                 tag = "kettlebell_blue" ∨ tag = "whiteWall")
    (texture_tags RenderScene_body) ∧
  Forall (λ tag, tag ∉ OBJECT_MATERIAL.tag <$> defined_materials ↔
                 tag = "rubberDumbell")
    (material_tags RenderScene_body) ∧
  Forall (λ shape, shape ∈ prepared_shapes) (drawn_shapes RenderScene_body).
Proof.
  split_and!.
  - apply (Forall_impl
      (λ tag, bool_decide (tag ∉ scene_textures.*2)
              = bool_decide (tag = "kettlebell_blue" ∨ tag = "whiteWall"))).
    + refine (bool_decide_unpack _ _). by vm_compute.
    + intros tag Heq.
      by rewrite <- (bool_decide_eq_true (tag ∉ _)),
                 <- (bool_decide_eq_true (_ ∨ _)), Heq.
  - change (OBJECT_MATERIAL.tag <$> defined_materials)
      with [ "redKick"; "KickStand"; "darkMetallicDumbbell"; "blackTVScreen";
             "glassMirror"; "whiteWall"; "whiteHardwoodFloor";
             "rubberDumbbell"; "floorMat"; "whiteDoor"; "Window" ].
    apply (Forall_impl
      (λ tag, bool_decide
                (tag ∉ [ "redKick"; "KickStand"; "darkMetallicDumbbell";
                         "blackTVScreen"; "glassMirror"; "whiteWall";
                         "whiteHardwoodFloor"; "rubberDumbbell"; "floorMat";
                         "whiteDoor"; "Window" ])
              = bool_decide (tag = "rubberDumbell"))).
    + refine (bool_decide_unpack _ _). by vm_compute.
    + intros tag Heq.
      by rewrite <- (bool_decide_eq_true (tag ∉ _)),
                 <- (bool_decide_eq_true (tag = _)), Heq.
  - refine (bool_decide_unpack _ _). by vm_compute.
Qed.

(** On a scene that [PrepareScene] has prepared from an empty registry
    with every texture file decodable, [RenderScene]'s requests resolve as
    follows: its texture tags all find a slot except "kettlebell_blue" and
    "whiteWall", which get -1; its material tags all find a material except
    "rubberDumbell"; and every shape it draws has been loaded. *)
Theorem RenderScene_requests_against_PrepareScene scene stb gl scene' :
  PrepareScene scene stb gl = Ok scene' →
  registry_inv (object scene) →
  Z.of_nat (length (m_textureIDs (object scene))) ≤ INT_MAX →
  m_loadedTextures (object scene) = 0 →
  m_objectMaterials (object scene) = [] →
  (∀ filename tag, (filename, tag) ∈ scene_textures →
                   decodable stb filename) →
  (∀ tag, tag ∈ texture_tags RenderScene_body →
     (FindTextureSlot (object scene') tag = Ok (-1) ↔
      tag = "kettlebell_blue" ∨ tag = "whiteWall")) ∧
  (∀ tag, tag ∈ material_tags RenderScene_body →
     (list_find (material_has_tag tag) (m_objectMaterials (object scene'))
      = None ↔ tag = "rubberDumbell")) ∧
  (∀ shape, shape ∈ drawn_shapes RenderScene_body →
     shape ∈ loaded_shapes (m_basicMeshes scene')).
Proof.
  intros Hprep Hinv Hmax Hzero Hempty Hdec.
  (* the run of loads found room, or PrepareScene would not have returned *)
  pose proof (CreateGLTextures_result (object scene) scene_textures stb gl 0
                Hinv Hmax) as Hrun. cbn zeta in Hrun.
  case_bool_decide as Hroom; last first.
  { unfold PrepareScene, LoadSceneTextures in Hprep.
    by rewrite Hrun in Hprep. }
  clear Hrun.
  destruct (LoadSceneTextures_result _ stb gl Hinv Hmax Hroom)
    as (this1 & Hload & Hreg & Hinv1 & Hlen & Hp & Hms & _).
  unfold PrepareScene in Hprep. rewrite Hload, bind_Ok in Hprep.
  cbn zeta in Hprep.
  destruct (DefineObjectMaterials_frame this1) as (Hp2 & Ha2 & Hn2 & Hc2).
  pose proof (DefineObjectMaterials_appends this1) as Happ.
  destruct (SetupSceneLights (DefineObjectMaterials this1))
    as [this3|f] eqn:Hlights; [|done].
  rewrite bind_Ok in Hprep. injection Hprep as <-.
  unfold mesh_call. cbn [object m_basicMeshes].
  assert (Hframe : m_textureIDs this3 = m_textureIDs this1 ∧
                   m_loadedTextures this3 = m_loadedTextures this1 ∧
                   m_objectMaterials this3 = defined_materials).
  { destruct (m_pShaderManager (DefineObjectMaterials this1)) as [sh|] eqn:Hsh;
      [|by rewrite SetupSceneLights_NULL in Hlights].
    destruct (SetupSceneLights_Ok _ sh Hsh) as [sh' Hl].
    rewrite Hl in Hlights. injection Hlights as <-.
    rewrite Hms, Hempty, app_nil_l in Happ.
    destruct (DefineObjectMaterials this1) as [p2 a2 n2 ms2 cs2].
    cbn [set_shader m_textureIDs m_loadedTextures m_objectMaterials] in *.
    by subst. }
  destruct Hframe as (Ha3 & Hn3 & Hms3).
  assert (Hreg3 : TEXTURE_INFO.tag <$> registered this3 = scene_textures.*2).
  { unfold registered. rewrite Ha3, Hn3. fold (registered this1).
    rewrite Hreg. unfold registered at 1. rewrite Hzero.
    change (take (Z.to_nat 0) _) with (@nil TEXTURE_INFO.t).
    rewrite app_nil_l. by apply loads_tags. }
  assert (Hok3 : registry_ok this3).
  { unfold registry_ok. rewrite Ha3, Hn3. apply Hinv1. }
  destruct RenderScene_body_against_sources as (Htex & Hmat & Hshape).
  rewrite Forall_forall in Htex. rewrite Forall_forall in Hmat.
  rewrite Forall_forall in Hshape.
  split_and!.
  - intros tag Hin. rewrite FindTextureSlot_sentinel_iff, Hreg3 by done.
    by apply Htex.
  - intros tag Hin. rewrite list_find_material_None_iff, Hms3.
    by apply Hmat.
  - intros shape Hin.
    change (loaded_shapes _)
      with (prepared_shapes ++ loaded_shapes (m_basicMeshes scene)).
    apply elem_of_app. left. by apply Hshape.
Qed.

End Resources.

(** ** The properties at concrete scenes *)


(** A greyscale image: the texture generated for it stays alive and bound. *)
Lemma CreateGLTexture_false_paths_leftovers_witness :
  colorChannels grey_image ≠ 3 ∧ colorChannels grey_image ≠ 4 ∧
  ∃ this',
    CreateGLTexture (new_scene 16) "grey.png" "grey" (Some grey_image) 1
      = Ok (false, this') ∧
    1 ∈ live_textures (calls this') ∧
    bound_texture (calls this') = Some 1 ∧
    registered this' = registered (new_scene 16).
Proof.
  split; [done|]. split; [done|].
  by apply (CreateGLTexture_false_paths_leftovers
              (new_scene 16) "grey.png" "grey" 1).
Defined.

Lemma CreateGLTexture_true_effects_witness :
  CreateGLTexture (new_scene 16) "floor.jpg" "floor"
    (Some (mk_Image 64 64 3)) 1 = Ok (true, floor_loaded) ∧
  live_textures (calls floor_loaded)
    = {[ 1 ]} ∪ live_textures (calls (new_scene 16)) ∧
  bound_texture (calls floor_loaded) = Some 0 ∧
  unfreed_images (calls floor_loaded)
    = unfreed_images (calls (new_scene 16)) ∧
  m_textureIDs floor_loaded =
    <[Z.to_nat (m_loadedTextures (new_scene 16)) :=
        TEXTURE_INFO.mk 1 "floor"]> (m_textureIDs (new_scene 16)) ∧
  m_loadedTextures floor_loaded = m_loadedTextures (new_scene 16) + 1.
Proof.
  split; [reflexivity|].
  apply (CreateGLTexture_true_effects
           (new_scene 16) "floor.jpg" "floor" (Some (mk_Image 64 64 3)) 1).
  reflexivity.
Defined.

(** A second texture loaded under "floor" is never found. *)
Lemma CreateGLTexture_keeps_earlier_lookups_witness :
  CreateGLTexture floor_loaded "floor2.jpg" "floor"
    (Some (mk_Image 64 64 4)) 2 = Ok (true, floor_loaded_twice) ∧
  registry_ok floor_loaded ∧
  TEXTURE_INFO.mk 1 "floor" ∈ registered floor_loaded ∧
  FindTextureSlot floor_loaded_twice "floor"
    = FindTextureSlot floor_loaded "floor" ∧
  FindTextureID floor_loaded_twice "floor"
    = FindTextureID floor_loaded "floor".
Proof.
  assert (registry_ok floor_loaded) as Hok by (by vm_compute).
  assert (TEXTURE_INFO.mk 1 "floor" ∈ registered floor_loaded) as Hin
    by apply list_elem_of_here.
  split; [reflexivity|]. split; [exact Hok|]. split; [exact Hin|].
  apply (CreateGLTexture_keeps_earlier_lookups
           floor_loaded "floor2.jpg" "floor" (Some (mk_Image 64 64 4)) 2
           true floor_loaded_twice "floor" (TEXTURE_INFO.mk 1 "floor"));
    [reflexivity | exact Hok | exact Hin | reflexivity].
Defined.

Lemma FindTextureSlot_sound_and_complete_witness :
  registry_ok loaded_scene ∧
  ∃ slot,
    FindTextureSlot loaded_scene "wall" = Ok slot ∧
    (slot = -1 ∨ 0 ≤ slot < m_loadedTextures loaded_scene) ∧
    (slot ≠ -1 ↔
     ∃ e, e ∈ registered loaded_scene ∧ TEXTURE_INFO.tag e = "wall") ∧
    (slot ≠ -1 →
     ∃ e, registered loaded_scene !! Z.to_nat slot = Some e ∧
          TEXTURE_INFO.tag e = "wall" ∧
          (∀ (j : nat) e', registered loaded_scene !! j = Some e' →
                           (j < Z.to_nat slot)%nat →
                           TEXTURE_INFO.tag e' ≠ "wall") ∧
          FindTextureID loaded_scene "wall"
          = Ok (int_of_GLuint (TEXTURE_INFO.ID e))).
Proof.
  split; [exact registry_ok_loaded_scene|].
  apply (FindTextureSlot_sound_and_complete loaded_scene "wall").
  exact registry_ok_loaded_scene.
Defined.

(** The handle [UINT_MAX] comes back as -1. *)
Lemma FindTextureID_converts_handle_witness :
  registry_ok floor_loaded_at_UINT_MAX ∧
  list_find (has_tag "floor") (registered floor_loaded_at_UINT_MAX)
    = Some (0%nat, TEXTURE_INFO.mk UINT_MAX "floor") ∧
  0 ≤ UINT_MAX ≤ UINT_MAX ∧
  UINT_MAX = UINT_MAX ∧
  FindTextureID floor_loaded_at_UINT_MAX "floor" = Ok (-1).
Proof.
  assert (registry_ok floor_loaded_at_UINT_MAX) as Hok by (by vm_compute).
  split; [exact Hok|]. split; [reflexivity|]. split; [done|].
  split; [reflexivity|].
  apply (FindTextureID_converts_handle floor_loaded_at_UINT_MAX "floor" 0
           (TEXTURE_INFO.mk UINT_MAX "floor"));
    [exact Hok | reflexivity | done | reflexivity].
Defined.

Lemma BindGLTextures_binds_slot_i_to_unit_i_witness :
  registry_ok loaded_scene ∧
  ∃ this',
    BindGLTextures loaded_scene = Ok this' ∧
    calls this' = bind_calls (registered loaded_scene) ++ calls loaded_scene ∧
    m_textureIDs this' = m_textureIDs loaded_scene ∧
    m_loadedTextures this' = m_loadedTextures loaded_scene ∧
    m_objectMaterials this' = m_objectMaterials loaded_scene ∧
    m_pShaderManager this' = m_pShaderManager loaded_scene ∧
    ∀ (i : nat) e,
      registered loaded_scene !! i = Some e →
      snd (texture_units (calls this')) !! Z.of_nat i
      = Some (TEXTURE_INFO.ID e).
Proof.
  split; [exact registry_ok_loaded_scene|].
  apply (BindGLTextures_binds_slot_i_to_unit_i loaded_scene).
  exact registry_ok_loaded_scene.
Defined.

Lemma DestroyGLTextures_keeps_registry_populated_witness :
  registry_ok loaded_scene ∧
  ∃ this',
    DestroyGLTextures loaded_scene (λ i, 17 + i) = Ok this' ∧
    m_loadedTextures this' = m_loadedTextures loaded_scene ∧
    length (m_textureIDs this') = length (m_textureIDs loaded_scene) ∧
    (∀ (i : nat) e,
       registered loaded_scene !! i = Some e →
       registered this' !! i
       = Some (TEXTURE_INFO.mk (17 + Z.of_nat i) (TEXTURE_INFO.tag e))) ∧
    (∀ tag, FindTextureSlot this' tag = FindTextureSlot loaded_scene tag).
Proof.
  split; [exact registry_ok_loaded_scene|].
  apply (DestroyGLTextures_keeps_registry_populated loaded_scene
           (λ i, 17 + i)).
  exact registry_ok_loaded_scene.
Defined.

Lemma texture_methods_keep_count_within_array_witness :
  registry_inv (new_scene 16) ∧
  CreateGLTexture (new_scene 16) "floor.jpg" "floor"
    (Some (mk_Image 64 64 3)) 1 = Ok (true, floor_loaded) ∧
  registry_inv floor_loaded ∧
  length (m_textureIDs floor_loaded) = length (m_textureIDs (new_scene 16)).
Proof.
  assert (registry_inv (new_scene 16)) as Hinv by (by vm_compute).
  split; [exact Hinv|]. split; [reflexivity|].
  apply (proj1 (texture_methods_keep_count_within_array (new_scene 16) Hinv)
           "floor.jpg" "floor" (Some (mk_Image 64 64 3)) 1 true).
  reflexivity.
Defined.

(** The sixteen files of the scene, into sixteen slots and into two. *)
Lemma CreateGLTextures_registers_the_decodable_witness :
  registry_inv (new_scene 16) ∧
  Z.of_nat (length (m_textureIDs (new_scene 16))) ≤ INT_MAX ∧
  Z.of_nat (length (loads scene_textures decodes_RGB counting_driver 0))
    ≤ Z.of_nat (length (m_textureIDs (new_scene 16)))
      - m_loadedTextures (new_scene 16) ∧
  (∃ this',
     CreateGLTextures (new_scene 16) scene_textures decodes_RGB
       counting_driver 0 = Ok this' ∧
     registered this'
       = registered (new_scene 16)
         ++ loads scene_textures decodes_RGB counting_driver 0 ∧
     m_loadedTextures this' =
       m_loadedTextures (new_scene 16)
       + Z.of_nat (length (loads scene_textures decodes_RGB
                             counting_driver 0))) ∧
  registry_inv (new_scene 2) ∧
  Z.of_nat (length (m_textureIDs (new_scene 2))) ≤ INT_MAX ∧
  Z.of_nat (length (m_textureIDs (new_scene 2)))
    - m_loadedTextures (new_scene 2)
    < Z.of_nat (length (loads scene_textures decodes_RGB counting_driver 0)) ∧
  CreateGLTextures (new_scene 2) scene_textures decodes_RGB counting_driver 0
    = Undefined OutOfBounds.
Proof.
  assert (registry_inv (new_scene 16)) as Hinv by (by vm_compute).
  assert (registry_inv (new_scene 2)) as Hinv2 by (by vm_compute).
  assert (Z.of_nat (length (m_textureIDs (new_scene 16))) ≤ INT_MAX) as Hmax
    by (by vm_compute).
  assert (Z.of_nat (length (m_textureIDs (new_scene 2))) ≤ INT_MAX) as Hmax2
    by (by vm_compute).
  assert (Z.of_nat (length (loads scene_textures decodes_RGB
                              counting_driver 0))
          ≤ Z.of_nat (length (m_textureIDs (new_scene 16)))
            - m_loadedTextures (new_scene 16)) as Hroom by (by vm_compute).
  assert (Z.of_nat (length (m_textureIDs (new_scene 2)))
          - m_loadedTextures (new_scene 2)
          < Z.of_nat (length (loads scene_textures decodes_RGB
                                counting_driver 0))) as Hnoroom
    by (by vm_compute).
  split_and!; try assumption.
  - exact (proj1 (CreateGLTextures_registers_the_decodable (new_scene 16)
                    scene_textures decodes_RGB counting_driver 0 Hinv Hmax)
             Hroom).
  - exact (proj2 (CreateGLTextures_registers_the_decodable (new_scene 2)
                    scene_textures decodes_RGB counting_driver 0 Hinv2 Hmax2)
             Hnoroom).
Defined.

(** "whiteWall" is the sixth material defined. *)
Lemma FindMaterial_copies_first_match_witness :
  ∃ e,
    m_objectMaterials scene_with_materials !! 5%nat = Some e ∧
    OBJECT_MATERIAL.tag e = "whiteWall" ∧
    (∀ (j : nat) e', m_objectMaterials scene_with_materials !! j = Some e' →
                     (j < 5)%nat → OBJECT_MATERIAL.tag e' ≠ "whiteWall") ∧
    ∃ material',
      FindMaterial scene_with_materials "whiteWall" some_material
        = Ok (true, material') ∧
      OBJECT_MATERIAL.ambientColor material'
        = OBJECT_MATERIAL.ambientColor e ∧
      OBJECT_MATERIAL.ambientStrength material'
        = OBJECT_MATERIAL.ambientStrength e ∧
      OBJECT_MATERIAL.diffuseColor material'
        = OBJECT_MATERIAL.diffuseColor e ∧
      OBJECT_MATERIAL.specularColor material'
        = OBJECT_MATERIAL.specularColor e ∧
      OBJECT_MATERIAL.shininess material' = OBJECT_MATERIAL.shininess e ∧
      OBJECT_MATERIAL.tag material' = OBJECT_MATERIAL.tag some_material.
Proof.
  destruct (m_objectMaterials scene_with_materials !! 5%nat) as [e|] eqn:He;
    [|discriminate He].
  assert (OBJECT_MATERIAL.tag e = "whiteWall") as Htag
    by (injection He as <-; reflexivity).
  assert (∀ (j : nat) e',
            m_objectMaterials scene_with_materials !! j = Some e' →
            (j < 5)%nat → OBJECT_MATERIAL.tag e' ≠ "whiteWall") as Hfirst.
  { intros j e' Hj Hlt.
    do 5 (destruct j as [|j]; [by injection Hj as <-|]). lia. }
  exists e. split; [reflexivity|]. split; [exact Htag|].
  split; [exact Hfirst|].
  exact (proj2 (FindMaterial_copies_first_match scene_with_materials
                  "whiteWall" some_material) 5%nat e He Htag Hfirst).
Defined.

Lemma DefineObjectMaterials_never_redefines_witness :
  ∃ e,
    e ∈ m_objectMaterials scene_with_materials ∧
    OBJECT_MATERIAL.tag e = "whiteWall" ∧
    FindMaterial (DefineObjectMaterials scene_with_materials) "whiteWall"
      some_material
    = FindMaterial scene_with_materials "whiteWall" some_material.
Proof.
  destruct (m_objectMaterials scene_with_materials !! 5%nat) as [e|] eqn:He;
    [|discriminate He].
  assert (e ∈ m_objectMaterials scene_with_materials) as Hin
    by exact (list_elem_of_lookup_2 _ _ _ He).
  assert (OBJECT_MATERIAL.tag e = "whiteWall") as Htag
    by (injection He as <-; reflexivity).
  exists e. split; [exact Hin|]. split; [exact Htag|].
  exact (proj1 (DefineObjectMaterials_never_redefines scene_with_materials
                  "whiteWall" some_material) e Hin Htag).
Defined.


(** The texture step, after a first texture has been loaded. *)
Lemma shader_writers_leave_registries_alone_witness :
  ∃ this',
    SetShaderTexture floor_loaded "floor" = Ok this' ∧
    same_registries floor_loaded this'.
Proof.
  destruct (SetShaderTexture floor_loaded "floor") as [this'|f] eqn:Hrun;
    [|discriminate Hrun].
  exists this'. split; [reflexivity|].
  exact (proj1 (proj2 (proj2
           (shader_writers_leave_registries_alone floor_loaded this')))
           "floor" Hrun).
Defined.

(** The UV step leaves the colour alone. *)
Lemma shader_writers_change_only_their_uniforms_witness :
  ∃ this' sh sh',
    m_pShaderManager scene_with_materials = Some sh ∧
    m_pShaderManager this' = Some sh' ∧
    SetTextureUVScale scene_with_materials 2%Q 2%Q = Ok this' ∧
    "objectColor" ≠ "UVscale" ∧
    sh' !! "objectColor" = sh !! "objectColor".
Proof.
  destruct (SetTextureUVScale scene_with_materials 2%Q 2%Q)
    as [this'|f] eqn:Hrun; [|discriminate Hrun].
  destruct (m_pShaderManager this') as [sh'|] eqn:Hsh';
    [|injection Hrun as <-; discriminate Hsh'].
  exists this', ∅, sh'.
  split; [reflexivity|]. split; [exact Hsh'|]. split; [reflexivity|].
  split; [done|].
  refine (proj1 (proj2 (proj2 (proj2
           (shader_writers_change_only_their_uniforms scene_with_materials
              this' ∅ sh' "objectColor" eq_refl Hsh'))))
           2%Q 2%Q Hrun _).
  done.
Defined.

Lemma colour_and_texture_steps_compose_witness :
  m_pShaderManager loaded_scene = Some ∅ ∧
  registry_ok loaded_scene ∧
  ∃ slot coloured_then_textured textured_then_coloured sh1 sh2,
    FindTextureSlot loaded_scene "wall" = Ok slot ∧
    (SetShaderColor loaded_scene 1%Q 1%Q 1%Q 1%Q
       ≫= λ this, SetShaderTexture this "wall")
      = Ok coloured_then_textured ∧
    m_pShaderManager coloured_then_textured = Some sh1 ∧
    sh1 !! g_UseTextureName = Some (UInt 1) ∧
    sh1 !! g_ColorValueName = Some (UVec4 (mk_vec4 1%Q 1%Q 1%Q 1%Q)) ∧
    sh1 !! g_TextureValueName = Some (USampler2D slot) ∧
    (SetShaderTexture loaded_scene "wall"
       ≫= λ this, SetShaderColor this 1%Q 1%Q 1%Q 1%Q)
      = Ok textured_then_coloured ∧
    m_pShaderManager textured_then_coloured = Some sh2 ∧
    sh2 !! g_UseTextureName = Some (UInt 0) ∧
    sh2 !! g_ColorValueName = Some (UVec4 (mk_vec4 1%Q 1%Q 1%Q 1%Q)) ∧
    sh2 !! g_TextureValueName = Some (USampler2D slot).
Proof.
  split; [exact loaded_scene_shader|].
  split; [exact registry_ok_loaded_scene|].
  exact (colour_and_texture_steps_compose loaded_scene ∅ 1%Q 1%Q 1%Q 1%Q
           "wall" loaded_scene_shader registry_ok_loaded_scene).
Defined.

Lemma SetupSceneLights_final_values_witness :
  m_pShaderManager (new_scene 16) = Some ∅ ∧
  ∃ sh',
    SetupSceneLights (new_scene 16) = Ok (set_shader (new_scene 16) sh') ∧
    sh' !! "lightSources[0].ambientColor"
      = Some (UVec3 (mk_vec3 (float_lit 0.7%Q) (float_lit 0.75%Q)
                       (float_lit 0.85%Q))) ∧
    sh' !! "lightSources[1].specularIntensity"
      = Some (UFloat (float_lit 0.8%Q)) ∧
    sh' !! "objectColor" = (∅ : gmap string Uniform) !! "objectColor".
Proof.
  split; [reflexivity|].
  destruct (SetupSceneLights_final_values (new_scene 16) ∅ eq_refl)
    as (sh' & Hrun & _ & _ & Hcolours & _ & _ & _ & Hintensity & _ & Hrest).
  exists sh'. split; [exact Hrun|]. split.
  { apply Hcolours. apply list_elem_of_here. }
  split; [exact Hintensity|].
  apply Hrest. refine (bool_decide_unpack _ _). by vm_compute.
Defined.

Lemma PrepareScene_prepares_witness :
  m_pShaderManager (object unprepared_scene) ≠ None ∧
  registry_inv (object unprepared_scene) ∧
  Z.of_nat (length (m_textureIDs (object unprepared_scene))) ≤ INT_MAX ∧
  Z.of_nat (length (loads scene_textures decodes_RGB counting_driver 0))
  ≤ Z.of_nat (length (m_textureIDs (object unprepared_scene)))
    - m_loadedTextures (object unprepared_scene) ∧
  ∃ scene',
    PrepareScene unprepared_scene decodes_RGB counting_driver = Ok scene' ∧
    registered (object scene')
      = registered (object unprepared_scene)
        ++ loads scene_textures decodes_RGB counting_driver 0 ∧
    (∀ (i : nat) e,
       registered (object scene') !! i = Some e →
       snd (texture_units (calls (object scene'))) !! Z.of_nat i
       = Some (TEXTURE_INFO.ID e)) ∧
    m_objectMaterials (object scene')
      = m_objectMaterials (object unprepared_scene) ++ defined_materials ∧
    m_pShaderManager (object scene') ≠ None ∧
    loaded_shapes (m_basicMeshes scene')
      = prepared_shapes ++ loaded_shapes (m_basicMeshes unprepared_scene) ∧
    draws (m_basicMeshes scene') = draws (m_basicMeshes unprepared_scene).
Proof.
  assert (m_pShaderManager (object unprepared_scene) ≠ None) as Hsh by done.
  assert (registry_inv (object unprepared_scene)) as Hinv by (by vm_compute).
  assert (Z.of_nat (length (m_textureIDs (object unprepared_scene)))
          ≤ INT_MAX) as Hmax by (by vm_compute).
  assert (Z.of_nat (length (loads scene_textures decodes_RGB
                              counting_driver 0))
          ≤ Z.of_nat (length (m_textureIDs (object unprepared_scene)))
            - m_loadedTextures (object unprepared_scene)) as Hroom
    by (by vm_compute).
  split; [exact Hsh|]. split; [exact Hinv|]. split; [exact Hmax|].
  split; [exact Hroom|].
  exact (PrepareScene_prepares unprepared_scene decodes_RGB counting_driver
           Hsh Hinv Hmax Hroom).
Defined.

(** Two slots for sixteen files; sixteen slots and no shader manager. *)
Lemma PrepareScene_faults_witness :
  registry_inv (object cramped_scene) ∧
  Z.of_nat (length (m_textureIDs (object cramped_scene))) ≤ INT_MAX ∧
  Z.of_nat (length (m_textureIDs (object cramped_scene)))
    - m_loadedTextures (object cramped_scene)
    < Z.of_nat (length (loads scene_textures decodes_RGB counting_driver 0)) ∧
  PrepareScene cramped_scene decodes_RGB counting_driver
    = Undefined OutOfBounds ∧
  registry_inv (object unprepared_scene_without_shader) ∧
  Z.of_nat (length (m_textureIDs (object unprepared_scene_without_shader)))
    ≤ INT_MAX ∧
  Z.of_nat (length (loads scene_textures decodes_RGB counting_driver 0))
    ≤ Z.of_nat (length (m_textureIDs
                          (object unprepared_scene_without_shader)))
      - m_loadedTextures (object unprepared_scene_without_shader) ∧
  m_pShaderManager (object unprepared_scene_without_shader) = None ∧
  PrepareScene unprepared_scene_without_shader decodes_RGB counting_driver
    = Undefined NullDereference.
Proof.
  assert (registry_inv (object cramped_scene)) as Hinv by (by vm_compute).
  assert (Z.of_nat (length (m_textureIDs (object cramped_scene))) ≤ INT_MAX)
    as Hmax by (by vm_compute).
  assert (Z.of_nat (length (m_textureIDs (object cramped_scene)))
          - m_loadedTextures (object cramped_scene)
          < Z.of_nat (length (loads scene_textures decodes_RGB
                                counting_driver 0))) as Hnoroom
    by (by vm_compute).
  assert (registry_inv (object unprepared_scene_without_shader)) as Hinv'
    by (by vm_compute).
  assert (Z.of_nat (length (m_textureIDs
                              (object unprepared_scene_without_shader)))
          ≤ INT_MAX) as Hmax' by (by vm_compute).
  assert (Z.of_nat (length (loads scene_textures decodes_RGB
                              counting_driver 0))
          ≤ Z.of_nat (length (m_textureIDs
                                (object unprepared_scene_without_shader)))
            - m_loadedTextures (object unprepared_scene_without_shader))
    as Hroom by (by vm_compute).
  split_and!; try assumption.
  - exact (proj1 (PrepareScene_faults cramped_scene decodes_RGB
                    counting_driver Hinv Hmax) Hnoroom).
  - reflexivity.
  - exact (proj2 (PrepareScene_faults unprepared_scene_without_shader
                    decodes_RGB counting_driver Hinv' Hmax') Hroom eq_refl).
Defined.

Lemma prepared_scene_shader : m_pShaderManager (object prepared_scene) ≠ None.
Proof.
  assert (is_NULL (m_pShaderManager (object prepared_scene)) = false) as H
    by (by vm_compute).
  by destruct (m_pShaderManager (object prepared_scene)).
Qed.

Lemma prepared_scene_registry_ok : registry_ok (object prepared_scene).
Proof. by vm_compute. Qed.

Lemma RenderScene_returns_with_111_draws_witness :
  m_pShaderManager (object prepared_scene) ≠ None ∧
  registry_ok (object prepared_scene) ∧
  ∃ scene',
    RenderScene prepared_scene some_vec3 some_vec3 (λ _, some_material)
      = Ok scene' ∧
    same_registries (object prepared_scene) (object scene') ∧
    m_pShaderManager (object scene') ≠ None ∧
    loaded_shapes (m_basicMeshes scene')
      = loaded_shapes (m_basicMeshes prepared_scene) ∧
    (draws (m_basicMeshes scene')).*1
      = (draws (m_basicMeshes prepared_scene)).*1
        ++ drawn_shapes RenderScene_body ∧
    length (drawn_shapes RenderScene_body) = 111%nat.
Proof.
  split; [exact prepared_scene_shader|].
  split; [exact prepared_scene_registry_ok|].
  exact (RenderScene_returns_with_111_draws prepared_scene some_vec3
           some_vec3 (λ _, some_material) prepared_scene_shader
           prepared_scene_registry_ok).
Defined.


(** With the materials defined and with none. *)
Lemma RenderScene_without_shader_manager_witness :
  m_pShaderManager scene_with_materials_without_shader = None ∧
  m_objectMaterials scene_with_materials_without_shader ≠ [] ∧
  RenderScene (mk_Scene scene_with_materials_without_shader []) some_vec3
    some_vec3 (λ _, some_material) = Undefined NullDereference ∧
  m_pShaderManager (object unprepared_scene_without_shader) = None ∧
  m_objectMaterials (object unprepared_scene_without_shader) = [] ∧
  ∃ scene',
    RenderScene unprepared_scene_without_shader some_vec3 some_vec3
      (λ _, some_material) = Ok scene' ∧
    object scene' = object unprepared_scene_without_shader ∧
    draws (m_basicMeshes scene')
    = draws (m_basicMeshes unprepared_scene_without_shader)
      ++ ((λ shape, (shape, None)) <$> drawn_shapes RenderScene_body).
Proof.
  assert (m_objectMaterials scene_with_materials_without_shader ≠ [])
    as Hmats by done.
  split; [reflexivity|]. split; [exact Hmats|]. split.
  { exact (proj1 (RenderScene_without_shader_manager
                    (mk_Scene scene_with_materials_without_shader [])
                    some_vec3 some_vec3 (λ _, some_material) eq_refl)
             Hmats). }
  split; [reflexivity|]. split; [reflexivity|].
  exact (proj2 (RenderScene_without_shader_manager
                  unprepared_scene_without_shader some_vec3 some_vec3
                  (λ _, some_material) eq_refl) eq_refl).
Defined.

Lemma PrepareScene_unprepared_scene :
  PrepareScene unprepared_scene decodes_RGB counting_driver
  = Ok prepared_scene.
Proof.
  assert (match PrepareScene unprepared_scene decodes_RGB counting_driver
          with Ok _ => true | Undefined _ => false end = true) as H
    by (by vm_compute).
  unfold prepared_scene.
  by destruct (PrepareScene unprepared_scene decodes_RGB counting_driver).
Qed.

Lemma RenderScene_requests_against_PrepareScene_witness :
  PrepareScene unprepared_scene decodes_RGB counting_driver
    = Ok prepared_scene ∧
  registry_inv (object unprepared_scene) ∧
  Z.of_nat (length (m_textureIDs (object unprepared_scene))) ≤ INT_MAX ∧
  m_loadedTextures (object unprepared_scene) = 0 ∧
  m_objectMaterials (object unprepared_scene) = [] ∧
  (∀ filename tag, (filename, tag) ∈ scene_textures →
                   decodable decodes_RGB filename) ∧
  (∀ tag, tag ∈ texture_tags RenderScene_body →
     (FindTextureSlot (object prepared_scene) tag = Ok (-1) ↔
      tag = "kettlebell_blue" ∨ tag = "whiteWall")) ∧
  (∀ tag, tag ∈ material_tags RenderScene_body →
     (list_find (material_has_tag tag)
        (m_objectMaterials (object prepared_scene))
      = None ↔ tag = "rubberDumbell")) ∧
  (∀ shape, shape ∈ drawn_shapes RenderScene_body →
     shape ∈ loaded_shapes (m_basicMeshes prepared_scene)).
Proof.
  assert (registry_inv (object unprepared_scene)) as Hinv by (by vm_compute).
  assert (Z.of_nat (length (m_textureIDs (object unprepared_scene)))
          ≤ INT_MAX) as Hmax by (by vm_compute).
  assert (∀ filename tag, (filename, tag) ∈ scene_textures →
                          decodable decodes_RGB filename) as Hdec.
  { intros filename tag _. exists (mk_Image 64 64 3). by split; [|left]. }
  split; [exact PrepareScene_unprepared_scene|]. split; [exact Hinv|].
  split; [exact Hmax|]. split; [reflexivity|]. split; [reflexivity|].
  split; [exact Hdec|].
  exact (RenderScene_requests_against_PrepareScene unprepared_scene
           decodes_RGB counting_driver prepared_scene
           PrepareScene_unprepared_scene Hinv Hmax eq_refl eq_refl Hdec).
Defined.
